(** * RAG demo block of hugegraph-llm: answer orchestration, batch runner,
      upload loader and evaluation driver.

    Shallow embedding of
    [hugegraph_llm/demo/rag_demo/rag_block.py]: the functions [rag_answer],
    [read_file_to_excel], [several_rag_answer] and [evaluate_rag], over an
    explicit program state (the process-wide [prompt] object, the persisted
    prompt file, the question and answer spreadsheets) and a chronological
    trace of the calls made to the collaborators. *)

From Stdlib Require Import ZArith QArith List String Ascii Lia.
From stdpp Require Import base option list gmap strings pretty.

Local Open Scope string_scope.
Local Open Scope list_scope.
Local Set Warnings "-register-all".

(** ** Python values *)

(** The Python objects that flow through the block: radio-button values
    ([True], [False], [None]), spreadsheet cells (strings, or the float NaN
    that pandas uses for an empty cell), answers and retrieved contexts. *)
Inductive pyobj : Type :=
| PyNone
| PyBool (b : bool)
| PyInt (z : Z)
| PyNaN
| PyStr (s : string)
| PyList (l : list pyobj).

(** [bool(x)]: the truth value Python gives an object in [if x], [not x]
    and [x or y]. *)
Definition py_truthy (x : pyobj) : bool :=
  match x with
  | PyNone => false
  | PyBool b => b
  | PyInt z => negb (z =? 0)%Z
  | PyNaN => true
  | PyStr s => negb (s =? "")%string
  | PyList l => match l with [] => false | _ => true end
  end.

(** [x or y]: the first operand when it is truthy, else the second. *)
Definition py_or (x y : pyobj) : pyobj := if py_truthy x then x else y.

(** [x is False]: identity with the [False] singleton. *)
Definition py_is_False (x : pyobj) : bool :=
  match x with PyBool false => true | _ => false end.

(** [x == y]. NaN is unequal to everything, itself included; [True == 1]. *)
Fixpoint py_eq (x y : pyobj) : bool :=
  match x, y with
  | PyNone, PyNone => true
  | PyBool a, PyBool b => Bool.eqb a b
  | PyBool a, PyInt z | PyInt z, PyBool a => (z =? (if a then 1 else 0))%Z
  | PyInt a, PyInt b => (a =? b)%Z
  | PyStr a, PyStr b => (a =? b)%string
  | PyList a, PyList b =>
      (fix go (a b : list pyobj) : bool :=
         match a, b with
         | [], [] => true
         | u :: a', v :: b' => py_eq u v && go a' b'
         | _, _ => false
         end) a b
  | _, _ => false
  end.

(** [x != y]. *)
Definition py_ne (x y : pyobj) : bool := negb (py_eq x y).

(** [pandas.isna] on one cell. *)
Definition py_isna (x : pyobj) : bool :=
  match x with PyNone | PyNaN => true | _ => false end.

(** [x if x else None]. *)
Definition py_or_None (x : pyobj) : pyobj := if py_truthy x then x else PyNone.

(** [s.endswith(suffix)]. *)
Definition endswith (s suffix : string) : bool :=
  (String.length suffix <=? String.length s)%nat &&
  (substring (String.length s - String.length suffix) (String.length suffix) s
   =? suffix)%string.

(** ** Data frames *)

(** A pandas [DataFrame] with the default [RangeIndex]: the number of rows
    and the columns in their order, each with its cells. *)
Record DataFrame : Type := mkDF {
  df_len : nat;
  df_cols : list (string * list pyobj)
}.

(** [pd.DataFrame()]. *)
Definition df_empty : DataFrame := mkDF 0 [].

(** [df.columns]. *)
Definition columns (df : DataFrame) : list string := (df_cols df).*1.

Fixpoint assoc_get {A} (c : string) (l : list (string * A)) : option A :=
  match l with
  | [] => None
  | (k, v) :: l' => if (k =? c)%string then Some v else assoc_get c l'
  end.

(** Replace the value of the first entry named [c]; a new name goes last. *)
Fixpoint assoc_set {A} (c : string) (v : A) (l : list (string * A))
  : list (string * A) :=
  match l with
  | [] => [(c, v)]
  | (k, w) :: l' =>
      if (k =? c)%string then (k, v) :: l' else (k, w) :: assoc_set c v l'
  end.

(** [c in df.columns]. *)
Definition has_column (df : DataFrame) (c : string) : bool :=
  existsb (String.eqb c) (columns df).

(** [df[c]], as the list of its cells; [None] stands for the [KeyError]. *)
Definition df_col (df : DataFrame) (c : string) : option (list pyobj) :=
  assoc_get c (df_cols df).

(** The cell [df.at[i, c]]. *)
Definition df_at (df : DataFrame) (i : nat) (c : string) : option pyobj :=
  col ← df_col df c; col !! i.

(** [df[c] = v] with a scalar [v]: the whole column is set (created last
    when new). *)
Definition df_setitem (df : DataFrame) (c : string) (v : pyobj) : DataFrame :=
  mkDF (df_len df) (assoc_set c (replicate (df_len df) v) (df_cols df)).

(** [df.at[i, c] = v] for a label [i] of the frame's own index: one cell is
    written; a new column is created last, NaN in its other rows. *)
Definition df_set_at (df : DataFrame) (i : nat) (c : string) (v : pyobj)
  : DataFrame :=
  let old := default (replicate (df_len df) PyNaN) (df_col df c) in
  mkDF (df_len df) (assoc_set c (<[i := v]> old) (df_cols df)).

(** [l[:n]] on a Python sequence. *)
Definition py_slice_to {A} (n : Z) (l : list A) : list A :=
  if (0 <=? n)%Z then take (Z.to_nat n) l
  else take (length l - Z.to_nat (- n)) l.

(** [df.head(n)]. *)
Definition df_head (n : Z) (df : DataFrame) : DataFrame :=
  mkDF (length (py_slice_to n (seq 0 (df_len df))))
       (map (fun '(c, cells) => (c, py_slice_to n cells)) (df_cols df)).

(** [df.dropna(axis=1, how="all")]: a column whose cells are all missing
    is dropped. *)
Definition df_dropna_cols (df : DataFrame) : DataFrame :=
  mkDF (df_len df)
       (List.filter (fun '(_, cells) => negb (forallb py_isna cells)) (df_cols df)).

(** [df[[c for c in names if c in df.columns]]]. *)
Definition df_project (names : list string) (df : DataFrame) : DataFrame :=
  mkDF (df_len df)
       (omap (fun c => cells ← df_col df c; Some (c, cells)) names).

(** [df[c] = df[c].apply(f)] for a total [f]. *)
Definition df_apply (c : string) (f : pyobj -> pyobj) (df : DataFrame)
  : DataFrame :=
  match df_col df c with
  | Some cells => mkDF (df_len df) (assoc_set c (map f cells) (df_cols df))
  | None => df
  end.

(** [pd.concat([a, b])]: the rows of [b] under those of [a]; the columns of
    [a], then those only [b] has; NaN where a frame lacks a column. *)
Definition df_concat (a b : DataFrame) : DataFrame :=
  let pad df c := default (replicate (df_len df) PyNaN) (df_col df c) in
  let names :=
    columns a ++ List.filter (fun c => negb (has_column a c)) (columns b) in
  mkDF (df_len a + df_len b) (map (fun c => (c, pad a c ++ pad b c)) names).

(** ** The pipeline, the program state and the trace *)

(** [rerank_method: Literal["bleu", "reranker"]]. *)
Inductive rerank_method : Type := bleu | reranker.

(** The operators a [RAGPipeline] is composed of, one per builder method,
    with the arguments the method was given. *)
Inductive stage : Type :=
| query_vector_index
| extract_keywords
| keywords_to_vid
| query_graphdb
| merge_dedup_rerank (graph_ratio : Q) (method : rerank_method)
                     (near_neighbor_first : bool)
                     (custom_related_information : string)
| synthesize_answer (answer_prompt : string).

(** The keyword arguments of [rag.run] ([verbose=True] is constant). *)
Record RunRequest : Type := mkRun {
  query : pyobj;
  run_raw_answer : pyobj;
  run_vector_only_answer : pyobj;
  run_graph_only_answer : pyobj;
  run_graph_vector_answer : pyobj
}.

(** What [rag.run] does: it returns the context mapping, raises a
    [ValueError], or raises another exception. *)
Inductive run_outcome : Type :=
| RunOk (context : gmap string pyobj)
| RunValueError (msg : string)
| RunException (msg : string).

(** The exceptions that leave the functions of the block. *)
Inductive exn : Type :=
| GrError (msg : string)
| ValueError (msg : string)
| KeyError (key : string)
| IndexError (msg : string)
| TypeError (msg : string)
| FileNotFoundError (msg : string).

(** The three fields of the [prompt] configuration object that this block
    reads and writes. *)
Record PromptConfig : Type := mkPrompt {
  default_question : pyobj;
  answer_prompt : string;
  custom_rerank_info : string
}.

(** The spreadsheets under [resource_path/demo]. *)
Inductive path : Type := answers_path | questions_path.

(** The columns of a ragas dataset built by [evaluate_rag]. *)
Record Dataset : Type := mkDataset {
  ds_question : list pyobj;
  ds_answer : list pyobj;
  ds_contexts : list pyobj;
  ds_ground_truth : list pyobj
}.

(** The observable calls, in the order they are made. *)
Inductive event : Type :=
| EvUpdateYaml (snapshot : PromptConfig)
| EvWarning (msg : string)
| EvStage (s : stage)
| EvRun (stages : list stage) (req : RunRequest)
| EvLogCritical (msg : string)
| EvProgress (done total : nat)
| EvRemove (p : path)
| EvToExcel (p : path) (df : DataFrame)
| EvEvaluate (dataset : Dataset) (metrics : list string)
| EvPrint (df : DataFrame).

Record State : Type := mkState {
  prompt : PromptConfig;               (* the process-wide [prompt] object *)
  yaml_file : PromptConfig;            (* the persisted prompt file *)
  questions_file : option DataFrame;   (* questions.xlsx, when it exists *)
  answers_file : option DataFrame;     (* questions_answers.xlsx, when it exists *)
  run_calls : nat;                     (* calls of [rag.run] made so far *)
  eval_calls : nat;                    (* calls of ragas [evaluate] made so far *)
  trace : list event
}.

(** ** A state and exception monad *)

Inductive outcome (A : Type) : Type :=
| Ok (a : A)
| Raise (e : exn).
Arguments Ok {A} a.
Arguments Raise {A} e.

(** A computation maps the state to its outcome and the state it leaves:
    the effects made before an exception stay. *)
Definition M (A : Type) : Type := State -> outcome A * State.

Definition ret {A} (a : A) : M A := fun s => (Ok a, s).

Definition raise {A} (e : exn) : M A := fun s => (Raise e, s).

Definition bind {A B} (m : M A) (k : A -> M B) : M B :=
  fun s => match m s with
           | (Ok a, s') => k a s'
           | (Raise e, s') => (Raise e, s')
           end.

Notation "'let*' x ':=' m 'in' k" := (bind m (fun x => k))
  (at level 10, x pattern, m at level 100, k at level 200).

Definition get_state : M State := fun s => (Ok s, s).

Definition emit (e : event) : M unit :=
  fun s => (Ok tt, mkState (prompt s) (yaml_file s) (questions_file s)
                           (answers_file s) (run_calls s) (eval_calls s)
                           (trace s ++ [e])).

Definition set_prompt (p : PromptConfig) : M unit :=
  fun s => (Ok tt, mkState p (yaml_file s) (questions_file s)
                           (answers_file s) (run_calls s) (eval_calls s)
                           (trace s)).

Definition set_file (p : path) (content : option DataFrame) : M unit :=
  fun s => (Ok tt,
            match p with
            | questions_path =>
                mkState (prompt s) (yaml_file s) content (answers_file s)
                        (run_calls s) (eval_calls s) (trace s)
            | answers_path =>
                mkState (prompt s) (yaml_file s) (questions_file s) content
                        (run_calls s) (eval_calls s) (trace s)
            end).

Definition get_file (p : path) : M (option DataFrame) :=
  fun s => (Ok match p with
               | questions_path => questions_file s
               | answers_path => answers_file s
               end, s).

(** [when c m]: [if c: m]. *)
Definition when (c : bool) (m : M unit) : M unit := if c then m else ret tt.

(** [gr.Warning(msg)]: a toast for the user; nothing is raised. *)
Definition gr_Warning (msg : string) : M unit := emit (EvWarning msg).

(** [log.critical(e)]. *)
Definition log_critical (msg : string) : M unit := emit (EvLogCritical msg).

(** Modelled from the spec: [prompt.update_yaml_file], of
    [hugegraph_llm.config], is not among the sources. The spec has it as the
    save of the configuration document: the stored snapshot is overwritten
    with the current fields of [prompt]. *)
Definition update_yaml_file : M unit :=
  fun s => (Ok tt, mkState (prompt s) (prompt s) (questions_file s)
                           (answers_file s) (run_calls s) (eval_calls s)
                           (trace s ++ [EvUpdateYaml (prompt s)])).

(** [os.remove(p)]. *)
Definition os_remove (p : path) : M unit :=
  let* _ := set_file p None in emit (EvRemove p).

(** [df.to_excel(p, index=False)]. *)
Definition to_excel (p : path) (df : DataFrame) : M unit :=
  let* _ := set_file p (Some df) in emit (EvToExcel p df).

(** [pd.read_excel(p)] of one of the block's own spreadsheets. *)
Definition read_excel (p : path) : M DataFrame :=
  let* f := get_file p in
  match f with
  | Some df => ret df
  | None => raise (FileNotFoundError "No such file or directory")
  end.

(** ** The collaborators *)

(** What the block calls and does not define: the execution of a composed
    pipeline, Python's [json] module, the ragas scorers and their registry,
    and the parsing of an uploaded file. [pipeline_run] and [ragas_evaluate]
    are given the number of earlier calls, so that a collaborator may answer
    differently from one call to the next. *)
Class Collaborators : Type := {
  pipeline_run : nat -> list stage -> RunRequest -> run_outcome;
  json_dumps : pyobj -> string;
  json_loads : pyobj -> exn + pyobj;
  RAGAS_METRICS_DICT : gmap string string;
  ragas_evaluate : nat -> Dataset -> list string -> exn + DataFrame;
  read_upload : string -> exn + DataFrame
}.

Section Block.

Context `{!Collaborators}.

(** ** [rag_answer] *)

(** What [rag_answer] returns: the four empty strings of the rejected
    request, or the four answers and the mapping of the three contexts. *)
Record Contexts : Type := mkContexts {
  vector_contexts : pyobj;
  graph_contexts : pyobj;
  graph_vector_contexts : pyobj
}.

Inductive answer_tuple : Type :=
| Tuple4 (raw vector_only graph_only graph_vector : pyobj)
| Tuple5 (raw vector_only graph_only graph_vector : pyobj)
         (contexts : Contexts).

(** [context.get(key, default)] and [context.get(key)]. *)
Definition ctx_get (context : gmap string pyobj) (key : string) (dflt : pyobj)
  : pyobj := default dflt (context !! key).

(** Lines 56-61 of [rag_answer]: the stored question, prompt and rerank hint
    are brought up to date with the request and saved, when one of them
    differs. *)
Definition reconcile (text : pyobj) (custom_related_information : string)
    (answer_prompt_ : string) : M unit :=
  let* s := get_state in
  let should_update_prompt :=
    py_ne (default_question (prompt s)) text
    || negb (answer_prompt (prompt s) =? answer_prompt_)%string in
  when (should_update_prompt
        || negb (custom_rerank_info (prompt s) =? custom_related_information)%string)
    (let* _ := set_prompt (mkPrompt text answer_prompt_ custom_related_information) in
     update_yaml_file).

(** Modelled from the spec: the class [RAGPipeline], of
    [hugegraph_llm.operators.graph_rag_task], is not among the sources. The
    spec has its stage operations composed and then executed by a single
    [run]: a builder method appends its operator to the pipeline, and the
    trace records the call. *)
Definition add_stage (rag : list stage) (st : stage) : M (list stage) :=
  let* _ := emit (EvStage st) in ret (rag ++ [st]).

(** [rag.run(...)]: the composed pipeline is handed to the collaborator,
    as its next call. *)
Definition rag_run (rag : list stage) (req : RunRequest) : M run_outcome :=
  fun s =>
    (Ok (pipeline_run (run_calls s) rag req),
     mkState (prompt s) (yaml_file s) (questions_file s) (answers_file s)
             (S (run_calls s)) (eval_calls s) (trace s ++ [EvRun rag req])).

Definition rag_answer (text : pyobj)
    (raw_answer vector_only_answer graph_only_answer graph_vector_answer : pyobj)
    (graph_ratio : Q) (method : rerank_method) (near_neighbor_first : bool)
    (custom_related_information : string) (answer_prompt_ : string)
  : M answer_tuple :=
  let* _ := reconcile text custom_related_information answer_prompt_ in
  let vector_search := py_or vector_only_answer graph_vector_answer in
  let graph_search := py_or graph_only_answer graph_vector_answer in
  if py_is_False raw_answer && negb (py_truthy vector_search)
     && negb (py_truthy graph_search)
  then
    let* _ := gr_Warning "Please select at least one generate mode." in
    ret (Tuple4 (PyStr "") (PyStr "") (PyStr "") (PyStr ""))
  else
    let rag := [] in
    let* rag :=
      if py_truthy vector_search then add_stage rag query_vector_index
      else ret rag in
    let* rag :=
      if py_truthy graph_search then
        let* rag := add_stage rag extract_keywords in
        let* rag := add_stage rag keywords_to_vid in
        add_stage rag query_graphdb
      else ret rag in
    let* rag :=
      add_stage rag (merge_dedup_rerank graph_ratio method near_neighbor_first
                                        custom_related_information) in
    let* rag := add_stage rag (synthesize_answer answer_prompt_) in
    let* r := rag_run rag (mkRun text raw_answer vector_only_answer
                                 graph_only_answer graph_vector_answer) in
    match r with
    | RunOk context =>
        let* _ :=
          when (py_truthy (ctx_get context "switch_to_bleu" PyNone))
            (gr_Warning
               "Online reranker fails, automatically switches to local bleu rerank.") in
        ret (Tuple5
               (ctx_get context "raw_answer_result" (PyStr ""))
               (ctx_get context "vector_only_answer_result" (PyStr ""))
               (ctx_get context "graph_only_answer_result" (PyStr ""))
               (ctx_get context "graph_vector_answer_result" (PyStr ""))
               (mkContexts (ctx_get context "vector_contexts" PyNone)
                           (ctx_get context "graph_contexts" PyNone)
                           (ctx_get context "graph_vector_contexts" PyNone)))
    | RunValueError msg =>
        let* _ := log_critical msg in
        raise (GrError msg)
    | RunException msg =>
        let* _ := log_critical msg in
        raise (GrError ("An unexpected error occurred: " +:+ msg))
    end.

(** ** The back-testing functions of [create_rag_block] *)

Definition tests_df_headers : list string :=
  [ "Question"; "Graph-only Answer"; "Graph-Vector Answer";
    "Vector-only Answer"; "Basic LLM Answer"; "Expected Answer" ].

(** A Python [dict] literal, in its insertion order. *)
Definition rag_answer_header_dict : list (string * string) :=
  [ ("Vector-only Answer", "Vector Contexts");
    ("Graph-only Answer", "Graph Contexts");
    ("Graph-Vector Answer", "Graph-Vector Contexts") ].

(** The result, or the exception, of a collaborator. *)
Definition lift {A} (r : exn + A) : M A :=
  match r with
  | inl e => raise e
  | inr a => ret a
  end.

(** [df[c]] where the column has to exist. *)
Definition df_getitem (df : DataFrame) (c : string) : M (list pyobj) :=
  match df_col df c with
  | Some cells => ret cells
  | None => raise (KeyError c)
  end.

(** The effect of [nrows=line_count] on the table that is read. *)
Definition nrows (line_count : option nat) (df : DataFrame) : DataFrame :=
  match line_count with
  | Some n => df_head (Z.of_nat n) df
  | None => df
  end.

(** [pd.read_excel(name, nrows=line_count)] and [pd.read_csv] of an upload. *)
Definition read_table (name : string) (line_count : option nat) : M DataFrame :=
  let* df := lift (read_upload name) in
  ret (nrows line_count df).

(** [file] is a [NamedString], a [str] whose [name] is the string itself, or
    [None] when the upload was cleared. *)
Definition read_file_to_excel (file : option string) (line_count : option nat)
  : M (DataFrame * nat) :=
  let* answers := get_file answers_path in
  let* _ := when (bool_decide (is_Some answers)) (os_remove answers_path) in
  match file with
  | None => ret (df_empty, 1)
  | Some name =>
      if (name =? "")%string then ret (df_empty, 1)
      else
        let* df :=
          if endswith name ".xlsx" then read_table name line_count
          else if endswith name ".csv" then read_table name line_count
          else raise (GrError "Only support .xlsx and .csv files.") in
        let* _ := to_excel questions_path df in
        if (40 <? df_len df)%nat then ret (df_head 40 df, 40)
        else
          let* _ := when (df_len df =? 0)%nat (gr_Warning "No data in the file.") in
          ret (df, df_len df)
  end.

(** The body of the loop of [several_rag_answer] for the row labelled
    [index]. [df0] is the frame as it was read: [df.iterrows()] takes its
    rows from the values the frame had when the loop began. *)
Definition several_rag_answer_row (df0 : DataFrame) (total_rows : nat)
    (is_raw_answer is_vector_only_answer is_graph_only_answer
       is_graph_vector_answer : pyobj)
    (graph_ratio : Q) (method : rerank_method) (near_neighbor_first : bool)
    (custom_related_information : string) (answer_prompt_ : string)
    (index : nat) (df : DataFrame) : M DataFrame :=
  let* question :=
    match df_cols df0 with
    | (_, cells) :: _ =>
        match cells !! index with
        | Some q => ret q
        | None => raise (IndexError "index out of bounds")
        end
    | [] => raise (IndexError "single positional indexer is out-of-bounds")
    end in
  let* r := rag_answer question is_raw_answer is_vector_only_answer
                       is_graph_only_answer is_graph_vector_answer
                       graph_ratio method near_neighbor_first
                       custom_related_information answer_prompt_ in
  match r with
  | Tuple4 _ _ _ _ =>
      raise (ValueError "not enough values to unpack (expected 5, got 4)")
  | Tuple5 llm_answer vector_only_answer graph_only_answer
           graph_vector_answer contexts =>
      let df := df_set_at df index "Basic LLM Answer" (py_or_None llm_answer) in
      let df := df_set_at df index "Vector-only Answer"
                          (py_or_None vector_only_answer) in
      let df := df_set_at df index "Graph-only Answer"
                          (py_or_None graph_only_answer) in
      let df := df_set_at df index "Graph-Vector Answer"
                          (py_or_None graph_vector_answer) in
      let df :=
        if has_column df "Vector Contexts" then df
        else df_setitem (df_setitem (df_setitem df "Vector Contexts" PyNone)
                                    "Graph Contexts" PyNone)
                        "Graph-Vector Contexts" PyNone in
      let df := df_set_at df index "Vector Contexts" (vector_contexts contexts) in
      let df := df_set_at df index "Graph Contexts" (graph_contexts contexts) in
      let df := df_set_at df index "Graph-Vector Contexts"
                          (graph_vector_contexts contexts) in
      let* _ := emit (EvProgress (index + 1) total_rows) in
      ret df
  end.

(** [for x in xs: df = body x df]. *)
Fixpoint for_each {A B} (xs : list A) (body : A -> B -> M B) (acc : B) : M B :=
  match xs with
  | [] => ret acc
  | x :: xs' => let* acc' := body x acc in for_each xs' body acc'
  end.

(** The serialisation of the context columns that are still there, in the
    order of [rag_answer_header_dict.values()]. *)
Definition dump_contexts (df : DataFrame) : DataFrame :=
  fold_left
    (fun df header =>
       if has_column df header
       then df_apply header (fun x => PyStr (json_dumps x)) df
       else df)
    (rag_answer_header_dict.*2) df.

Definition several_rag_answer
    (is_raw_answer is_vector_only_answer is_graph_only_answer
       is_graph_vector_answer : pyobj)
    (graph_ratio : Q) (method : rerank_method) (near_neighbor_first : bool)
    (custom_related_information : string) (answer_prompt_ : string)
    (answer_max_line_count : Z) : M (DataFrame * path) :=
  let* df := read_excel questions_path in
  let total_rows := df_len df in
  let* df :=
    for_each (seq 0 total_rows)
      (several_rag_answer_row df total_rows is_raw_answer
         is_vector_only_answer is_graph_only_answer is_graph_vector_answer
         graph_ratio method near_neighbor_first custom_related_information
         answer_prompt_)
      df in
  let df := df_dropna_cols df in
  let df_to_show :=
    df_project (List.filter (has_column df) tests_df_headers) df in
  let df := dump_contexts df in
  let* _ := to_excel answers_path df in
  ret (df_head answer_max_line_count df_to_show, answers_path).

(** [df[c] = df[c].apply(json.loads)]. *)
Fixpoint loads_all (cells : list pyobj) : exn + list pyobj :=
  match cells with
  | [] => inr []
  | x :: cells' =>
      match json_loads x with
      | inl e => inl e
      | inr v =>
          match loads_all cells' with
          | inl e => inl e
          | inr vs => inr (v :: vs)
          end
      end
  end.

(** [[RAGAS_METRICS_DICT[metric] for metric in metrics]]. *)
Fixpoint lookup_metrics (metrics : list string) : exn + list string :=
  match metrics with
  | [] => inr []
  | m :: metrics' =>
      match RAGAS_METRICS_DICT !! m with
      | None => inl (KeyError m)
      | Some scorer =>
          match lookup_metrics metrics' with
          | inl e => inl e
          | inr scorers => inr (scorer :: scorers)
          end
      end
  end.

(** [evaluate(dataset, metrics=...)], as its next call, and
    [score.scores.to_pandas()]. *)
Definition evaluate (dataset : Dataset) (metrics : list string) : M DataFrame :=
  fun s =>
    let s' := mkState (prompt s) (yaml_file s) (questions_file s)
                      (answers_file s) (run_calls s) (S (eval_calls s))
                      (trace s ++ [EvEvaluate dataset metrics]) in
    match ragas_evaluate (eval_calls s) dataset metrics with
    | inl e => (Raise e, s')
    | inr scores => (Ok scores, s')
    end.

(** [df.insert(0, column, values)] with a list: a frame without rows takes
    the length of [values]; otherwise the lengths have to agree (the message
    of pandas also gives the two lengths). *)
Definition df_insert0 (column : string) (values : list pyobj) (df : DataFrame)
  : M DataFrame :=
  if has_column df column
  then raise (ValueError ("cannot insert " +:+ column +:+ ", already exists"))
  else if (df_len df =? 0)%nat && negb (length values =? 0)%nat
  then ret (mkDF (length values)
                 ((column, values)
                  :: map (fun '(c, _) => (c, replicate (length values) PyNaN))
                         (df_cols df)))
  else if (length values =? df_len df)%nat
  then ret (mkDF (df_len df) ((column, values) :: df_cols df))
  else raise (ValueError "Length of values does not match length of index").

(** The body of the loop of [evaluate_rag] for one answer column; the state
    of the loop is [answers_df] and the scores gathered so far. *)
Definition evaluate_rag_mode (metrics : list string) (answer : string)
    (acc : DataFrame * DataFrame) : M (DataFrame * DataFrame) :=
  let '(answers_df, df) := acc in
  let* context_header :=
    match assoc_get answer rag_answer_header_dict with
    | Some h => ret h
    | None => raise (KeyError answer)
    end in
  let* cells := df_getitem answers_df context_header in
  let* loaded := lift (loads_all cells) in
  let answers_df :=
    mkDF (df_len answers_df) (assoc_set context_header loaded (df_cols answers_df)) in
  let* q := df_getitem answers_df "Question" in
  let* a := df_getitem answers_df answer in
  let* c := df_getitem answers_df context_header in
  let* g := df_getitem answers_df "Expected Answer" in
  let dataset := mkDataset q a c g in
  let* scorers := lift (lookup_metrics metrics) in
  let* scores := evaluate dataset scorers in
  let* _ := emit (EvPrint scores) in
  ret (answers_df, df_concat df scores).

Definition evaluate_rag (metrics : list string) (num : Z) : M DataFrame :=
  let* answers_df := read_excel answers_path in
  let answers_df := df_head num answers_df in
  if negb (existsb (fun c => existsb (String.eqb c) (rag_answer_header_dict.*1))
                   (columns answers_df))
  then raise (GrError "No RAG answers found in the answer file.")
  else
    let rag_answers :=
      List.filter (has_column answers_df) (rag_answer_header_dict.*1) in
    let* r :=
      for_each rag_answers (evaluate_rag_mode metrics) (answers_df, df_empty) in
    df_insert0 "method" (map PyStr rag_answers) (snd r).

End Block.

(** ** Reading a run

    The vocabulary of the statements: what a call added to the trace, the
    condition under which a request is rejected, the pipeline a request
    composes, and the state a reconciliation leaves. *)

(** The events a computation appends to the trace of [s]. *)
Definition emitted {A} (m : M A) (s : State) : list event :=
  drop (length (trace s)) (trace (m s).2).

(** [s] with further events at the end of its trace. *)
Definition push (evs : list event) (s : State) : State :=
  mkState (prompt s) (yaml_file s) (questions_file s) (answers_file s)
          (run_calls s) (eval_calls s) (trace s ++ evs).

(** A call to a retrieval or synthesis collaborator: the composition of a
    pipeline operator, or the run of the pipeline. *)
Definition is_pipeline_event (e : event) : bool :=
  match e with
  | EvStage _ | EvRun _ _ => true
  | _ => false
  end.

(** The operators composed, in order, in a stretch of the trace. *)
Definition stages_of (t : list event) : list stage :=
  omap (fun e => match e with EvStage st => Some st | _ => None end) t.

(** The condition of line 65. *)
Definition request_rejected (raw vo go gv : pyobj) : bool :=
  py_is_False raw && negb (py_truthy (py_or vo gv))
  && negb (py_truthy (py_or go gv)).

(** The pipeline of lines 69-76. *)
Definition composed_stages (vo go gv : pyobj) (graph_ratio : Q)
    (method : rerank_method) (near_neighbor_first : bool)
    (custom_related_information answer_prompt_ : string) : list stage :=
  (if py_truthy (py_or vo gv) then [query_vector_index] else [])
  ++ (if py_truthy (py_or go gv)
      then [extract_keywords; keywords_to_vid; query_graphdb] else [])
  ++ [merge_dedup_rerank graph_ratio method near_neighbor_first
                         custom_related_information;
      synthesize_answer answer_prompt_].

(** One of the three incoming values differs ([!=]) from the stored one. *)
Definition snapshot_differs (p : PromptConfig) (text : pyobj)
    (answer_prompt_ custom_related_information : string) : bool :=
  py_ne (default_question p) text
  || negb (answer_prompt p =? answer_prompt_)%string
  || negb (custom_rerank_info p =? custom_related_information)%string.

(** The snapshot overwritten with the incoming values, and saved. *)
Definition overwritten (text : pyobj)
    (answer_prompt_ custom_related_information : string) (s : State) : State :=
  let p := mkPrompt text answer_prompt_ custom_related_information in
  mkState p p (questions_file s) (answers_file s) (run_calls s) (eval_calls s)
          (trace s ++ [EvUpdateYaml p]).

Definition reconciled (text : pyobj)
    (answer_prompt_ custom_related_information : string) (s : State) : State :=
  if snapshot_differs (prompt s) text answer_prompt_ custom_related_information
  then overwritten text answer_prompt_ custom_related_information s
  else s.

(** [s] after one more run of a pipeline. *)
Definition ran (rag : list stage) (req : RunRequest) (s : State) : State :=
  mkState (prompt s) (yaml_file s) (questions_file s) (answers_file s)
          (S (run_calls s)) (eval_calls s) (trace s ++ [EvRun rag req]).

(** The five components of a successful answer. *)
Definition answer_of (context : gmap string pyobj) : answer_tuple :=
  Tuple5 (ctx_get context "raw_answer_result" (PyStr ""))
         (ctx_get context "vector_only_answer_result" (PyStr ""))
         (ctx_get context "graph_only_answer_result" (PyStr ""))
         (ctx_get context "graph_vector_answer_result" (PyStr ""))
         (mkContexts (ctx_get context "vector_contexts" PyNone)
                     (ctx_get context "graph_contexts" PyNone)
                     (ctx_get context "graph_vector_contexts" PyNone)).

Definition no_mode_warning : event :=
  EvWarning "Please select at least one generate mode.".

Definition fallback_advisory : event :=
  EvWarning "Online reranker fails, automatically switches to local bleu rerank.".

Definition is_fallback_advisory (e : event) : bool :=
  match e with
  | EvWarning msg =>
      (msg =? "Online reranker fails, automatically switches to local bleu rerank.")%string
  | _ => false
  end.

(** The number of fallback advisories in a stretch of the trace. *)
Definition advisories (t : list event) : nat :=
  length (List.filter is_fallback_advisory t).

(** What a reconciliation appends to the trace. *)
Definition reconcile_events (text : pyobj)
    (answer_prompt_ custom_related_information : string) (s : State)
  : list event :=
  if snapshot_differs (prompt s) text answer_prompt_ custom_related_information
  then [EvUpdateYaml (mkPrompt text answer_prompt_ custom_related_information)]
  else [].

Definition is_vector_stage (st : stage) : bool :=
  match st with query_vector_index => true | _ => false end.

Definition is_graph_stage (st : stage) : bool :=
  match st with
  | extract_keywords | keywords_to_vid | query_graphdb => true
  | _ => false
  end.

(** What the end of a run appends to the trace: the fallback advisory when
    the context asks for it, the critical log line when the run raised. *)
Definition run_tail (r : run_outcome) : list event :=
  match r with
  | RunOk context =>
      if py_truthy (ctx_get context "switch_to_bleu" PyNone)
      then [fallback_advisory] else []
  | RunValueError msg | RunException msg => [EvLogCritical msg]
  end.

(** What the body of the batch loop writes into the frame for the row
    labelled [index] (lines 263-273). *)
Definition write_row (df : DataFrame) (index : nat) (r : answer_tuple)
  : DataFrame :=
  match r with
  | Tuple4 _ _ _ _ => df
  | Tuple5 llm_answer vector_only_answer graph_only_answer
           graph_vector_answer contexts =>
      let df := df_set_at df index "Basic LLM Answer" (py_or_None llm_answer) in
      let df := df_set_at df index "Vector-only Answer"
                          (py_or_None vector_only_answer) in
      let df := df_set_at df index "Graph-only Answer"
                          (py_or_None graph_only_answer) in
      let df := df_set_at df index "Graph-Vector Answer"
                          (py_or_None graph_vector_answer) in
      let df :=
        if has_column df "Vector Contexts" then df
        else df_setitem (df_setitem (df_setitem df "Vector Contexts" PyNone)
                                    "Graph Contexts" PyNone)
                        "Graph-Vector Contexts" PyNone in
      let df := df_set_at df index "Vector Contexts" (vector_contexts contexts) in
      let df := df_set_at df index "Graph Contexts" (graph_contexts contexts) in
      df_set_at df index "Graph-Vector Contexts" (graph_vector_contexts contexts)
  end.

(** The state after the row of question [q] has been answered from
    [context] and reported. *)
Definition after_row (q raw vo go gv : pyobj) (graph_ratio : Q)
    (method : rerank_method) (near_neighbor_first : bool)
    (custom_related_information answer_prompt_ : string)
    (context : gmap string pyobj) (index total_rows : nat) (s : State) : State :=
  let rag := composed_stages vo go gv graph_ratio method near_neighbor_first
                             custom_related_information answer_prompt_ in
  push (run_tail (RunOk context) ++ [EvProgress (index + 1) total_rows])
       (ran rag (mkRun q raw vo go gv)
            (push (map EvStage rag)
                  (reconciled q answer_prompt_ custom_related_information s))).

(** The state after the answer file, when there is one, has been removed. *)
Definition removed (s : State) : State :=
  match answers_file s with
  | Some _ =>
      mkState (prompt s) (yaml_file s) (questions_file s) None
              (run_calls s) (eval_calls s) (trace s ++ [EvRemove answers_path])
  | None => s
  end.

(** The state after [df] has been written as the question file. *)
Definition stored (df : DataFrame) (s : State) : State :=
  mkState (prompt s) (yaml_file s) (Some df) (answers_file s)
          (run_calls s) (eval_calls s)
          (trace s ++ [EvToExcel questions_path df]).

(** Every column has one cell for each row. *)
Definition df_wf (df : DataFrame) : bool :=
  forallb (fun '(_, cells) => (length cells =? df_len df)%nat) (df_cols df).

(** [row.iloc[0]] of the row labelled [i]. *)
Definition question_at (df : DataFrame) (i : nat) : option pyobj :=
  match df_cols df with
  | (_, cells) :: _ => cells !! i
  | [] => None
  end.

(** The landmarks of a batch in the trace: the run of a row's pipeline, and
    the progress report that ends the row. *)
Inductive mark : Type :=
| RowRun (question : pyobj)
| RowDone (done total : nat).

Definition marks_of (t : list event) : list mark :=
  omap (fun e => match e with
                 | EvRun _ req => Some (RowRun (query req))
                 | EvProgress d n => Some (RowDone d n)
                 | _ => None
                 end) t.

(** The landmarks of the row labelled [i]. *)
Definition row_marks (df : DataFrame) (i : nat) : list mark :=
  match question_at df i with
  | Some q => [RowRun q; RowDone (i + 1) (df_len df)]
  | None => []
  end.

(** The landmarks of the rows before [k], handled one after the other. *)
Definition marks_upto (df : DataFrame) (k : nat) : list mark :=
  flat_map (row_marks df) (seq 0 k).

(** The landmark of the run of the row labelled [k]. *)
Definition run_mark (df : DataFrame) (k : nat) : list mark :=
  match question_at df k with
  | Some q => [RowRun q]
  | None => []
  end.

(** The landmarks of a batch whose rows are handled one after the other:
    the run of row 0, its report, the run of row 1, its report, ... *)
Definition sequential_marks (df : DataFrame) : list mark :=
  marks_upto df (df_len df).

Definition run_raises (r : run_outcome) : bool :=
  match r with RunOk _ => false | _ => true end.

Definition is_to_excel (e : event) : bool :=
  match e with EvToExcel _ _ => true | _ => false end.

(** The answer columns that [evaluate_rag] recognises. *)
Definition recognized_modes : list string := rag_answer_header_dict.*1.

(** The recognised answer columns of a document, in the order of the
    document's own columns: the order the specification gives for the rows
    of an evaluation. *)
Definition modes_in_column_order (doc : DataFrame) : list string :=
  List.filter (fun c => existsb (String.eqb c) recognized_modes) (columns doc).

(** The recognised answer columns of a document, in the order of the
    registry [rag_answer_header_dict]. *)
Definition modes_in_registry_order (doc : DataFrame) : list string :=
  List.filter (has_column doc) recognized_modes.

Section Documents.

Context `{!Collaborators}.

(** The state after the answer document [doc] has been written. *)
Definition persisted (doc : DataFrame) (s : State) : State :=
  mkState (prompt s) (yaml_file s) (questions_file s) (Some doc)
          (run_calls s) (eval_calls s)
          (trace s ++ [EvToExcel answers_path doc]).

(** One step of [dump_contexts]: the column [c], when it is there, is
    serialised. *)
Definition dump_column (c : string) (d : DataFrame) : DataFrame :=
  if has_column d c then df_apply c (fun x => PyStr (json_dumps x)) d else d.

(** What [several_rag_answer] makes of the frame its loop leaves: the
    document it writes, and the preview it returns. *)
Definition answer_document (df : DataFrame) : DataFrame :=
  dump_contexts (df_dropna_cols df).

Definition answer_preview (answer_max_line_count : Z) (df : DataFrame)
  : DataFrame :=
  df_head answer_max_line_count
    (df_project (List.filter (has_column (df_dropna_cols df)) tests_df_headers)
                (df_dropna_cols df)).

(** The context column of every recognised answer column of [d] is there
    and its cells are parsed by [json.loads]. *)
Definition contexts_loadable (d : DataFrame) : bool :=
  forallb (fun m =>
             match assoc_get m rag_answer_header_dict with
             | Some h =>
                 match df_col d h with
                 | Some cells =>
                     match loads_all cells with
                     | inr _ => true
                     | inl _ => false
                     end
                 | None => false
                 end
             | None => false
             end)
          (modes_in_registry_order d).

End Documents.

(** ** The preview of the spreadsheets *)

(** [change_showing_excel]: the first [line_count] rows of the answer file,
    else of the question file, else of the template. [questions_template] is
    the template under [questions_template_path], when the file is there. *)
Definition change_showing_excel (questions_template : option DataFrame)
    (line_count : nat) : M DataFrame :=
  let* answers := get_file answers_path in
  if bool_decide (is_Some answers) then
    let* df := read_excel answers_path in
    ret (nrows (Some line_count) df)
  else
    let* questions := get_file questions_path in
    if bool_decide (is_Some questions) then
      let* df := read_excel questions_path in
      ret (nrows (Some line_count) df)
    else
      match questions_template with
      | Some df => ret (nrows (Some line_count) df)
      | None => raise (FileNotFoundError "No such file or directory")
      end.

(** ** More vocabulary *)

(** The message of the [gr.Error] that a failed run is turned into, and
    the line that is logged. *)
Definition error_message (r : run_outcome) : string :=
  match r with
  | RunOk _ => ""
  | RunValueError msg => msg
  | RunException msg => "An unexpected error occurred: " +:+ msg
  end.

Definition logged_message (r : run_outcome) : string :=
  match r with
  | RunOk _ => ""
  | RunValueError msg | RunException msg => msg
  end.

Definition is_update_yaml (e : event) : bool :=
  match e with EvUpdateYaml _ => true | _ => false end.

Definition is_run (e : event) : bool :=
  match e with EvRun _ _ => true | _ => false end.

Definition is_evaluate (e : event) : bool :=
  match e with EvEvaluate _ _ => true | _ => false end.

(** The columns that the loop of [several_rag_answer] writes, in the order
    in which it writes them for a row. *)
Definition written_columns : list string :=
  [ "Basic LLM Answer"; "Vector-only Answer"; "Graph-only Answer";
    "Graph-Vector Answer"; "Vector Contexts"; "Graph Contexts";
    "Graph-Vector Contexts" ].

Definition is_written (c : string) : bool :=
  existsb (String.eqb c) written_columns.

(** The value that the loop writes into the column [c] of a row answered
    with [r]. *)
Definition written_cell (r : answer_tuple) (c : string) : option pyobj :=
  match r with
  | Tuple4 _ _ _ _ => None
  | Tuple5 llm_answer vector_only_answer graph_only_answer
           graph_vector_answer contexts =>
      assoc_get c
        [ ("Basic LLM Answer", py_or_None llm_answer);
          ("Vector-only Answer", py_or_None vector_only_answer);
          ("Graph-only Answer", py_or_None graph_only_answer);
          ("Graph-Vector Answer", py_or_None graph_vector_answer);
          ("Vector Contexts", vector_contexts contexts);
          ("Graph Contexts", graph_contexts contexts);
          ("Graph-Vector Contexts", graph_vector_contexts contexts) ]
  end.

(** The columns of a frame after a column named [c] has been assigned:
    a new name goes last. *)
Definition add_column (cols : list string) (c : string) : list string :=
  if existsb (String.eqb c) cols then cols else cols ++ [c].

(** The columns of the frame once the loop of [several_rag_answer] has
    written a row: those it had, then those of [written_columns] it lacked. *)
Definition batch_columns (cols : list string) : list string :=
  cols ++ List.filter (fun c => negb (existsb (String.eqb c) cols)) written_columns.

(** The columns that [dump_contexts] serialises. *)
Definition is_context_column (c : string) : bool :=
  existsb (String.eqb c) (rag_answer_header_dict.*2).

(** The fields of the state other than the trace and the counters of calls
    are the same. *)
Definition same_store (s s' : State) : Prop :=
  prompt s' = prompt s /\ yaml_file s' = yaml_file s
  /\ questions_file s' = questions_file s /\ answers_file s' = answers_file s.

Section Cells.

Context `{!Collaborators}.

(** What the answer document holds for a value [v] that the loop has left
    in the column [c]: its JSON text in a context column, [v] itself
    elsewhere. *)
Definition document_cell (c : string) (v : pyobj) : pyobj :=
  if is_context_column c then PyStr (json_dumps v) else v.

End Cells.

Section Datasets.

Context `{!Collaborators}.

(** The dataset that the document [d] gives for the answer column
    [answer]: its questions, the answers of the column, the parsed cells of
    the context column, and the expected answers. *)
Definition dataset_of (d : DataFrame) (answer : string) : option Dataset :=
  match assoc_get answer rag_answer_header_dict with
  | None => None
  | Some context_header =>
      match df_col d context_header with
      | None => None
      | Some cells =>
          match loads_all cells with
          | inl _ => None
          | inr loaded =>
              match df_col d "Question" with
              | None => None
              | Some q =>
                  match df_col d answer with
                  | None => None
                  | Some a =>
                      match df_col d "Expected Answer" with
                      | None => None
                      | Some g => Some (mkDataset q a loaded g)
                      end
                  end
              end
          end
      end
  end.

(** The event [ev] is the scoring of the answer column [answer] of [d] with
    [scorers]. *)
Definition scores_column (d : DataFrame) (scorers : list string)
    (answer : string) (ev : event) : Prop :=
  exists ds, dataset_of d answer = Some ds /\ ev = EvEvaluate ds scorers.

End Datasets.

(** ** Concrete collaborators

    Stand-ins for the collaborators, on which the block can be run: a
    serialiser and a parser for the JSON that the context columns hold, and
    pipelines and scorers with fixed answers. *)

Module Demo.

Definition dquote : ascii := "034"%char.
Definition backslash : ascii := "092"%char.

(** The escapes of [json.dumps(..., ensure_ascii=False)] for the quote, the
    backslash, the newline, the carriage return and the tab. *)
Fixpoint escape (s : string) : string :=
  match s with
  | EmptyString => EmptyString
  | String c s' =>
      if Ascii.eqb c dquote then String backslash (String dquote (escape s'))
      else if Ascii.eqb c backslash
      then String backslash (String backslash (escape s'))
      else if Ascii.eqb c "010"%char then String backslash (String "n" (escape s'))
      else if Ascii.eqb c "013"%char then String backslash (String "r" (escape s'))
      else if Ascii.eqb c "009"%char then String backslash (String "t" (escape s'))
      else String c (escape s')
  end.

Definition join (sep : string) (l : list string) : string :=
  match l with
  | [] => ""
  | x :: l' => fold_left (fun acc y => acc +:+ sep +:+ y) l' x
  end.

Fixpoint dumps (x : pyobj) : string :=
  match x with
  | PyNone => "null"
  | PyBool true => "true"
  | PyBool false => "false"
  | PyInt z => pretty z
  | PyNaN => "NaN"
  | PyStr s => String dquote (escape s) +:+ String dquote ""
  | PyList l => "[" +:+ join ", " (map dumps l) +:+ "]"
  end.

Definition is_space (c : ascii) : bool :=
  Ascii.eqb c " " || Ascii.eqb c "010"%char || Ascii.eqb c "013"%char
  || Ascii.eqb c "009"%char.

Fixpoint skip_ws (s : string) : string :=
  match s with
  | String c s' => if is_space c then skip_ws s' else s
  | EmptyString => s
  end.

(** The text after the opening quote, up to the closing one. *)
Fixpoint parse_string_body (s : string) : option (string * string) :=
  match s with
  | EmptyString => None
  | String c rest =>
      if Ascii.eqb c dquote then Some ("", rest)
      else if Ascii.eqb c backslash then
        match rest with
        | String e rest' =>
            let plain :=
              if Ascii.eqb e "n" then Some "010"%char
              else if Ascii.eqb e "r" then Some "013"%char
              else if Ascii.eqb e "t" then Some "009"%char
              else if Ascii.eqb e dquote then Some dquote
              else if Ascii.eqb e backslash then Some backslash
              else if Ascii.eqb e "/" then Some "/"%char
              else None in
            match plain, parse_string_body rest' with
            | Some ch, Some (body, after) => Some (String ch body, after)
            | _, _ => None
            end
        | EmptyString => None
        end
      else
        match parse_string_body rest with
        | Some (body, after) => Some (String c body, after)
        | None => None
        end
  end.

Definition digit_of (c : ascii) : option Z :=
  let n := nat_of_ascii c in
  if (48 <=? n)%nat && (n <=? 57)%nat then Some (Z.of_nat (n - 48)) else None.

Fixpoint parse_digits (s : string) (acc : Z) : Z * string :=
  match s with
  | String c rest =>
      match digit_of c with
      | Some d => parse_digits rest (10 * acc + d)%Z
      | None => (acc, s)
      end
  | EmptyString => (acc, s)
  end.

Fixpoint drop_chars (n : nat) (s : string) : string :=
  match n, s with
  | S n', String _ s' => drop_chars n' s'
  | _, _ => s
  end.

Fixpoint parse_value (fuel : nat) (s : string) : option (pyobj * string) :=
  match fuel with
  | O => None
  | S fuel' =>
      match skip_ws s with
      | EmptyString => None
      | String c rest as t =>
          if Ascii.eqb c dquote then
            match parse_string_body rest with
            | Some (body, after) => Some (PyStr body, after)
            | None => None
            end
          else if Ascii.eqb c "[" then
            match skip_ws rest with
            | String "]" after => Some (PyList [], after)
            | _ => parse_elements fuel' rest []
            end
          else if String.prefix "null" t then Some (PyNone, drop_chars 4 t)
          else if String.prefix "true" t then Some (PyBool true, drop_chars 4 t)
          else if String.prefix "false" t then Some (PyBool false, drop_chars 5 t)
          else if String.prefix "NaN" t then Some (PyNaN, drop_chars 3 t)
          else if Ascii.eqb c "-" then
            match rest with
            | String d _ =>
                match digit_of d with
                | Some _ => let '(z, after) := parse_digits rest 0 in
                            Some (PyInt (- z), after)
                | None => None
                end
            | EmptyString => None
            end
          else
            match digit_of c with
            | Some _ => let '(z, after) := parse_digits t 0 in
                        Some (PyInt z, after)
            | None => None
            end
      end
  end
with parse_elements (fuel : nat) (s : string) (acc : list pyobj)
  : option (pyobj * string) :=
  match fuel with
  | O => None
  | S fuel' =>
      match parse_value fuel' s with
      | Some (v, rest) =>
          match skip_ws rest with
          | String "," rest' => parse_elements fuel' rest' (acc ++ [v])
          | String "]" rest' => Some (PyList (acc ++ [v]), rest')
          | _ => None
          end
      | None => None
      end
  end.

Definition loads (x : pyobj) : exn + pyobj :=
  match x with
  | PyStr s =>
      match parse_value (2 * String.length s + 2) s with
      | Some (v, rest) =>
          match skip_ws rest with
          | EmptyString => inr v
          | _ => inl (ValueError "Extra data")
          end
      | None => inl (ValueError "Expecting value")
      end
  | _ => inl (TypeError "the JSON object must be str, bytes or bytearray")
  end.

(** One score row for each sample, one column for each scorer; NaN is the
    score ragas reports when a scorer could not judge a sample. *)
Definition score_frame (dataset : Dataset) (scorers : list string) : DataFrame :=
  mkDF (length (ds_question dataset))
       (map (fun m => (m, replicate (length (ds_question dataset)) PyNaN))
            scorers).

Definition metrics : gmap string string :=
  {[ "faithfulness" := "faithfulness"; "context_recall" := "context_recall" ]}.

(** The context mapping of a run whose online reranker failed. *)
Definition fallback_context (question : pyobj) : gmap string pyobj :=
  {[ "graph_vector_answer_result" := PyStr "It is in the graph.";
     "graph_vector_contexts" := PyList [question; PyStr "a retrieved passage"];
     "switch_to_bleu" := PyBool true ]}.

Definition upload (name : string) : exn + DataFrame :=
  if (name =? "empty.xlsx")%string then inr (mkDF 0 [("Question", [])])
  else if (name =? "questions.csv")%string
  then inr (mkDF 2 [("Question", [PyStr "Who is Al Pacino?"; PyStr "Tell me about HugeGraph."])])
  else inl (FileNotFoundError name).

(** The online reranker fails on every run: each run falls back. *)
Definition always_fallback : Collaborators := {|
  pipeline_run := fun _ _ req => RunOk (fallback_context (query req));
  json_dumps := dumps;
  json_loads := loads;
  RAGAS_METRICS_DICT := metrics;
  ragas_evaluate := fun _ ds ms => inr (score_frame ds ms);
  read_upload := upload
|}.

(** The run numbered [k] raises; the others fall back and answer. *)
Definition fails_at (k : nat) : Collaborators := {|
  pipeline_run := fun n _ req =>
    if (n =? k)%nat then RunException "graph server unreachable"
    else RunOk (fallback_context (query req));
  json_dumps := dumps;
  json_loads := loads;
  RAGAS_METRICS_DICT := metrics;
  ragas_evaluate := fun _ ds ms => inr (score_frame ds ms);
  read_upload := upload
|}.

Definition prompt0 : PromptConfig :=
  mkPrompt (PyStr "Tell me about Al Pacino.") "Answer the question." "".

(** A state with a question file of three rows and no answer file. *)
Definition three_questions : DataFrame :=
  mkDF 3 [ ("Question", [PyStr "Who is Al Pacino?"; PyStr "Who is Robert De Niro?";
                         PyStr "What is HugeGraph?"]);
           ("Expected Answer", [PyStr "An actor."; PyStr "An actor."; PyStr "A graph database."]) ].

Definition state0 : State :=
  mkState prompt0 prompt0 (Some three_questions) None 0 0 [].

(** A question file of one row that follows the template of the block:
    the answer columns are there, in the order of [tests_df_headers], and
    empty. *)
Definition template_question : DataFrame :=
  mkDF 1 [ ("Question", [PyStr "Who is Al Pacino?"]);
           ("Graph-only Answer", [PyNaN]);
           ("Graph-Vector Answer", [PyNaN]);
           ("Vector-only Answer", [PyNaN]);
           ("Basic LLM Answer", [PyNaN]);
           ("Expected Answer", [PyStr "An actor."]) ].

Definition state_template : State :=
  mkState prompt0 prompt0 (Some template_question) None 0 0 [].

(** The context mapping of a run in the vector-only and graph-only modes. *)
Definition two_mode_context : gmap string pyobj :=
  {[ "vector_only_answer_result" := PyStr "An American actor.";
     "graph_only_answer_result" := PyStr "An actor, born in 1940.";
     "vector_contexts" := PyList [PyStr "a retrieved passage"];
     "graph_contexts" := PyList [PyStr "a subgraph"] ]}.

Definition two_modes : Collaborators := {|
  pipeline_run := fun _ _ _ => RunOk two_mode_context;
  json_dumps := dumps;
  json_loads := loads;
  RAGAS_METRICS_DICT := metrics;
  ragas_evaluate := fun _ ds ms => inr (score_frame ds ms);
  read_upload := upload
|}.

(** The answer document of the batch over [template_question] in the
    vector-only and graph-only modes. *)
Definition answered_doc : DataFrame :=
  mkDF 1 [ ("Question", [PyStr "Who is Al Pacino?"]);
           ("Graph-only Answer", [PyStr "An actor, born in 1940."]);
           ("Vector-only Answer", [PyStr "An American actor."]);
           ("Expected Answer", [PyStr "An actor."]);
           ("Vector Contexts", [PyStr (dumps (PyList [PyStr "a retrieved passage"]))]);
           ("Graph Contexts", [PyStr (dumps (PyList [PyStr "a subgraph"]))]) ].

Definition state_answered : State :=
  mkState prompt0 prompt0 (Some template_question) (Some answered_doc) 1 0 [].

(** A state whose answer file holds questions only. *)
Definition state_unanswered : State :=
  mkState prompt0 prompt0 (Some three_questions) (Some three_questions) 0 0 [].

End Demo.

(** Further stand-ins: an upload of forty-one questions, an empty question
    file, and answer documents that the evaluation rejects. *)

Module DemoMore.

Definition many_questions : DataFrame :=
  mkDF 41 [("Question", replicate 41 (PyStr "Who is Al Pacino?"))].

Definition long_upload : Collaborators := {|
  pipeline_run := fun _ _ req => RunOk (Demo.fallback_context (query req));
  json_dumps := Demo.dumps;
  json_loads := Demo.loads;
  RAGAS_METRICS_DICT := Demo.metrics;
  ragas_evaluate := fun _ ds ms => inr (Demo.score_frame ds ms);
  read_upload := fun name =>
    if (name =? "many.xlsx")%string then inr many_questions
    else inl (FileNotFoundError name)
|}.

Definition no_questions : DataFrame :=
  mkDF 0 [("Question", []); ("Expected Answer", [])].

Definition state_no_questions : State :=
  mkState Demo.prompt0 Demo.prompt0 (Some no_questions) None 0 0 [].

(** An answer document with a vector-only answer and no context column. *)
Definition doc_without_contexts : DataFrame :=
  mkDF 1 [ ("Question", [PyStr "Who is Al Pacino?"]);
           ("Vector-only Answer", [PyStr "An American actor."]);
           ("Expected Answer", [PyStr "An actor."]) ].

(** An answer document whose vector contexts are not JSON. *)
Definition doc_with_bad_contexts : DataFrame :=
  mkDF 1 [ ("Question", [PyStr "Who is Al Pacino?"]);
           ("Vector-only Answer", [PyStr "An American actor."]);
           ("Expected Answer", [PyStr "An actor."]);
           ("Vector Contexts", [PyStr "a retrieved passage"]) ].

Definition state_with_answers (doc : DataFrame) : State :=
  mkState Demo.prompt0 Demo.prompt0 None (Some doc) 1 0 [].

(** The context mapping of a run in the graph-only mode whose retrieval
    left no contexts. *)
Definition answer_without_contexts : gmap string pyobj :=
  {[ "graph_only_answer_result" := PyStr "An actor." ]}.

Definition no_contexts : Collaborators := {|
  pipeline_run := fun _ _ _ => RunOk answer_without_contexts;
  json_dumps := Demo.dumps;
  json_loads := Demo.loads;
  RAGAS_METRICS_DICT := Demo.metrics;
  ragas_evaluate := fun _ ds ms => inr (Demo.score_frame ds ms);
  read_upload := Demo.upload
|}.

(** An answer document of two rows, with answers of two modes. *)
Definition doc_of_two_rows : DataFrame :=
  mkDF 2 [ ("Question", [PyStr "Who is Al Pacino?"; PyStr "Who is Robert De Niro?"]);
           ("Expected Answer", [PyStr "An actor."; PyStr "An actor."]);
           ("Graph-only Answer", [PyStr "An American actor."; PyStr "An actor."]);
           ("Vector-only Answer", [PyStr "An actor."; PyStr "A producer."]);
           ("Vector Contexts", [PyStr "[]"; PyStr "[]"]);
           ("Graph Contexts", [PyStr "[]"; PyStr "[]"]) ].

End DemoMore.

(** * Properties *)

Section Properties.

Context `{!Collaborators}.

Local Arguments has_column : simpl never.
Local Arguments df_set_at : simpl never.
Local Arguments df_setitem : simpl never.
Local Arguments df_at : simpl never.

(** ** The trace only grows *)

Lemma push_nil s : push [] s = s.
Proof. destruct s; unfold push; cbn. by rewrite app_nil_r. Qed.

Lemma push_push a b s : push b (push a s) = push (a ++ b) s.
Proof. unfold push; cbn. by rewrite app_assoc. Qed.

Lemma emit_eq e s : emit e s = (Ok tt, push [e] s).
Proof. reflexivity. Qed.

Lemma py_truthy_or x y : py_truthy (py_or x y) = py_truthy x || py_truthy y.
Proof. unfold py_or. destruct (py_truthy x) eqn:E; cbn; by rewrite ?E. Qed.

(** ** What [reconcile] and [rag_answer] compute *)

Lemma reconcile_eq text hint ap s :
  reconcile text hint ap s = (Ok tt, reconciled text ap hint s).
Proof.
  unfold reconcile, reconciled, snapshot_differs, bind, get_state, when.
  destruct (py_ne _ _ || _ || _); reflexivity.
Qed.

Lemma rag_answer_eq text raw vo go gv ratio method nnf hint ap s :
  rag_answer text raw vo go gv ratio method nnf hint ap s =
  let s1 := reconciled text ap hint s in
  if request_rejected raw vo go gv
  then (Ok (Tuple4 (PyStr "") (PyStr "") (PyStr "") (PyStr "")),
        push [no_mode_warning] s1)
  else
    let rag := composed_stages vo go gv ratio method nnf hint ap in
    let req := mkRun text raw vo go gv in
    let s2 := ran rag req (push (map EvStage rag) s1) in
    match pipeline_run (run_calls s) rag req with
    | RunOk context =>
        (Ok (answer_of context),
         push (if py_truthy (ctx_get context "switch_to_bleu" PyNone)
               then [fallback_advisory] else []) s2)
    | RunValueError msg => (Raise (GrError msg), push [EvLogCritical msg] s2)
    | RunException msg =>
        (Raise (GrError ("An unexpected error occurred: " +:+ msg)),
         push [EvLogCritical msg] s2)
    end.
Proof.
  unfold rag_answer, bind at 1. rewrite reconcile_eq.
  unfold request_rejected.
  destruct (py_is_False raw && _ && _) eqn:Hrej; [reflexivity|].
  assert (Hcalls : run_calls (reconciled text ap hint s) = run_calls s).
  { unfold reconciled. by destruct snapshot_differs. }
  revert Hcalls. generalize (reconciled text ap hint s) as s1. intros s1 Hcalls.
  unfold composed_stages.
  destruct (py_truthy (py_or vo gv)), (py_truthy (py_or go gv));
    cbn -[ctx_get String.append]; rewrite Hcalls;
    (destruct (pipeline_run _ _ _) as [context|msg|msg];
     [destruct (py_truthy (ctx_get context "switch_to_bleu" PyNone))|..]);
    cbn -[ctx_get String.append]; unfold push, ran, answer_of; cbn -[ctx_get String.append];
    rewrite <- ?app_assoc, ?Hcalls; reflexivity.
Qed.

Lemma emitted_push {A} (m : M A) s evs :
  (m s).2 = push evs s -> emitted m s = evs.
Proof.
  intros E. unfold emitted. rewrite E. cbn. by rewrite drop_app_length.
Qed.

Lemma reconciled_push text ap hint s :
  trace (reconciled text ap hint s) = trace s ++ reconcile_events text ap hint s
  /\ run_calls (reconciled text ap hint s) = run_calls s
  /\ eval_calls (reconciled text ap hint s) = eval_calls s
  /\ questions_file (reconciled text ap hint s) = questions_file s
  /\ answers_file (reconciled text ap hint s) = answers_file s.
Proof.
  unfold reconciled, reconcile_events.
  destruct snapshot_differs; cbn; by rewrite ?app_nil_r.
Qed.

(** Everything [rag_answer] appends to the trace, in order. *)
Lemma rag_answer_emitted text raw vo go gv ratio method nnf hint ap s :
  emitted (rag_answer text raw vo go gv ratio method nnf hint ap) s =
  reconcile_events text ap hint s
  ++ (if request_rejected raw vo go gv then [no_mode_warning]
      else
        let rag := composed_stages vo go gv ratio method nnf hint ap in
        let req := mkRun text raw vo go gv in
        map EvStage rag ++ [EvRun rag req]
        ++ run_tail (pipeline_run (run_calls s) rag req)).
Proof.
  unfold emitted. rewrite rag_answer_eq. cbn zeta.
  destruct (reconciled_push text ap hint s) as (Ht & _).
  destruct (request_rejected raw vo go gv).
  - cbn. rewrite Ht, <- app_assoc. by rewrite drop_app_length.
  - destruct (pipeline_run _ _ _) as [context|msg|msg]; cbn;
      rewrite Ht, <- !app_assoc; by rewrite drop_app_length.
Qed.

Lemma stages_of_app a b : stages_of (a ++ b) = stages_of a ++ stages_of b.
Proof. apply omap_app. Qed.

Lemma stages_of_map rag : stages_of (map EvStage rag) = rag.
Proof.
  unfold stages_of. induction rag as [|st rag IH]; [done|]. cbn. by f_equal.
Qed.

Lemma stages_of_reconcile text ap hint s :
  stages_of (reconcile_events text ap hint s) = [].
Proof. unfold reconcile_events. by destruct snapshot_differs. Qed.

Lemma stages_of_run_tail r : stages_of (run_tail r) = [].
Proof. destruct r as [context| |]; cbn; [|done..]. by destruct py_truthy. Qed.

Lemma pipeline_events_reconcile text ap hint s :
  List.filter is_pipeline_event (reconcile_events text ap hint s) = [].
Proof. unfold reconcile_events. by destruct snapshot_differs. Qed.

Lemma pipeline_events_run_tail r :
  List.filter is_pipeline_event (run_tail r) = [].
Proof. destruct r as [context| |]; cbn; [|done..]. by destruct py_truthy. Qed.

Lemma pipeline_events_stages rag :
  List.filter is_pipeline_event (map EvStage rag) = map EvStage rag.
Proof. induction rag as [|st rag IH]; [done|]. cbn. by rewrite IH. Qed.

(** ** The rejected request *)

(** C1. A request whose four mode flags are all [False] gets the warning
    that a mode has to be selected and four empty strings; apart from the
    reconciliation of the configuration, the warning is all the call does: no
    pipeline operator is composed and no pipeline is run. *)
Theorem rag_answer_no_mode text ratio method nnf hint ap s :
  let call :=
    rag_answer text (PyBool false) (PyBool false) (PyBool false) (PyBool false)
               ratio method nnf hint ap in
  (call s).1 = Ok (Tuple4 (PyStr "") (PyStr "") (PyStr "") (PyStr ""))
  /\ emitted call s = reconcile_events text ap hint s ++ [no_mode_warning]
  /\ List.filter is_pipeline_event (emitted call s) = []
  /\ run_calls (call s).2 = run_calls s.
Proof.
  cbn zeta. rewrite rag_answer_emitted, rag_answer_eq. cbn.
  destruct (reconciled_push text ap hint s) as (_ & Hc & _).
  repeat split; [|done].
  rewrite List.filter_app, pipeline_events_reconcile. done.
Qed.

(** ** Which retrieval stages a request composes *)

(** C5. The stages a call composes are, in order: the vector query exactly
    when [vector_only_answer] or [graph_vector_answer] is true; the chain
    keyword extraction, vertex-id resolution, graph query exactly when
    [graph_only_answer] or [graph_vector_answer] is true; then, unless the
    request is rejected, the rerank and the synthesis. Nothing else decides
    the presence of a retrieval stage. *)
Theorem rag_answer_retrieval_stages text raw vo go gv ratio method nnf hint ap s :
  let st :=
    stages_of (emitted (rag_answer text raw vo go gv ratio method nnf hint ap) s) in
  st = (if py_truthy vo || py_truthy gv then [query_vector_index] else [])
       ++ (if py_truthy go || py_truthy gv
           then [extract_keywords; keywords_to_vid; query_graphdb] else [])
       ++ (if request_rejected raw vo go gv then []
           else [merge_dedup_rerank ratio method nnf hint; synthesize_answer ap])
  /\ List.filter is_vector_stage st =
       (if py_truthy vo || py_truthy gv then [query_vector_index] else [])
  /\ List.filter is_graph_stage st =
       (if py_truthy go || py_truthy gv
        then [extract_keywords; keywords_to_vid; query_graphdb] else []).
Proof.
  cbn zeta. rewrite rag_answer_emitted.
  rewrite stages_of_app, stages_of_reconcile. cbn [app].
  unfold request_rejected, composed_stages. rewrite !py_truthy_or.
  destruct (py_is_False raw), (py_truthy vo), (py_truthy go), (py_truthy gv);
    cbn -[stages_of];
    rewrite ?(stages_of_app (_ :: _)); cbn;
    rewrite ?stages_of_run_tail; done.
Qed.

(** ** The reconciliation of the configuration *)

(** C6. The reconciliation overwrites the stored question, prompt and
    rerank hint with the incoming ones and saves them when at least one of
    the three differs from the stored one; when none differs it leaves the
    state as it is and saves nothing. For a stored and an incoming question
    that are strings, none differs exactly when the three are equal. *)
Theorem reconcile_iff_differs text hint ap s :
  let s' := (reconcile text hint ap s).2 in
  let p := mkPrompt text ap hint in
  (if snapshot_differs (prompt s) text ap hint
   then prompt s' = p /\ yaml_file s' = p
        /\ emitted (reconcile text hint ap) s = [EvUpdateYaml p]
   else s' = s /\ emitted (reconcile text hint ap) s = [])
  /\ (forall q a h q' a' h',
        snapshot_differs (mkPrompt (PyStr q) a h) (PyStr q') a' h' = false
        <-> q = q' /\ a = a' /\ h = h').
Proof.
  cbn zeta. split.
  - unfold emitted. rewrite reconcile_eq. unfold reconciled. cbn.
    destruct snapshot_differs; cbn.
    + by rewrite drop_app_length.
    + by rewrite drop_all.
  - intros q a h q' a' h'. unfold snapshot_differs, py_ne. cbn.
    rewrite !orb_false_iff, !negb_false_iff, !String.eqb_eq. tauto.
Qed.

(** ** A falsy flag that is not [False] *)

(** C9. When [raw_answer] is falsy without being the object [False] (it is
    [None], or [0]) and the three other flags are false, the request is not
    rejected: no warning asks for a mode, the pipeline is composed of the
    rerank and the synthesis alone, without a retrieval stage, and it is
    run. *)
Theorem rag_answer_falsy_raw_not_rejected
    text raw vo go gv ratio method nnf hint ap s :
  py_truthy raw = false -> py_is_False raw = false ->
  py_truthy vo = false -> py_truthy go = false -> py_truthy gv = false ->
  let call := rag_answer text raw vo go gv ratio method nnf hint ap in
  let rag := [merge_dedup_rerank ratio method nnf hint; synthesize_answer ap] in
  request_rejected raw vo go gv = false
  /\ List.filter is_pipeline_event (emitted call s) =
       [EvStage (merge_dedup_rerank ratio method nnf hint);
        EvStage (synthesize_answer ap);
        EvRun rag (mkRun text raw vo go gv)]
  /\ ~ In no_mode_warning (emitted call s)
  /\ run_calls (call s).2 = S (run_calls s).
Proof.
  intros Hraw Hne Hvo Hgo Hgv. cbn zeta.
  assert (Hrej : request_rejected raw vo go gv = false).
  { unfold request_rejected. by rewrite Hne. }
  assert (Hrag : composed_stages vo go gv ratio method nnf hint ap
                 = [merge_dedup_rerank ratio method nnf hint; synthesize_answer ap]).
  { unfold composed_stages. by rewrite !py_truthy_or, Hvo, Hgo, Hgv. }
  split; [done|].
  rewrite rag_answer_emitted, rag_answer_eq, Hrej, Hrag. cbn zeta.
  destruct (reconciled_push text ap hint s) as (_ & Hc & _).
  repeat split.
  - rewrite List.filter_app, pipeline_events_reconcile. cbn.
    by rewrite pipeline_events_run_tail.
  - intros Hin. apply in_app_or in Hin as [Hin|Hin].
    + unfold reconcile_events in Hin.
      destruct snapshot_differs; cbn in Hin; [|done].
      destruct Hin as [Hin|[]]. discriminate.
    + cbn in Hin. destruct Hin as [Hin|[Hin|[Hin|Hin]]]; try discriminate.
      unfold run_tail in Hin.
      destruct (pipeline_run _ _ _) as [context| |].
      * destruct (py_truthy (ctx_get _ _ _)); cbn in Hin; [|done].
        destruct Hin as [Hin|[]]. discriminate.
      * destruct Hin as [Hin|[]]. discriminate.
      * destruct Hin as [Hin|[]]. discriminate.
  - destruct (pipeline_run _ _ _); cbn; by rewrite Hc.
Qed.

(** ** Cells of a data frame *)

Lemma assoc_get_set_eq {A} c (v : A) l : assoc_get c (assoc_set c v l) = Some v.
Proof.
  induction l as [|[k w] l IH]; cbn.
  - by rewrite String.eqb_refl.
  - destruct (k =? c)%string eqn:E; cbn; by rewrite E.
Qed.

Lemma assoc_get_set_ne {A} c c' (v : A) l :
  c <> c' -> assoc_get c (assoc_set c' v l) = assoc_get c l.
Proof.
  intros Hne. induction l as [|[k w] l IH]; cbn.
  - destruct (c' =? c)%string eqn:E; [|done].
    apply String.eqb_eq in E. congruence.
  - destruct (k =? c')%string eqn:E; cbn.
    + apply String.eqb_eq in E. subst k.
      destruct (c' =? c)%string eqn:E'; [|done].
      apply String.eqb_eq in E'. congruence.
    + by rewrite IH.
Qed.

Lemma has_column_col df c : has_column df c = true <-> is_Some (df_col df c).
Proof.
  unfold has_column, columns, df_col.
  induction (df_cols df) as [|[k w] l IH]; cbn.
  - split; [done|]. by intros [x ?].
  - rewrite String.eqb_sym. destruct (k =? c)%string; cbn; [|done].
    split; eauto.
Qed.

Lemma has_column_false df c : has_column df c = false <-> df_col df c = None.
Proof.
  destruct (has_column df c) eqn:E.
  - apply has_column_col in E as [x Hx]. rewrite Hx. split; done.
  - split; [|done]. intros _.
    destruct (df_col df c) eqn:E'; [|done].
    assert (has_column df c = true) by (apply has_column_col; eauto).
    congruence.
Qed.

Lemma df_wf_col df c cells :
  df_wf df = true -> df_col df c = Some cells -> length cells = df_len df.
Proof.
  unfold df_wf, df_col. generalize (df_len df) as n. intros n.
  induction (df_cols df) as [|[k w] l IH]; cbn; [done|].
  rewrite andb_true_iff, Nat.eqb_eq. intros [Hw Hl].
  destruct (k =? c)%string; [|by auto]. by intros [= <-].
Qed.

Lemma assoc_set_wf n c (v : list pyobj) l :
  length v = n ->
  forallb (fun '(_, cells) => (length cells =? n)%nat) l = true ->
  forallb (fun '(_, cells) => (length cells =? n)%nat) (assoc_set c v l) = true.
Proof.
  intros <-. induction l as [|[k w] l IH]; cbn.
  - by rewrite Nat.eqb_refl.
  - rewrite andb_true_iff. intros [Hw Hl].
    destruct (k =? c)%string; cbn; rewrite andb_true_iff; split; auto.
    apply Nat.eqb_refl.
Qed.

Lemma df_set_at_wf df i c v : df_wf df = true -> df_wf (df_set_at df i c v) = true.
Proof.
  intros Hwf. unfold df_wf, df_set_at. cbn. apply assoc_set_wf; [|done].
  rewrite length_insert. destruct (df_col df c) eqn:E; cbn.
  - by eapply df_wf_col.
  - by rewrite length_replicate.
Qed.

Lemma df_setitem_wf df c v : df_wf df = true -> df_wf (df_setitem df c v) = true.
Proof.
  intros Hwf. unfold df_wf, df_setitem. cbn. apply assoc_set_wf; [|done].
  by rewrite length_replicate.
Qed.

Lemma df_at_set_at_eq df i c v :
  df_wf df = true -> i < df_len df -> df_at (df_set_at df i c v) i c = Some v.
Proof.
  intros Hwf Hi. unfold df_at, df_set_at, df_col. cbn.
  rewrite assoc_get_set_eq. cbn. apply list_lookup_insert_eq.
  destruct (assoc_get c (df_cols df)) eqn:E; cbn.
  - by rewrite (df_wf_col df c l).
  - by rewrite length_replicate.
Qed.

(** A write leaves the cells of the other rows as they were. *)
Lemma df_at_set_at_other df i j c c' v x :
  i <> j -> df_at df j c = Some x -> df_at (df_set_at df i c' v) j c = Some x.
Proof.
  intros Hij. unfold df_at, df_set_at, df_col. cbn.
  destruct (decide (c = c')) as [->|Hc].
  - rewrite assoc_get_set_eq.
    destruct (assoc_get c' (df_cols df)) eqn:E; cbn; [|done].
    by rewrite list_lookup_insert_ne.
  - by rewrite assoc_get_set_ne.
Qed.

Lemma df_at_set_at_ne df i j c c' v :
  c <> c' -> df_at (df_set_at df i c' v) j c = df_at df j c.
Proof.
  intros Hc. unfold df_at, df_set_at, df_col. cbn. by rewrite assoc_get_set_ne.
Qed.

Lemma df_at_setitem_ne df j c c' v :
  c <> c' -> df_at (df_setitem df c' v) j c = df_at df j c.
Proof.
  intros Hc. unfold df_at, df_setitem, df_col. cbn. by rewrite assoc_get_set_ne.
Qed.

Lemma has_column_set_at df i c c' v :
  has_column (df_set_at df i c' v) c = has_column df c || (c =? c')%string.
Proof.
  destruct (c =? c')%string eqn:E.
  - apply String.eqb_eq in E. subst c'. rewrite orb_true_r.
    apply has_column_col. unfold df_set_at, df_col. cbn.
    rewrite assoc_get_set_eq. eauto.
  - apply String.eqb_neq in E. rewrite orb_false_r.
    destruct (has_column df c) eqn:H1.
    + apply has_column_col. apply has_column_col in H1.
      unfold df_set_at, df_col in *. cbn. by rewrite assoc_get_set_ne.
    + apply has_column_false. apply has_column_false in H1.
      unfold df_set_at, df_col in *. cbn. by rewrite assoc_get_set_ne.
Qed.

Lemma has_column_set_at_same df i c v : has_column (df_set_at df i c v) c = true.
Proof. by rewrite has_column_set_at, String.eqb_refl, orb_true_r. Qed.

Lemma has_column_set_at_mono df i c c' v :
  has_column df c = true -> has_column (df_set_at df i c' v) c = true.
Proof. intros Hc. by rewrite has_column_set_at, Hc. Qed.

Lemma write_row_len df i r : df_len (write_row df i r) = df_len df.
Proof. destruct r; cbn; [done|]. by destruct has_column. Qed.

Lemma write_row_wf df i r : df_wf df = true -> df_wf (write_row df i r) = true.
Proof.
  intros Hwf. destruct r; cbn; [done|].
  destruct has_column; repeat (apply df_set_at_wf || apply df_setitem_wf); done.
Qed.

Lemma write_row_has_contexts df i a b c d ctxs :
  has_column (write_row df i (Tuple5 a b c d ctxs)) "Vector Contexts" = true.
Proof.
  cbn. do 2 apply has_column_set_at_mono. apply has_column_set_at_same.
Qed.

Lemma write_row_answer df i a b c d ctxs :
  df_wf df = true -> i < df_len df ->
  df_at (write_row df i (Tuple5 a b c d ctxs)) i "Graph-Vector Answer"
  = Some (py_or_None d).
Proof.
  intros Hwf Hi. cbn.
  rewrite !df_at_set_at_ne by done.
  destruct has_column; rewrite ?df_at_setitem_ne by done;
    apply df_at_set_at_eq; repeat apply df_set_at_wf; done.
Qed.

Lemma write_row_contexts df i a b c d ctxs :
  df_wf df = true -> i < df_len df ->
  df_at (write_row df i (Tuple5 a b c d ctxs)) i "Graph-Vector Contexts"
  = Some (graph_vector_contexts ctxs).
Proof.
  intros Hwf Hi. cbn.
  apply df_at_set_at_eq.
  - destruct has_column;
      repeat (apply df_set_at_wf || apply df_setitem_wf); done.
  - by destruct has_column.
Qed.

(** Once the context columns are there, the row written is the only one
    that changes. *)
Lemma write_row_other df i j r col x :
  has_column df "Vector Contexts" = true -> i <> j ->
  df_at df j col = Some x -> df_at (write_row df i r) j col = Some x.
Proof.
  intros Hvc Hij Hx. destruct r; cbn; [done|].
  rewrite (has_column_set_at_mono _ _ "Vector Contexts")
    by (do 3 apply has_column_set_at_mono; done).
  repeat apply df_at_set_at_other; done.
Qed.

Lemma question_at_is_Some df i :
  df_wf df = true -> df_cols df <> [] -> i < df_len df ->
  is_Some (question_at df i).
Proof.
  unfold df_wf, question_at. destruct (df_cols df) as [|[c cells] l]; [done|].
  cbn. rewrite andb_true_iff, Nat.eqb_eq. intros [Hlen _] _ Hi.
  apply lookup_lt_is_Some. lia.
Qed.

(** ** Projections of the trace *)

Lemma marks_of_app a b : marks_of (a ++ b) = marks_of a ++ marks_of b.
Proof. apply omap_app. Qed.

Lemma marks_of_stages rag : marks_of (map EvStage rag) = [].
Proof. unfold marks_of. induction rag as [|st rag IH]; [done|]. by cbn. Qed.

Lemma marks_of_reconcile text ap hint s :
  marks_of (reconcile_events text ap hint s) = [].
Proof. unfold reconcile_events. by destruct snapshot_differs. Qed.

Lemma marks_of_run_tail r : marks_of (run_tail r) = [].
Proof.
  destruct r as [context| |]; cbn; [|done..].
  by destruct (py_truthy (ctx_get _ _ _)).
Qed.

Lemma advisories_app a b : advisories (a ++ b) = advisories a + advisories b.
Proof. unfold advisories. by rewrite List.filter_app, length_app. Qed.

Lemma advisories_stages rag : advisories (map EvStage rag) = 0.
Proof. unfold advisories. induction rag as [|st rag IH]; [done|]. by cbn. Qed.

Lemma advisories_reconcile text ap hint s :
  advisories (reconcile_events text ap hint s) = 0.
Proof. unfold reconcile_events. by destruct snapshot_differs. Qed.

Lemma to_excel_stages rag : List.filter is_to_excel (map EvStage rag) = [].
Proof. induction rag as [|st rag IH]; [done|]. by cbn. Qed.

Lemma to_excel_reconcile text ap hint s :
  List.filter is_to_excel (reconcile_events text ap hint s) = [].
Proof. unfold reconcile_events. by destruct snapshot_differs. Qed.

Lemma to_excel_run_tail r : List.filter is_to_excel (run_tail r) = [].
Proof.
  destruct r as [context| |]; cbn; [|done..].
  by destruct (py_truthy (ctx_get _ _ _)).
Qed.

(** ** One row of the batch *)

Lemma several_rag_answer_row_eq df0 total raw vo go gv ratio method nnf hint ap
    index df s q :
  question_at df0 index = Some q ->
  several_rag_answer_row df0 total raw vo go gv ratio method nnf hint ap index df s
  = match rag_answer q raw vo go gv ratio method nnf hint ap s with
    | (Ok (Tuple4 _ _ _ _), s1) =>
        (Raise (ValueError "not enough values to unpack (expected 5, got 4)"), s1)
    | (Ok (Tuple5 a b c d ctxs), s1) =>
        (Ok (write_row df index (Tuple5 a b c d ctxs)),
         push [EvProgress (index + 1) total] s1)
    | (Raise e, s1) => (Raise e, s1)
    end.
Proof.
  unfold several_rag_answer_row, question_at.
  destruct (df_cols df0) as [|[c cells] l]; [done|]. intros ->.
  unfold bind at 1. unfold ret at 1. unfold bind at 1.
  destruct (rag_answer _ _ _ _ _ _ _ _ _ _ s) as [[[| ]|e] s1]; reflexivity.
Qed.

(** A row whose run returns a context: the frame gets the row's answers and
    contexts, and the row is reported. *)
Lemma several_rag_answer_row_ok df0 total raw vo go gv ratio method nnf hint ap
    index df s q context :
  question_at df0 index = Some q ->
  request_rejected raw vo go gv = false ->
  pipeline_run (run_calls s)
               (composed_stages vo go gv ratio method nnf hint ap)
               (mkRun q raw vo go gv) = RunOk context ->
  several_rag_answer_row df0 total raw vo go gv ratio method nnf hint ap index df s
  = (Ok (write_row df index (answer_of context)),
     after_row q raw vo go gv ratio method nnf hint ap context index total s).
Proof.
  intros Hq Hrej Hrun.
  rewrite (several_rag_answer_row_eq _ _ _ _ _ _ _ _ _ _ _ _ _ _ q) by done.
  rewrite rag_answer_eq, Hrej. cbn zeta. rewrite Hrun.
  unfold answer_of, after_row. f_equal. cbn [run_tail].
  by rewrite push_push.
Qed.

Lemma after_row_trace q raw vo go gv ratio method nnf hint ap context index total s :
  let s' := after_row q raw vo go gv ratio method nnf hint ap context index total s in
  let evs :=
    reconcile_events q ap hint s
    ++ map EvStage (composed_stages vo go gv ratio method nnf hint ap)
    ++ [EvRun (composed_stages vo go gv ratio method nnf hint ap)
              (mkRun q raw vo go gv)]
    ++ run_tail (RunOk context) ++ [EvProgress (index + 1) total] in
  trace s' = trace s ++ evs
  /\ marks_of evs = [RowRun q; RowDone (index + 1) total]
  /\ advisories evs =
       (if py_truthy (ctx_get context "switch_to_bleu" PyNone) then 1 else 0)
  /\ List.filter is_to_excel evs = []
  /\ run_calls s' = S (run_calls s)
  /\ answers_file s' = answers_file s
  /\ questions_file s' = questions_file s.
Proof.
  cbn zeta. destruct (reconciled_push q ap hint s) as (Ht & Hc & _ & Hq & Ha).
  unfold after_row. cbn [trace push ran run_calls answers_file questions_file].
  rewrite Ht, Hc, Hq, Ha. repeat split.
  - by rewrite <- !app_assoc.
  - rewrite !marks_of_app, marks_of_reconcile, marks_of_stages,
      (marks_of_run_tail (RunOk context)). done.
  - rewrite !advisories_app, advisories_reconcile, advisories_stages. cbn.
    destruct (py_truthy (ctx_get _ _ _)); done.
  - rewrite !List.filter_app, to_excel_reconcile, to_excel_stages,
      (to_excel_run_tail (RunOk context)). done.
Qed.

(** A row whose run raises: the exception leaves the row, after the run. *)
Lemma several_rag_answer_row_raises df0 total raw vo go gv ratio method nnf hint ap
    index df s q :
  question_at df0 index = Some q ->
  request_rejected raw vo go gv = false ->
  run_raises (pipeline_run (run_calls s)
                (composed_stages vo go gv ratio method nnf hint ap)
                (mkRun q raw vo go gv)) = true ->
  exists msg s' evs,
    several_rag_answer_row df0 total raw vo go gv ratio method nnf hint ap index df s
    = (Raise (GrError msg), s')
    /\ trace s' = trace s ++ evs
    /\ marks_of evs = [RowRun q]
    /\ List.filter is_to_excel evs = []
    /\ run_calls s' = S (run_calls s)
    /\ answers_file s' = answers_file s
    /\ questions_file s' = questions_file s.
Proof.
  intros Hq Hrej Hrun.
  rewrite (several_rag_answer_row_eq _ _ _ _ _ _ _ _ _ _ _ _ _ _ q) by done.
  rewrite rag_answer_eq, Hrej. cbn zeta.
  destruct (reconciled_push q ap hint s) as (Ht & Hc & _ & Hqf & Ha).
  destruct (pipeline_run _ _ _) as [context|msg|msg] eqn:E; [done|..].
  all: eexists _, _,
         (reconcile_events q ap hint s
          ++ map EvStage (composed_stages vo go gv ratio method nnf hint ap)
          ++ [EvRun (composed_stages vo go gv ratio method nnf hint ap)
                    (mkRun q raw vo go gv)]
          ++ [EvLogCritical msg]).
  all: split; [reflexivity|].
  all: cbn [trace push ran run_calls answers_file questions_file].
  all: rewrite Ht, Hc, Hqf, Ha; repeat split;
    [ by rewrite <- !app_assoc
    | rewrite !marks_of_app, marks_of_reconcile, marks_of_stages; done
    | rewrite !List.filter_app, to_excel_reconcile, to_excel_stages; done ].
Qed.

(** ** The loop of the batch *)

Section Batch.

Variables (raw vo go gv : pyobj) (ratio : Q) (method : rerank_method)
          (nnf : bool) (hint ap : string).
Variable df0 : DataFrame.

Let rag := composed_stages vo go gv ratio method nnf hint ap.
Let body := several_rag_answer_row df0 (df_len df0) raw vo go gv ratio method
                                   nnf hint ap.

Lemma for_each_cons {A B} (x : A) xs (f : A -> B -> M B) acc s :
  for_each (x :: xs) f acc s =
  match f x acc s with
  | (Ok acc', s') => for_each xs f acc' s'
  | (Raise e, s') => (Raise e, s')
  end.
Proof. reflexivity. Qed.

(** The rows from [a] on, when the first [k] runs return and the next one,
    if there is one, raises: the landmarks are those of the [k] rows, one
    after the other, then the run that raised; nothing is written to disk. *)
Lemma batch_loop_marks k : forall n a df s,
  k <= n ->
  (forall i, i < n -> is_Some (question_at df0 (a + i))) ->
  request_rejected raw vo go gv = false ->
  (forall i q, i < k -> question_at df0 (a + i) = Some q ->
     run_raises (pipeline_run (run_calls s + i) rag (mkRun q raw vo go gv)) = false) ->
  (forall q, k < n -> question_at df0 (a + k) = Some q ->
     run_raises (pipeline_run (run_calls s + k) rag (mkRun q raw vo go gv)) = true) ->
  exists evs,
    let r := for_each (seq a n) body df s in
    trace r.2 = trace s ++ evs
    /\ marks_of evs = flat_map (row_marks df0) (seq a k)
                      ++ (if (k <? n)%nat then run_mark df0 (a + k) else [])
    /\ List.filter is_to_excel evs = []
    /\ answers_file r.2 = answers_file s
    /\ questions_file r.2 = questions_file s
    /\ run_calls r.2 = run_calls s + k + (if (k <? n)%nat then 1 else 0)
    /\ (if (k <? n)%nat then exists msg, r.1 = Raise (GrError msg)
        else exists df', r.1 = Ok df').
Proof.
  induction k as [|k IH]; intros n a df s Hkn Hq Hrej Hok Hfail.
  - destruct n as [|n].
    + exists []. cbn. rewrite app_nil_r. repeat split; eauto with lia.
    + destruct (Hq 0) as [q Hq0]; [lia|].
      rewrite Nat.add_0_r in Hq0.
      destruct (several_rag_answer_row_raises df0 (df_len df0) raw vo go gv
                  ratio method nnf hint ap a df s q Hq0 Hrej)
        as (msg & s' & evs & Heq & Ht & Hm & Hx & Hc & Ha & Hqf).
      { specialize (Hfail q). rewrite !Nat.add_0_r in Hfail.
        apply Hfail; [lia|done]. }
      exists evs. cbn [seq]. rewrite for_each_cons. unfold body. rewrite Heq.
      cbn. rewrite Nat.add_0_r. unfold run_mark. rewrite Hq0.
      repeat split; eauto with lia.
  - destruct n as [|n]; [lia|].
    destruct (Hq 0) as [q Hq0]; [lia|].
    rewrite Nat.add_0_r in Hq0.
    assert (Hrun : exists context,
               pipeline_run (run_calls s) rag (mkRun q raw vo go gv)
               = RunOk context).
    { specialize (Hok 0 q). rewrite !Nat.add_0_r in Hok.
      destruct (pipeline_run _ _ _) as [context| |]; [eauto|..];
        (discriminate Hok; [lia|done]). }
    destruct Hrun as [context Hrun].
    pose proof (several_rag_answer_row_ok df0 (df_len df0) raw vo go gv ratio
                  method nnf hint ap a df s q context Hq0 Hrej Hrun) as Heq.
    destruct (after_row_trace q raw vo go gv ratio method nnf hint ap context
                a (df_len df0) s) as (Ht & Hm & _ & Hx & Hc & Ha & Hqf).
    destruct (IH n (S a) (write_row df a (answer_of context))
                (after_row q raw vo go gv ratio method nnf hint ap context
                           a (df_len df0) s))
      as (evs & Ht' & Hm' & Hx' & Ha' & Hqf' & Hc' & Hres).
    + lia.
    + intros i Hi. replace (S a + i) with (a + S i) by lia. apply Hq. lia.
    + done.
    + intros i q' Hi Hq'. rewrite Hc.
      replace (S (run_calls s) + i) with (run_calls s + S i) by lia.
      apply Hok; [lia|]. by replace (a + S i) with (S a + i) by lia.
    + intros q' Hlt Hq'. rewrite Hc.
      replace (S (run_calls s) + k) with (run_calls s + S k) by lia.
      apply Hfail; [lia|]. by replace (a + S k) with (S a + k) by lia.
    + cbn zeta in Ht, Hm, Hx.
      match type of Ht with _ = _ ++ ?e => set (evs_row := e) in * end.
      exists (evs_row ++ evs). cbn [seq]. rewrite for_each_cons. unfold body.
      rewrite Heq. fold body. cbn zeta in *.
      rewrite Ht', Ha', Hqf', Hc', Ht, Ha, Hqf, Hc.
      replace (S k <? S n)%nat with (k <? n)%nat by done.
      replace (a + S k) with (S a + k) by lia.
      repeat split.
      * by rewrite <- app_assoc.
      * rewrite marks_of_app, Hm, Hm'. cbn [flat_map].
        unfold row_marks at 2. rewrite Hq0. by rewrite <- app_assoc.
      * by rewrite List.filter_app, Hx, Hx'.
      * lia.
      * done.
Qed.

End Batch.

(** ** [several_rag_answer] as a whole *)

Lemma several_rag_answer_eq raw vo go gv ratio method nnf hint ap maxl s :
  several_rag_answer raw vo go gv ratio method nnf hint ap maxl s =
  match questions_file s with
  | None => (Raise (FileNotFoundError "No such file or directory"), s)
  | Some df =>
      match for_each (seq 0 (df_len df))
              (several_rag_answer_row df (df_len df) raw vo go gv ratio method
                                      nnf hint ap) df s with
      | (Ok df', s') =>
          (Ok (answer_preview maxl df', answers_path),
           persisted (answer_document df') s')
      | (Raise e, s') => (Raise e, s')
      end
  end.
Proof.
  unfold several_rag_answer, read_excel, get_file.
  unfold bind at 1. unfold bind at 1.
  destruct (questions_file s) as [df|]; [|reflexivity].
  unfold ret at 1. unfold bind at 1.
  destruct (for_each _ _ _ _) as [[df'|e] s']; reflexivity.
Qed.

Lemma marks_upto_prefix df k n :
  k <= n ->
  marks_upto df k ++ (if (k <? n)%nat then run_mark df k else [])
  `prefix_of` marks_upto df n.
Proof.
  intros Hkn. unfold marks_upto.
  replace n with (k + (n - k)) at 2 by lia.
  rewrite seq_app, flat_map_app. apply prefix_app. cbn [Nat.add].
  destruct (k <? n)%nat eqn:E.
  - apply Nat.ltb_lt in E. destruct (n - k) as [|m] eqn:E'; [lia|].
    cbn [seq flat_map]. unfold row_marks, run_mark.
    destruct (question_at df k); [|apply prefix_nil].
    by exists (RowDone (k + 1) (df_len df) :: flat_map (row_marks df) (seq (S k) m)).
  - apply prefix_nil.
Qed.


(** C10. The rejected request is answered with four components, every
    request that is not rejected and returns is answered with five; and a
    batch whose four flags are [False], over a question file with a first
    row, does not complete with a warning and empty answers: after the
    warning for its first row the unpacking into five names raises, no
    answer document is written and no later row is reached. *)
Theorem batch_no_mode_unpack_error text ratio method nnf hint ap maxl s df q0 :
  questions_file s = Some df ->
  question_at df 0 = Some q0 ->
  0 < df_len df ->
  let F := PyBool false in
  let batch := several_rag_answer F F F F ratio method nnf hint ap maxl in
  (rag_answer text F F F F ratio method nnf hint ap s).1
  = Ok (Tuple4 (PyStr "") (PyStr "") (PyStr "") (PyStr ""))
  /\ (forall raw vo go gv s1 r,
        request_rejected raw vo go gv = false ->
        (rag_answer text raw vo go gv ratio method nnf hint ap s1).1 = Ok r ->
        exists a b c d ctxs, r = Tuple5 a b c d ctxs)
  /\ (batch s).1
     = Raise (ValueError "not enough values to unpack (expected 5, got 4)")
  /\ emitted batch s = reconcile_events q0 ap hint s ++ [no_mode_warning]
  /\ answers_file (batch s).2 = answers_file s.
Proof.
  intros Hfile Hq0 Hlen. cbn zeta. split; [|split].
  - by rewrite rag_answer_eq.
  - intros raw vo go gv s1 r Hrej. rewrite rag_answer_eq, Hrej. cbn zeta.
    destruct (pipeline_run _ _ _); cbn; [|done..].
    intros [= <-]. unfold answer_of. eauto 6.
  - unfold emitted. rewrite several_rag_answer_eq, Hfile.
    destruct (df_len df) as [|n] eqn:En; [lia|]. cbn [seq].
    rewrite for_each_cons.
    rewrite (several_rag_answer_row_eq _ _ _ _ _ _ _ _ _ _ _ _ _ _ q0) by done.
    rewrite rag_answer_eq. cbn.
    destruct (reconciled_push q0 ap hint s) as (Ht & _ & _ & _ & Ha).
    rewrite Ht, Ha, <- app_assoc, drop_app_length. done.
Qed.

(** ** A batch whose every run falls back *)

Section Fallback.

Variables (raw vo go gv : pyobj) (ratio : Q) (method : rerank_method)
          (nnf : bool) (hint ap : string).
Variable df0 : DataFrame.
(** The question and the context of the run of each row. *)
Variables (qf : nat -> pyobj) (ctxf : nat -> gmap string pyobj).

Let rag := composed_stages vo go gv ratio method nnf hint ap.
Let body := several_rag_answer_row df0 (df_len df0) raw vo go gv ratio method
                                   nnf hint ap.

Hypothesis not_rejected : request_rejected raw vo go gv = false.

(** The rows from [a] on, when every run returns a context that asks for
    the advisory: the loop ends with the answers and contexts of these rows
    in the frame, the earlier rows untouched, and one advisory a row. *)
Lemma batch_loop_fallback n : forall a df s,
  df_wf df = true -> df_len df = df_len df0 -> a + n <= df_len df0 ->
  (0 < a -> has_column df "Vector Contexts" = true) ->
  (forall i, i < n -> question_at df0 (a + i) = Some (qf (a + i))) ->
  (forall i, i < n ->
     pipeline_run (run_calls s + i) rag (mkRun (qf (a + i)) raw vo go gv)
     = RunOk (ctxf (a + i))) ->
  (forall i, i < n ->
     py_truthy (ctx_get (ctxf (a + i)) "switch_to_bleu" PyNone) = true) ->
  exists df' s' evs,
    for_each (seq a n) body df s = (Ok df', s')
    /\ df_wf df' = true /\ df_len df' = df_len df0
    /\ (forall j col x, j < a -> df_at df j col = Some x ->
                        df_at df' j col = Some x)
    /\ (forall i, i < n ->
          df_at df' (a + i) "Graph-Vector Answer"
          = Some (py_or_None (ctx_get (ctxf (a + i))
                                      "graph_vector_answer_result" (PyStr "")))
          /\ df_at df' (a + i) "Graph-Vector Contexts"
             = Some (ctx_get (ctxf (a + i)) "graph_vector_contexts" PyNone))
    /\ trace s' = trace s ++ evs
    /\ advisories evs = n
    /\ run_calls s' = run_calls s + n.
Proof.
  induction n as [|n IH]; intros a df s Hwf Hlen Han Hvc Hq Hrun Hsw.
  - exists df, s, []. cbn. rewrite app_nil_r. repeat split; auto with lia.
    all: intros; lia.
  - pose proof (Hq 0 ltac:(lia)) as Hq0.
    pose proof (Hrun 0 ltac:(lia)) as Hrun0.
    pose proof (Hsw 0 ltac:(lia)) as Hsw0.
    rewrite Nat.add_0_r in Hq0, Hsw0. do 2 rewrite Nat.add_0_r in Hrun0.
    pose proof (several_rag_answer_row_ok df0 (df_len df0) raw vo go gv ratio
                  method nnf hint ap a df s (qf a) (ctxf a) Hq0 not_rejected
                  Hrun0) as Heq.
    destruct (after_row_trace (qf a) raw vo go gv ratio method nnf hint ap
                (ctxf a) a (df_len df0) s) as (Ht & _ & Hadv & _ & Hc & _ & _).
    cbn zeta in Ht, Hadv. rewrite Hsw0 in Hadv.
    match type of Ht with _ = _ ++ ?e => set (evs_row := e) in * end.
    set (df1 := write_row df a (answer_of (ctxf a))) in *.
    set (s1 := after_row _ _ _ _ _ _ _ _ _ _ _ _ _ _) in *.
    destruct (IH (S a) df1 s1) as
      (df' & s' & evs & Hloop & Hwf' & Hlen' & Hkeep & Hcells & Ht' & Hadv' & Hc').
    + by apply write_row_wf.
    + unfold df1. by rewrite write_row_len.
    + lia.
    + intros _. apply write_row_has_contexts.
    + intros i Hi. replace (S a + i) with (a + S i) by lia. apply Hq. lia.
    + intros i Hi. rewrite Hc.
      replace (S (run_calls s) + i) with (run_calls s + S i) by lia.
      replace (S a + i) with (a + S i) by lia. apply Hrun. lia.
    + intros i Hi. replace (S a + i) with (a + S i) by lia. apply Hsw. lia.
    + exists df', s', (evs_row ++ evs). cbn [seq]. rewrite for_each_cons.
      unfold body. rewrite Heq. fold body. fold df1 s1.
      repeat split; try done.
      * intros j col x Hj Hx. apply Hkeep; [lia|].
        apply write_row_other; [apply Hvc; lia|lia|done].
      * destruct i as [|i].
        -- rewrite Nat.add_0_r. apply Hkeep; [lia|].
           apply write_row_answer; [done|lia].
        -- replace (a + S i) with (S a + i) by lia. apply Hcells. lia.
      * destruct i as [|i].
        -- rewrite Nat.add_0_r. apply Hkeep; [lia|].
           apply write_row_contexts; [done|lia].
        -- replace (a + S i) with (S a + i) by lia. apply Hcells. lia.
      * by rewrite Ht', Ht, <- app_assoc.
      * rewrite advisories_app, Hadv, Hadv'. done.
      * rewrite Hc', Hc. lia.
Qed.

End Fallback.

(** ** The document that is written *)

Lemma assoc_get_filter (P : list pyobj -> bool) c l v :
  assoc_get c l = Some v -> P v = true ->
  assoc_get c (List.filter (fun '(_, cells) => P cells) l) = Some v.
Proof.
  intros Hget HP. induction l as [|[k w] l IH]; [done|]. cbn in *.
  destruct (k =? c)%string eqn:E.
  - injection Hget as ->. rewrite HP. cbn. by rewrite E.
  - destruct (P w); cbn; rewrite ?E; auto.
Qed.

Lemma df_at_dropna df i c x :
  df_at df i c = Some x -> py_isna x = false ->
  df_at (df_dropna_cols df) i c = Some x.
Proof.
  unfold df_at, df_col, df_dropna_cols. cbn.
  destruct (assoc_get c (df_cols df)) as [cells|] eqn:E; [|done]. cbn.
  intros Hx Hna.
  rewrite (assoc_get_filter (fun cells => negb (forallb py_isna cells)) c _ cells);
    [done|done|].
  apply negb_true_iff. destruct (forallb py_isna cells) eqn:Hall; [|done].
  rewrite forallb_forall in Hall.
  rewrite (Hall x) in Hna; [done|].
  apply list_elem_of_In. by eapply list_elem_of_lookup_2.
Qed.

Lemma df_at_has_column df i c x : df_at df i c = Some x -> has_column df c = true.
Proof.
  unfold df_at. intros Hx. apply has_column_col.
  destruct (df_col df c); [eauto|done].
Qed.

Lemma df_at_apply_same df c f i :
  df_at (df_apply c f df) i c = f <$> df_at df i c.
Proof.
  unfold df_at, df_apply. destruct (df_col df c) as [cells|] eqn:E.
  - unfold df_col. cbn. rewrite assoc_get_set_eq. cbn.
    apply list_lookup_fmap.
  - by rewrite E.
Qed.

Lemma df_at_apply_ne df c c' f i :
  c <> c' -> df_at (df_apply c' f df) i c = df_at df i c.
Proof.
  intros Hne. unfold df_at, df_apply. destruct (df_col df c') as [cells|]; [|done].
  unfold df_col. cbn. by rewrite assoc_get_set_ne.
Qed.

Lemma dump_contexts_eq df :
  dump_contexts df =
  dump_column "Graph-Vector Contexts"
    (dump_column "Graph Contexts" (dump_column "Vector Contexts" df)).
Proof. reflexivity. Qed.

Lemma df_at_dump_column_ne d c c' i :
  c <> c' -> df_at (dump_column c' d) i c = df_at d i c.
Proof.
  intros Hne. unfold dump_column. destruct (has_column d c'); [|done].
  by apply df_at_apply_ne.
Qed.

Lemma df_at_dump_column_same d c i x :
  df_at d i c = Some x -> df_at (dump_column c d) i c = Some (PyStr (json_dumps x)).
Proof.
  intros Hx. unfold dump_column.
  rewrite (df_at_has_column d i c x Hx), df_at_apply_same, Hx. done.
Qed.

Lemma dump_contexts_answer df i :
  df_at (dump_contexts df) i "Graph-Vector Answer"
  = df_at df i "Graph-Vector Answer".
Proof. rewrite dump_contexts_eq. by rewrite !df_at_dump_column_ne. Qed.

Lemma dump_contexts_contexts df i x :
  df_at df i "Graph-Vector Contexts" = Some x ->
  df_at (dump_contexts df) i "Graph-Vector Contexts" = Some (PyStr (json_dumps x)).
Proof.
  intros Hx. rewrite dump_contexts_eq. apply df_at_dump_column_same.
  by rewrite !df_at_dump_column_ne.
Qed.


(** ** The validation paths and the state *)

Lemma read_file_to_excel_eq file lc s :
  read_file_to_excel file lc s =
  let s0 := removed s in
  match file with
  | None => (Ok (df_empty, 1), s0)
  | Some name =>
      if (name =? "")%string then (Ok (df_empty, 1), s0)
      else if endswith name ".xlsx" || endswith name ".csv" then
        match read_upload name with
        | inl e => (Raise e, s0)
        | inr df =>
            let df := nrows lc df in
            let s1 := stored df s0 in
            if (40 <? df_len df)%nat then (Ok (df_head 40 df, 40), s1)
            else (Ok (df, df_len df),
                  push (if (df_len df =? 0)%nat
                        then [EvWarning "No data in the file."] else []) s1)
        end
      else (Raise (GrError "Only support .xlsx and .csv files."), s0)
  end.
Proof.
  unfold read_file_to_excel, get_file. unfold bind at 1. unfold bind at 1.
  assert (Hrm : when (bool_decide (is_Some (answers_file s)))
                     (os_remove answers_path) s = (Ok tt, removed s)).
  { unfold removed. destruct (answers_file s) eqn:E; cbn; [|done].
    unfold os_remove, set_file, emit, bind. cbn. by rewrite ?E. }
  rewrite Hrm. cbn zeta. generalize (removed s) as s0. intros s0.
  destruct file as [name|]; [|done].
  destruct (name =? "")%string; [done|].
  assert (Hread : read_table name lc s0 =
                  match read_upload name with
                  | inl e => (Raise e, s0)
                  | inr df => (Ok (nrows lc df), s0)
                  end).
  { unfold read_table, lift, bind. by destruct (read_upload name). }
  destruct (endswith name ".xlsx"); [|destruct (endswith name ".csv")].
  3: done.
  all: cbn [orb]; unfold bind at 1; rewrite Hread;
    destruct (read_upload name) as [e|df]; [done|];
    unfold to_excel, set_file, emit; unfold bind at 1; unfold bind at 1;
    cbn [fst snd]; fold (stored (nrows lc df) s0);
    destruct (40 <? _)%nat; [done|];
    unfold bind, when, gr_Warning;
    destruct (_ =? 0)%nat; [done|]; cbn; by rewrite push_nil.
Qed.

Lemma removed_fields s :
  answers_file (removed s) = None
  /\ questions_file (removed s) = questions_file s
  /\ yaml_file (removed s) = yaml_file s
  /\ prompt (removed s) = prompt s.
Proof. unfold removed. destruct (answers_file s) eqn:E; cbn; by rewrite ?E. Qed.

Lemma df_head_len_0 n df : df_len df = 0 -> df_len (df_head n df) = 0.
Proof.
  intros Hlen. unfold df_head, py_slice_to. cbn. rewrite Hlen. cbn.
  destruct (0 <=? n)%Z; by rewrite take_nil.
Qed.

Lemma nrows_len_0 lc df : df_len df = 0 -> df_len (nrows lc df) = 0.
Proof. destruct lc; cbn; [apply df_head_len_0|done]. Qed.

(** C2, as the code has it. A request without a mode composes and runs no
    pipeline and leaves the question and answer files as they are, but the
    configuration has been reconciled before the check: the saved snapshot
    is the incoming one when it differed, the old one otherwise. An upload
    of an unsupported format, or a cleared upload, leaves the configuration
    and the question file as they are, but the answer file has been removed
    before the check. An upload without rows gets the warning, with the
    answer file removed and the question file overwritten by the empty
    table. *)
Theorem validation_paths_state
    text ratio method nnf hint ap s name lc name2 df2 :
  (name =? "")%string = false ->
  endswith name ".xlsx" = false -> endswith name ".csv" = false ->
  (name2 =? "")%string = false ->
  endswith name2 ".xlsx" || endswith name2 ".csv" = true ->
  read_upload name2 = inr df2 -> df_len df2 = 0 ->
  let F := PyBool false in
  let no_mode := rag_answer text F F F F ratio method nnf hint ap in
  let bad_format := read_file_to_excel (Some name) lc in
  let cleared := read_file_to_excel None lc in
  let no_rows := read_file_to_excel (Some name2) lc in
  ((no_mode s).1 = Ok (Tuple4 (PyStr "") (PyStr "") (PyStr "") (PyStr ""))
   /\ List.filter is_pipeline_event (emitted no_mode s) = []
   /\ questions_file (no_mode s).2 = questions_file s
   /\ answers_file (no_mode s).2 = answers_file s
   /\ yaml_file (no_mode s).2
      = (if snapshot_differs (prompt s) text ap hint
         then mkPrompt text ap hint else yaml_file s))
  /\ ((bad_format s).1 = Raise (GrError "Only support .xlsx and .csv files.")
      /\ yaml_file (bad_format s).2 = yaml_file s
      /\ prompt (bad_format s).2 = prompt s
      /\ questions_file (bad_format s).2 = questions_file s
      /\ answers_file (bad_format s).2 = None)
  /\ ((cleared s).1 = Ok (df_empty, 1)
      /\ yaml_file (cleared s).2 = yaml_file s
      /\ prompt (cleared s).2 = prompt s
      /\ questions_file (cleared s).2 = questions_file s
      /\ answers_file (cleared s).2 = None)
  /\ ((no_rows s).1 = Ok (nrows lc df2, 0)
      /\ In (EvWarning "No data in the file.") (emitted no_rows s)
      /\ yaml_file (no_rows s).2 = yaml_file s
      /\ questions_file (no_rows s).2 = Some (nrows lc df2)
      /\ answers_file (no_rows s).2 = None).
Proof.
  intros Hname Hx Hc Hname2 Hext Hup Hlen. cbn zeta.
  split; [|split; [|split]].
  - split; [by rewrite rag_answer_eq|]. split.
    { rewrite rag_answer_emitted. cbn.
      by rewrite List.filter_app, pipeline_events_reconcile. }
    repeat split; rewrite rag_answer_eq; cbn;
      unfold reconciled; by destruct snapshot_differs.
  - rewrite read_file_to_excel_eq. cbn zeta. rewrite Hname, Hx, Hc. cbn.
    destruct (removed_fields s) as (? & ? & ? & ?). done.
  - rewrite read_file_to_excel_eq. cbn zeta.
    destruct (removed_fields s) as (? & ? & ? & ?). done.
  - pose proof (nrows_len_0 lc df2 Hlen) as Hlen'.
    unfold emitted. rewrite read_file_to_excel_eq. cbn zeta.
    rewrite Hname2, Hext, Hup, Hlen'. cbn -[nrows].
    destruct (removed_fields s) as (Ha & Hq & Hy & Hp).
    repeat split; try done.
    unfold removed. destruct (answers_file s); cbn -[nrows].
    + rewrite <- !app_assoc, drop_app_length. cbn. auto.
    + rewrite <- !app_assoc, drop_app_length. cbn. auto.
Qed.

(** ** The evaluation *)

Lemma columns_head n df : columns (df_head n df) = columns df.
Proof.
  unfold columns, df_head. cbn. induction (df_cols df) as [|[c cells] l IH];
    [done|]. cbn. by f_equal.
Qed.

Lemma has_column_head n df c : has_column (df_head n df) c = has_column df c.
Proof. unfold has_column. by rewrite columns_head. Qed.

Lemma evaluate_rag_eq metrics num s :
  evaluate_rag metrics num s =
  match answers_file s with
  | None => (Raise (FileNotFoundError "No such file or directory"), s)
  | Some doc =>
      let answers_df := df_head num doc in
      if negb (existsb (fun c => existsb (String.eqb c) recognized_modes)
                       (columns answers_df))
      then (Raise (GrError "No RAG answers found in the answer file."), s)
      else
        match for_each (modes_in_registry_order answers_df)
                (evaluate_rag_mode metrics) (answers_df, df_empty) s with
        | (Ok r, s') =>
            df_insert0 "method"
              (map PyStr (modes_in_registry_order answers_df)) r.2 s'
        | (Raise e, s') => (Raise e, s')
        end
  end.
Proof.
  unfold evaluate_rag, read_excel, get_file.
  unfold bind at 1. unfold bind at 1.
  destruct (answers_file s) as [doc|]; [|reflexivity].
  unfold ret at 1. cbn zeta.
  destruct (negb _); [reflexivity|]. reflexivity.
Qed.

(** C7. When the answer document has none of the recognised answer
    columns, the evaluation ends in the error that no answers were found; it
    leaves the state as it was: no scorer has been called. *)
Theorem evaluate_rag_no_answers metrics num s doc :
  answers_file s = Some doc ->
  (forall c, In c recognized_modes -> has_column doc c = false) ->
  evaluate_rag metrics num s
  = (Raise (GrError "No RAG answers found in the answer file."), s)
  /\ emitted (evaluate_rag metrics num) s = []
  /\ eval_calls (evaluate_rag metrics num s).2 = eval_calls s.
Proof.
  intros Hfile Hnone.
  assert (Heq : evaluate_rag metrics num s
                = (Raise (GrError "No RAG answers found in the answer file."), s)).
  { rewrite evaluate_rag_eq, Hfile. cbn zeta. rewrite columns_head.
    destruct (existsb _ (columns doc)) eqn:E; [|done].
    apply existsb_exists in E as (c & Hc & Hrec).
    apply existsb_exists in Hrec as (m & Hm & Hcm).
    apply String.eqb_eq in Hcm. subst m.
    specialize (Hnone c Hm). unfold has_column in Hnone.
    assert (existsb (String.eqb c) (columns doc) = true); [|congruence].
    apply existsb_exists. exists c. split; [done|apply String.eqb_refl]. }
  split; [done|]. unfold emitted. rewrite Heq. cbn. by rewrite drop_all.
Qed.

Lemma header_dict_cases m h :
  assoc_get m rag_answer_header_dict = Some h ->
  (m = "Vector-only Answer" /\ h = "Vector Contexts")
  \/ (m = "Graph-only Answer" /\ h = "Graph Contexts")
  \/ (m = "Graph-Vector Answer" /\ h = "Graph-Vector Contexts").
Proof.
  unfold rag_answer_header_dict. cbn [assoc_get].
  destruct (String.eqb_spec "Vector-only Answer" m) as [<-|_];
    [intros [= <-]; auto|].
  destruct (String.eqb_spec "Graph-only Answer" m) as [<-|_];
    [intros [= <-]; auto|].
  destruct (String.eqb_spec "Graph-Vector Answer" m) as [<-|_];
    [intros [= <-]; auto|done].
Qed.

Lemma existsb_filter_not c (P : string -> bool) l :
  P c = false ->
  existsb (String.eqb c) (List.filter (fun x => negb (P x)) l)
  = existsb (String.eqb c) l.
Proof.
  intros HP. induction l as [|x l IH]; [done|]. cbn.
  destruct (String.eqb_spec c x) as [<-|Hne].
  - rewrite HP. cbn. by rewrite String.eqb_refl.
  - destruct (P x); cbn; [done|]. destruct (String.eqb_spec c x); [done|]. done.
Qed.

Lemma has_column_concat_false a b c :
  has_column a c = false -> has_column b c = false ->
  has_column (df_concat a b) c = false.
Proof.
  intros Ha Hb. unfold has_column in *. unfold columns at 1, df_concat.
  cbn [df_cols]. rewrite <- list_fmap_compose.
  replace (fst ∘ _) with (@id string) by done. rewrite list_fmap_id.
  rewrite existsb_app, Ha. cbn [orb].
  rewrite (existsb_filter_not c (fun x => existsb (String.eqb x) (columns a)));
    done.
Qed.

Section Evaluation.

Variables (metrics scorers : list string).
Hypothesis metrics_known : lookup_metrics metrics = inr scorers.
(** The scorers give one score row for each sample, and no column named
    [method]. *)
Hypothesis one_row_a_sample : forall n ds,
  exists sc, ragas_evaluate n ds scorers = inr sc
             /\ df_len sc = length (ds_question ds)
             /\ has_column sc "method" = false.

Lemma evaluate_rag_mode_ok m h adf acc s cells loaded q g a :
  assoc_get m rag_answer_header_dict = Some h ->
  df_col adf h = Some cells -> loads_all cells = inr loaded ->
  df_col adf "Question" = Some q ->
  df_col adf m = Some a ->
  df_col adf "Expected Answer" = Some g ->
  exists sc s',
    evaluate_rag_mode metrics m (adf, acc) s
    = (Ok (mkDF (df_len adf) (assoc_set h loaded (df_cols adf)),
           df_concat acc sc), s')
    /\ df_len sc = length q
    /\ has_column sc "method" = false
    /\ eval_calls s' = S (eval_calls s).
Proof.
  intros Hh Hcells Hload Hq Ha Hg.
  destruct (one_row_a_sample (eval_calls s) (mkDataset q a loaded g))
    as (sc & Hsc & Hlen & Hmeth).
  assert (Hne : h <> "Question" /\ h <> m /\ h <> "Expected Answer").
  { destruct (header_dict_cases m h Hh) as [[-> ->]|[[-> ->]|[-> ->]]]; done. }
  destruct Hne as (Hn1 & Hn2 & Hn3).
  exists sc. eexists. unfold evaluate_rag_mode.
  rewrite Hh. unfold bind at 1. unfold ret at 1.
  unfold df_getitem at 1. rewrite Hcells. unfold bind at 1. unfold ret at 1.
  rewrite Hload. unfold lift at 1. unfold bind at 1. unfold ret at 1.
  unfold df_getitem, df_col in *. cbn [df_cols].
  rewrite (assoc_get_set_ne "Question" h), Hq by done.
  unfold bind at 1. unfold ret at 1.
  rewrite (assoc_get_set_ne m h), Ha by done.
  unfold bind at 1. unfold ret at 1.
  rewrite assoc_get_set_eq. unfold bind at 1. unfold ret at 1.
  rewrite (assoc_get_set_ne "Expected Answer" h), Hg by done.
  unfold bind at 1. unfold ret at 1.
  rewrite metrics_known. unfold lift at 1. unfold bind at 1. unfold ret at 1.
  unfold bind at 1. unfold evaluate at 1. rewrite Hsc.
  unfold bind, emit, ret. cbn. done.
Qed.

Lemma evaluate_loop ms : forall adf acc s q,
  NoDup ms ->
  forallb (fun m =>
             match assoc_get m rag_answer_header_dict with
             | Some h =>
                 match df_col adf h with
                 | Some cells =>
                     match loads_all cells with
                     | inr _ => true | inl _ => false
                     end
                 | None => false
                 end
             | None => false
             end) ms = true ->
  (forall m, In m ms -> is_Some (df_col adf m)) ->
  df_col adf "Question" = Some q -> length q = 1 ->
  is_Some (df_col adf "Expected Answer") ->
  has_column acc "method" = false ->
  exists adf' acc' s',
    for_each ms (evaluate_rag_mode metrics) (adf, acc) s = (Ok (adf', acc'), s')
    /\ df_len acc' = df_len acc + length ms
    /\ has_column acc' "method" = false
    /\ eval_calls s' = eval_calls s + length ms.
Proof.
  induction ms as [|m ms IH]; intros adf acc s q Hnd Hload Hcols Hq Hq1 Hg Hacc.
  - exists adf, acc, s. cbn. repeat split; auto with lia.
  - cbn [forallb] in Hload. apply andb_true_iff in Hload as [Hm Hload].
    destruct (assoc_get m rag_answer_header_dict) as [h|] eqn:Hh; [|done].
    destruct (df_col adf h) as [cells|] eqn:Hcells; [|done].
    destruct (loads_all cells) as [e|loaded] eqn:Hl; [done|].
    destruct (Hcols m) as [a Ha]; [by left|].
    destruct Hg as [g Hg].
    destruct (evaluate_rag_mode_ok m h adf acc s cells loaded q g a)
      as (sc & s1 & Heq & Hlen & Hmeth & Hc); try done.
    apply NoDup_cons in Hnd as [Hnotin Hnd].
    set (adf1 := mkDF (df_len adf) (assoc_set h loaded (df_cols adf))) in *.
    assert (Hkeep : forall c, c <> h -> df_col adf1 c = df_col adf c).
    { intros c Hc'. unfold adf1, df_col. cbn. by apply assoc_get_set_ne. }
    assert (Hhq : h <> "Question" /\ h <> "Expected Answer"
                  /\ forall m', In m' ms -> h <> m').
    { destruct (header_dict_cases m h Hh) as [[-> ->]|[[-> ->]|[-> ->]]];
        repeat split; try done; intros m' Hin <-;
        rewrite forallb_forall in Hload; specialize (Hload _ Hin);
        cbn in Hload; done. }
    destruct Hhq as (Hhq & Hhg & Hhm).
    destruct (IH adf1 (df_concat acc sc) s1 q) as
      (adf' & acc' & s' & Hloop & Hlen' & Hmeth' & Hc'); try done.
    + rewrite forallb_forall in Hload |- *. intros m' Hin.
      specialize (Hload m' Hin).
      destruct (assoc_get m' rag_answer_header_dict) as [h'|] eqn:Hh'; [|done].
      rewrite Hkeep; [done|]. intros ->.
      destruct (header_dict_cases m h Hh) as [[-> ->]|[[-> ->]|[-> ->]]];
        destruct (header_dict_cases m' _ Hh') as [[-> E]|[[-> E]|[-> E]]];
        try discriminate E; apply Hnotin; apply list_elem_of_In, Hin.
    + intros m' Hin. rewrite Hkeep; [apply Hcols; by right|].
      intros ->. by apply (Hhm h).
    + by rewrite Hkeep.
    + by rewrite Hkeep.
    + by apply has_column_concat_false.
    + exists adf', acc', s'. rewrite for_each_cons, Heq, Hloop.
      repeat split; [|done|].
      * rewrite Hlen'. cbn [df_concat df_len length]. lia.
      * rewrite Hc', Hc. cbn [length]. lia.
Qed.

End Evaluation.


End Properties.

(** * The properties on concrete runs *)

(** The batch over the template question file, in the vector-only and
    graph-only modes, writes [Demo.answered_doc]: the answer columns keep the
    places the template gave them. *)
Example template_batch_document :
  answers_file
    (@several_rag_answer Demo.two_modes (PyBool false) (PyBool true)
       (PyBool true) (PyBool false) (1 # 2) bleu false ""
       "Answer the question." 1 Demo.state_template).2
  = Some Demo.answered_doc.
Proof. vm_compute. reflexivity. Qed.

(** C2, as the specification has it, fails: a request without a mode whose
    question is new changes the saved configuration, and the upload of a
    text file removes the answer file. *)
Lemma validation_changes_state :
  yaml_file
    (@rag_answer Demo.always_fallback (PyStr "What is HugeGraph?")
       (PyBool false) (PyBool false) (PyBool false) (PyBool false)
       (1 # 2) bleu false "" "Answer the question." Demo.state_answered).2
  <> yaml_file Demo.state_answered
  /\ answers_file
       (@read_file_to_excel Demo.always_fallback (Some "notes.txt") None
          Demo.state_answered).2
     <> answers_file Demo.state_answered.
Proof. split; vm_compute; discriminate. Qed.

Lemma validation_paths_state_witness :
  let s := Demo.state_answered in
  let text := PyStr "What is HugeGraph?" in
  let no_mode :=
    @rag_answer Demo.always_fallback text (PyBool false) (PyBool false)
      (PyBool false) (PyBool false) (1 # 2) bleu false ""
      "Answer the question." in
  questions_file (no_mode s).2 = questions_file s
  /\ answers_file (no_mode s).2 = answers_file s
  /\ yaml_file (no_mode s).2 = mkPrompt text "Answer the question." ""
  /\ answers_file
       (@read_file_to_excel Demo.always_fallback (Some "notes.txt") None s).2
     = None
  /\ questions_file
       (@read_file_to_excel Demo.always_fallback (Some "empty.xlsx") None s).2
     = Some (mkDF 0 [("Question", [])]).
Proof.
  destruct (@validation_paths_state Demo.always_fallback
              (PyStr "What is HugeGraph?") (1 # 2) bleu false ""
              "Answer the question." Demo.state_answered "notes.txt" None
              "empty.xlsx" (mkDF 0 [("Question", [])]))
    as ((_ & _ & Hq & Ha & Hy) & (_ & _ & _ & _ & Hb) & _ & (_ & _ & _ & Hn & _));
    [reflexivity..|].
  cbn zeta. split; [exact Hq|]. split; [exact Ha|]. split; [exact Hy|].
  split; [exact Hb|exact Hn].
Defined.





Lemma evaluate_rag_no_answers_witness :
  @evaluate_rag Demo.always_fallback ["faithfulness"] 1 Demo.state_unanswered
  = (Raise (GrError "No RAG answers found in the answer file."),
     Demo.state_unanswered).
Proof.
  destruct (@evaluate_rag_no_answers Demo.always_fallback ["faithfulness"] 1
              Demo.state_unanswered Demo.three_questions) as (Heq & _).
  - reflexivity.
  - intros c [<-|[<-|[<-|[]]]]; reflexivity.
  - exact Heq.
Defined.


Lemma rag_answer_falsy_raw_not_rejected_witness :
  let call :=
    @rag_answer Demo.always_fallback (PyStr "Who is Al Pacino?") PyNone
      (PyBool false) (PyBool false) (PyBool false) (1 # 2) bleu false ""
      "Answer the question." in
  request_rejected PyNone (PyBool false) (PyBool false) (PyBool false) = false
  /\ stages_of (emitted call Demo.state0)
     = [merge_dedup_rerank (1 # 2) bleu false "";
        synthesize_answer "Answer the question."]
  /\ run_calls (call Demo.state0).2 = 1.
Proof.
  destruct (@rag_answer_falsy_raw_not_rejected Demo.always_fallback
              (PyStr "Who is Al Pacino?") PyNone (PyBool false) (PyBool false)
              (PyBool false) (1 # 2) bleu false "" "Answer the question."
              Demo.state0) as (Hrej & _ & _ & Hcalls);
    [reflexivity..|].
  cbn zeta. split; [exact Hrej|]. split; [reflexivity|exact Hcalls].
Defined.

Lemma batch_no_mode_unpack_error_witness :
  (@several_rag_answer Demo.always_fallback (PyBool false) (PyBool false)
     (PyBool false) (PyBool false) (1 # 2) bleu false ""
     "Answer the question." 1 Demo.state0).1
  = Raise (ValueError "not enough values to unpack (expected 5, got 4)").
Proof.
  destruct (@batch_no_mode_unpack_error Demo.always_fallback
              (PyStr "Who is Al Pacino?") (1 # 2) bleu false ""
              "Answer the question." 1 Demo.state0 Demo.three_questions
              (PyStr "Who is Al Pacino?")) as (_ & _ & Hres & _).
  - reflexivity.
  - reflexivity.
  - cbn. lia.
  - exact Hres.
Defined.

(** With two rows in the answer document, the scores have two rows for the
    one mode and the labelling of the rows fails: the evaluation is for a
    document of one row, which is all its form lets the user ask for. *)
Example evaluation_two_rows_raises :
  (@evaluate_rag Demo.always_fallback ["faithfulness"] 2
     (mkState Demo.prompt0 Demo.prompt0 None
        (Some (mkDF 2 [ ("Question", [PyStr "a"; PyStr "b"]);
                        ("Vector-only Answer", [PyStr "x"; PyStr "y"]);
                        ("Expected Answer", [PyStr "x"; PyStr "z"]);
                        ("Vector Contexts", [PyStr "[]"; PyStr "[]"]) ]))
        0 0 [])).1
  = Raise (ValueError "Length of values does not match length of index").
Proof. vm_compute. reflexivity. Qed.

(** * Further properties of the block *)

Section MoreProperties.

Context `{!Collaborators}.

Local Arguments has_column : simpl never.
Local Arguments df_set_at : simpl never.
Local Arguments df_setitem : simpl never.
Local Arguments df_at : simpl never.

(** ** [rag_answer]: failures of the run, shape of the answer *)

Lemma advisories_run_tail_raises r :
  run_raises r = true -> advisories (run_tail r) = 0.
Proof. by destruct r. Qed.

Lemma emitted_trace_rag_answer text raw vo go gv ratio method nnf hint ap s :
  let call := rag_answer text raw vo go gv ratio method nnf hint ap in
  trace (call s).2 = trace s ++ emitted call s.
Proof.
  cbn zeta. rewrite rag_answer_emitted, rag_answer_eq. cbn zeta.
  destruct (reconciled_push text ap hint s) as (Ht & _).
  destruct (request_rejected raw vo go gv).
  - cbn. by rewrite Ht, <- app_assoc.
  - destruct (pipeline_run _ _ _) as [context|msg|msg]; cbn;
      rewrite Ht, <- !app_assoc; done.
Qed.

(** X1. When the run of the pipeline raises, [rag_answer] raises one
    [gr.Error]: with the message of a [ValueError] as it is, with the message
    of any other exception after "An unexpected error occurred: ". The last
    thing it does before is to log the original message as critical; no
    fallback advisory is given, and the run has been counted. *)
Theorem rag_answer_upstream_failure text raw vo go gv ratio method nnf hint ap s :
  request_rejected raw vo go gv = false ->
  run_raises (pipeline_run (run_calls s)
                (composed_stages vo go gv ratio method nnf hint ap)
                (mkRun text raw vo go gv)) = true ->
  let call := rag_answer text raw vo go gv ratio method nnf hint ap in
  let r := pipeline_run (run_calls s)
             (composed_stages vo go gv ratio method nnf hint ap)
             (mkRun text raw vo go gv) in
  (call s).1 = Raise (GrError (error_message r))
  /\ last (emitted call s) = Some (EvLogCritical (logged_message r))
  /\ advisories (emitted call s) = 0
  /\ run_calls (call s).2 = S (run_calls s).
Proof.
  intros Hrej Hraise. cbn zeta.
  rewrite rag_answer_emitted, rag_answer_eq, Hrej. cbn zeta.
  destruct (reconciled_push text ap hint s) as (_ & Hc & _).
  rewrite !advisories_app, advisories_reconcile, advisories_stages.
  destruct (pipeline_run _ _ _) as [context|msg|msg]; [done|..];
    cbn [fst snd error_message logged_message run_tail run_calls push ran];
    rewrite Hc, !app_assoc, last_snoc; done.
Qed.

(** X2. When the run returns a context, [rag_answer] returns five
    components and does not raise, whatever keys the context has: an answer
    that the context lacks is the empty string, contexts that it lacks are
    [None]. The user gets the fallback advisory once when the context has a
    truthy [switch_to_bleu], and not at all otherwise. *)
Theorem rag_answer_success_shape text raw vo go gv ratio method nnf hint ap s context :
  request_rejected raw vo go gv = false ->
  pipeline_run (run_calls s)
    (composed_stages vo go gv ratio method nnf hint ap)
    (mkRun text raw vo go gv) = RunOk context ->
  let call := rag_answer text raw vo go gv ratio method nnf hint ap in
  (call s).1
  = Ok (Tuple5 (default (PyStr "") (context !! "raw_answer_result"))
               (default (PyStr "") (context !! "vector_only_answer_result"))
               (default (PyStr "") (context !! "graph_only_answer_result"))
               (default (PyStr "") (context !! "graph_vector_answer_result"))
               (mkContexts (default PyNone (context !! "vector_contexts"))
                           (default PyNone (context !! "graph_contexts"))
                           (default PyNone (context !! "graph_vector_contexts"))))
  /\ advisories (emitted call s)
     = (if py_truthy (default PyNone (context !! "switch_to_bleu")) then 1 else 0)
  /\ (context !! "switch_to_bleu" = None -> advisories (emitted call s) = 0).
Proof.
  intros Hrej Hrun. cbn zeta.
  rewrite rag_answer_emitted, rag_answer_eq, Hrej. cbn zeta. rewrite Hrun.
  rewrite !advisories_app, advisories_reconcile, advisories_stages.
  cbn [run_tail]. unfold ctx_get.
  assert (Hadv : advisories
                   (if py_truthy (default PyNone (context !! "switch_to_bleu"))
                    then [fallback_advisory] else [])
                 = if py_truthy (default PyNone (context !! "switch_to_bleu"))
                   then 1 else 0).
  { by destruct (py_truthy _). }
  split; [done|]. split.
  - cbn. by rewrite Hadv.
  - intros Hnone. cbn. rewrite Hadv, Hnone. done.
Qed.

(** ** [rag_answer]: what it leaves alone *)

Lemma same_store_push evs s s0 : same_store s0 s -> same_store s0 (push evs s).
Proof. by intros (? & ? & ? & ?). Qed.

Lemma filter_run_stages rag : List.filter is_run (map EvStage rag) = [].
Proof. induction rag as [|st rag IH]; [done|]. by cbn. Qed.

Lemma filter_run_reconcile text ap hint s :
  List.filter is_run (reconcile_events text ap hint s) = [].
Proof. unfold reconcile_events. by destruct snapshot_differs. Qed.

Lemma filter_run_tail r : List.filter is_run (run_tail r) = [].
Proof.
  destruct r as [context| |]; cbn; [|done..].
  by destruct (py_truthy (ctx_get _ _ _)).
Qed.

(** X3. [rag_answer] never touches the question file or the answer file,
    on any of its paths, and calls no scorer. It runs the pipeline once when
    the request is not rejected, however many modes are on, and not at all
    when it is rejected; the trace it leaves is the old one with the events
    of the call at its end. *)
Theorem rag_answer_frame text raw vo go gv ratio method nnf hint ap s :
  let call := rag_answer text raw vo go gv ratio method nnf hint ap in
  questions_file (call s).2 = questions_file s
  /\ answers_file (call s).2 = answers_file s
  /\ eval_calls (call s).2 = eval_calls s
  /\ run_calls (call s).2
     = run_calls s + (if request_rejected raw vo go gv then 0 else 1)
  /\ length (List.filter is_run (emitted call s))
     = (if request_rejected raw vo go gv then 0 else 1)
  /\ trace (call s).2 = trace s ++ emitted call s.
Proof.
  cbn zeta. split_and!; [..|apply emitted_trace_rag_answer].
  1-4: rewrite rag_answer_eq; cbn zeta;
    destruct (reconciled_push text ap hint s) as (_ & Hc & He & Hq & Ha);
    destruct (request_rejected raw vo go gv);
    [|destruct (pipeline_run _ _ _)]; cbn; rewrite ?Hc; try done; lia.
  rewrite rag_answer_emitted. cbn zeta.
  rewrite List.filter_app, filter_run_reconcile.
  destruct (request_rejected raw vo go gv); [done|].
  rewrite List.filter_app, filter_run_stages. cbn.
  by rewrite filter_run_tail.
Qed.

(** ** [rag_answer]: the configuration after a call *)

Lemma py_eq_PyStr x q : py_eq x (PyStr q) = true -> x = PyStr q.
Proof.
  destruct x; cbn; try done. intros E. apply String.eqb_eq in E. by subst.
Qed.

Lemma reconciled_prompt_string q ap hint s :
  prompt (reconciled (PyStr q) ap hint s) = mkPrompt (PyStr q) ap hint.
Proof.
  unfold reconciled. destruct snapshot_differs eqn:E; [done|].
  unfold snapshot_differs, py_ne in E.
  rewrite !orb_false_iff, !negb_false_iff, !String.eqb_eq in E.
  destruct E as ((Hq & Ha) & Hh). apply py_eq_PyStr in Hq.
  destruct (prompt s) as [dq a h]. cbn in *. by subst.
Qed.

Lemma rag_answer_prompt text raw vo go gv ratio method nnf hint ap s :
  prompt (rag_answer text raw vo go gv ratio method nnf hint ap s).2
  = prompt (reconciled text ap hint s).
Proof.
  rewrite rag_answer_eq. cbn zeta.
  destruct (request_rejected raw vo go gv); [done|].
  by destruct (pipeline_run _ _ _).
Qed.

Lemma filter_update_stages rag : List.filter is_update_yaml (map EvStage rag) = [].
Proof. induction rag as [|st rag IH]; [done|]. by cbn. Qed.

Lemma filter_update_tail r : List.filter is_update_yaml (run_tail r) = [].
Proof.
  destruct r as [context| |]; cbn; [|done..].
  by destruct (py_truthy (ctx_get _ _ _)).
Qed.

Lemma rag_answer_updates text raw vo go gv ratio method nnf hint ap s :
  List.filter is_update_yaml
    (emitted (rag_answer text raw vo go gv ratio method nnf hint ap) s)
  = reconcile_events text ap hint s.
Proof.
  rewrite rag_answer_emitted. cbn zeta. rewrite List.filter_app.
  assert (Hrec : List.filter is_update_yaml (reconcile_events text ap hint s)
                 = reconcile_events text ap hint s).
  { unfold reconcile_events. by destruct snapshot_differs. }
  rewrite Hrec. destruct (request_rejected raw vo go gv).
  - cbn. by rewrite app_nil_r.
  - rewrite List.filter_app, filter_update_stages. cbn.
    by rewrite filter_update_tail, app_nil_r.
Qed.

(** X4. After a call with a question that is a string, on any of its
    paths, the stored configuration holds the question, the prompt and the
    hint of the call; a further call with the same three, whatever its flags
    and its other parameters, saves nothing. *)
Theorem rag_answer_configuration_settles
    q raw vo go gv ratio method nnf hint ap s
    raw' vo' go' gv' ratio' method' nnf' :
  let s' := (rag_answer (PyStr q) raw vo go gv ratio method nnf hint ap s).2 in
  prompt s' = mkPrompt (PyStr q) ap hint
  /\ List.filter is_update_yaml
       (emitted (rag_answer (PyStr q) raw' vo' go' gv' ratio' method' nnf' hint ap)
                s') = [].
Proof.
  cbn zeta.
  assert (Hp : prompt (rag_answer (PyStr q) raw vo go gv ratio method nnf hint ap s).2
               = mkPrompt (PyStr q) ap hint).
  { by rewrite rag_answer_prompt, reconciled_prompt_string. }
  split; [done|].
  rewrite rag_answer_updates. unfold reconcile_events. rewrite Hp.
  unfold snapshot_differs, py_ne. cbn. by rewrite !String.eqb_refl.
Qed.

(** ** [read_file_to_excel]: the extensions, the preview, unreadable files *)

Lemma string_length_app a b :
  String.length (a +:+ b) = String.length a + String.length b.
Proof. induction a as [|c a IH]; simpl; [done|]. by f_equal. Qed.

Lemma substring_all b : substring 0 (String.length b) b = b.
Proof. induction b as [|c b IH]; simpl; [done|]. by f_equal. Qed.

Lemma substring_app_r a b :
  substring (String.length a) (String.length b) (a +:+ b) = b.
Proof. induction a as [|c a IH]; simpl; [apply substring_all|done]. Qed.

(** A name made of a base and a suffix ends with the suffix. *)
Lemma endswith_app a b : endswith (a +:+ b) b = true.
Proof.
  unfold endswith. rewrite string_length_app.
  replace (String.length a + String.length b - String.length b)
    with (String.length a) by lia.
  rewrite substring_app_r, String.eqb_refl, andb_true_r.
  apply Nat.leb_le. lia.
Qed.

Lemma app_not_empty a b : b <> "" -> (a +:+ b =? "")%string = false.
Proof.
  intros Hb. apply String.eqb_neq. intros E.
  destruct a; cbn in E; [done|discriminate].
Qed.

Lemma df_len_head n df :
  df_len (df_head (Z.of_nat n) df) = Nat.min n (df_len df).
Proof.
  unfold df_head, py_slice_to. cbn [df_len].
  replace (0 <=? Z.of_nat n)%Z with true by (symmetry; apply Z.leb_le; lia).
  by rewrite Nat2Z.id, length_take, length_seq.
Qed.

Lemma df_at_head n df i c :
  i < n -> df_at (df_head (Z.of_nat n) df) i c = df_at df i c.
Proof.
  intros Hi. unfold df_at, df_head, df_col, py_slice_to. cbn [df_cols].
  replace (0 <=? Z.of_nat n)%Z with true by (symmetry; apply Z.leb_le; lia).
  rewrite Nat2Z.id.
  induction (df_cols df) as [|[k cells] l IH]; [done|]. cbn.
  destruct (k =? c)%string; [|done]. cbn. by apply lookup_take_lt.
Qed.

Lemma removed_trace s :
  exists evs, trace (removed s) = trace s ++ evs
              /\ List.filter is_to_excel evs = []
              /\ ~ In (EvWarning "No data in the file.") evs.
Proof.
  unfold removed. destruct (answers_file s).
  - exists [EvRemove answers_path]. cbn. split_and!; [done|done|].
    intros [E|[]]. discriminate.
  - exists []. cbn. rewrite app_nil_r. split_and!; [done|done|]. by intros [].
Qed.

(** X5. An upload whose name ends in ".xlsx" or ".csv", whatever comes
    before, and that can be parsed, becomes the question file with all the
    rows that were read, and any answer file is removed. What is returned is
    a preview of at most 40 rows: its number of rows is returned with it, it
    has the columns of the table and agrees with the table on its rows. The
    warning that there is no data is given exactly when the table has no
    row. *)
Theorem read_file_to_excel_supported base ext lc s df :
  ext = ".xlsx" \/ ext = ".csv" ->
  read_upload (base +:+ ext) = inr df ->
  let call := read_file_to_excel (Some (base +:+ ext)) lc in
  let table := nrows lc df in
  exists preview,
    (call s).1 = Ok (preview, Nat.min 40 (df_len table))
    /\ df_len preview = Nat.min 40 (df_len table)
    /\ columns preview = columns table
    /\ (forall i c, i < 40 -> df_at preview i c = df_at table i c)
    /\ questions_file (call s).2 = Some table
    /\ answers_file (call s).2 = None
    /\ (In (EvWarning "No data in the file.") (emitted call s)
        <-> df_len table = 0).
Proof.
  intros Hext Hup. cbn zeta.
  assert (Hname : (base +:+ ext =? "")%string = false).
  { apply app_not_empty. by destruct Hext as [-> | ->]. }
  assert (Hends : endswith (base +:+ ext) ".xlsx"
                  || endswith (base +:+ ext) ".csv" = true).
  { destruct Hext as [-> | ->]; rewrite endswith_app; [done|apply orb_true_r]. }
  unfold emitted. rewrite read_file_to_excel_eq. cbn zeta.
  rewrite Hname, Hends, Hup.
  set (table := nrows lc df).
  destruct (removed_fields s) as (Ha & Hq & _ & _).
  destruct (removed_trace s) as (evs & Ht & _ & Hnw).
  destruct (40 <? df_len table)%nat eqn:Hlt.
  - apply Nat.ltb_lt in Hlt. exists (df_head 40 table).
    replace 40%Z with (Z.of_nat 40) by done.
    cbn [fst snd stored questions_file answers_file trace].
    rewrite Ha, Ht, <- app_assoc, drop_app_length.
    split_and!; try done.
    + repeat f_equal. lia.
    + rewrite df_len_head. lia.
    + apply columns_head.
    + intros i c Hi. by apply df_at_head.
    + split; [|lia]. intros Hin. apply in_app_or in Hin as [Hin|Hin]; [done|].
      destruct Hin as [E|[]]. discriminate.
  - apply Nat.ltb_ge in Hlt. exists table.
    cbn [fst snd stored push questions_file answers_file trace].
    rewrite Ha, Ht, <- !app_assoc, drop_app_length.
    split_and!; try done.
    + repeat f_equal. lia.
    + lia.
    + destruct (df_len table =? 0)%nat eqn:E0.
      * apply Nat.eqb_eq in E0. split; [done|]. intros _.
        apply in_or_app. right. cbn. auto.
      * apply Nat.eqb_neq in E0. split; [|done]. intros Hin.
        apply in_app_or in Hin as [Hin|Hin]; [done|].
        destruct Hin as [E|[]]. discriminate.
Qed.

(** X6. When the upload has a supported name but cannot be parsed, the
    error of the parser leaves [read_file_to_excel]: nothing is written, the
    question file is as it was, but the answer file has been removed. *)
Theorem read_file_to_excel_unreadable base ext lc s e :
  ext = ".xlsx" \/ ext = ".csv" ->
  read_upload (base +:+ ext) = inl e ->
  let call := read_file_to_excel (Some (base +:+ ext)) lc in
  (call s).1 = Raise e
  /\ questions_file (call s).2 = questions_file s
  /\ answers_file (call s).2 = None
  /\ List.filter is_to_excel (emitted call s) = []
  /\ yaml_file (call s).2 = yaml_file s.
Proof.
  intros Hext Hup. cbn zeta.
  assert (Hname : (base +:+ ext =? "")%string = false).
  { apply app_not_empty. by destruct Hext as [-> | ->]. }
  assert (Hends : endswith (base +:+ ext) ".xlsx"
                  || endswith (base +:+ ext) ".csv" = true).
  { destruct Hext as [-> | ->]; rewrite endswith_app; [done|apply orb_true_r]. }
  unfold emitted. rewrite read_file_to_excel_eq. cbn zeta.
  rewrite Hname, Hends, Hup. cbn [fst snd].
  destruct (removed_fields s) as (Ha & Hq & Hy & _).
  destruct (removed_trace s) as (evs & Ht & Hx & _).
  rewrite Ht, drop_app_length. done.
Qed.

(** ** [change_showing_excel] *)

Lemma change_showing_excel_eq tpl n s :
  change_showing_excel tpl n s =
  (match answers_file s with
   | Some df => Ok (nrows (Some n) df)
   | None =>
       match questions_file s with
       | Some df => Ok (nrows (Some n) df)
       | None =>
           match tpl with
           | Some df => Ok (nrows (Some n) df)
           | None => Raise (FileNotFoundError "No such file or directory")
           end
       end
   end, s).
Proof.
  unfold change_showing_excel, read_excel, get_file, bind, ret, raise.
  destruct (answers_file s) eqn:Ea; cbn; rewrite ?Ea; [done|].
  destruct (questions_file s) eqn:Eq; cbn; rewrite ?Eq; [done|].
  by destruct tpl.
Qed.

(** X7. [change_showing_excel] only reads: it leaves the state as it is.
    What it returns has at most [line_count] rows, and it raises only when
    there is no answer file, no question file and no template. *)
Theorem change_showing_excel_reads_only tpl n s :
  (change_showing_excel tpl n s).2 = s
  /\ (forall df, (change_showing_excel tpl n s).1 = Ok df -> df_len df <= n)
  /\ ((exists e, (change_showing_excel tpl n s).1 = Raise e)
      <-> answers_file s = None /\ questions_file s = None /\ tpl = None).
Proof.
  rewrite change_showing_excel_eq. cbn [fst snd]. split_and!; [done|..].
  - intros df Hdf.
    assert (Hb : forall d, df_len (nrows (Some n) d) <= n).
    { intros d. cbn [nrows]. rewrite df_len_head. lia. }
    destruct (answers_file s); [injection Hdf as <-; apply Hb|].
    destruct (questions_file s); [injection Hdf as <-; apply Hb|].
    destruct tpl; [injection Hdf as <-; apply Hb|done].
  - destruct (answers_file s); [split; [by intros [e ?]|by intros (? & _)]|].
    destruct (questions_file s);
      [split; [by intros [e ?]|by intros (_ & ? & _)]|].
    destruct tpl; [split; [by intros [e ?]|by intros (_ & _ & ?)]|].
    split; eauto.
Qed.

(** X8. After an upload that was accepted, the preview shows the first
    rows of the table that was uploaded, also when an answer file of an
    earlier batch was there before the upload: the upload has removed it. *)
Theorem upload_then_preview base ext lc s df tpl n :
  ext = ".xlsx" \/ ext = ".csv" ->
  read_upload (base +:+ ext) = inr df ->
  let s' := (read_file_to_excel (Some (base +:+ ext)) lc s).2 in
  change_showing_excel tpl n s' = (Ok (nrows (Some n) (nrows lc df)), s').
Proof.
  intros Hext Hup. cbn zeta.
  assert (Hname : (base +:+ ext =? "")%string = false).
  { apply app_not_empty. by destruct Hext as [-> | ->]. }
  assert (Hends : endswith (base +:+ ext) ".xlsx"
                  || endswith (base +:+ ext) ".csv" = true).
  { destruct Hext as [-> | ->]; rewrite endswith_app; [done|apply orb_true_r]. }
  rewrite change_showing_excel_eq, read_file_to_excel_eq. cbn zeta.
  rewrite Hname, Hends, Hup.
  destruct (removed_fields s) as (Ha & _).
  destruct (40 <? _)%nat;
    cbn [fst snd stored push questions_file answers_file]; by rewrite Ha.
Qed.


(** ** The columns of a frame under the writes of the batch *)

Lemma assoc_set_keys {A} c (v : A) l :
  (assoc_set c v l).*1 = add_column (l.*1) c.
Proof.
  unfold add_column. induction l as [|[k w] l IH]; [done|]. cbn.
  rewrite (String.eqb_sym c k).
  destruct (k =? c)%string; cbn; [done|]. rewrite IH.
  by destruct (existsb (String.eqb c) l.*1).
Qed.

Lemma columns_set_at df i c v :
  columns (df_set_at df i c v) = add_column (columns df) c.
Proof. unfold columns, df_set_at. cbn. apply assoc_set_keys. Qed.

Lemma columns_setitem df c v :
  columns (df_setitem df c v) = add_column (columns df) c.
Proof. unfold columns, df_setitem. cbn. apply assoc_set_keys. Qed.

Lemma existsb_add_column cols c c' :
  existsb (String.eqb c) (add_column cols c')
  = existsb (String.eqb c) cols || (c =? c')%string.
Proof.
  unfold add_column. destruct (existsb (String.eqb c') cols) eqn:E.
  - destruct (String.eqb_spec c c') as [->|_]; [|by rewrite orb_false_r].
    by rewrite E.
  - rewrite existsb_app. cbn. by rewrite orb_false_r.
Qed.

Lemma add_column_present cols c :
  existsb (String.eqb c) cols = true -> add_column cols c = cols.
Proof. unfold add_column. by intros ->. Qed.

Lemma fold_add_columns names : forall cols,
  List.NoDup names ->
  fold_left add_column names cols
  = cols ++ List.filter (fun c => negb (existsb (String.eqb c) cols)) names.
Proof.
  induction names as [|c names IH]; intros cols Hnd; cbn.
  - by rewrite app_nil_r.
  - apply List.NoDup_cons_iff in Hnd as [Hnotin Hnd]. rewrite IH by done.
    unfold add_column. destruct (existsb (String.eqb c) cols) eqn:E; cbn; [done|].
    rewrite <- app_assoc. cbn. do 2 f_equal.
    apply List.filter_ext_in. intros x Hx.
    rewrite existsb_app. cbn. rewrite orb_false_r.
    destruct (String.eqb_spec x c) as [->|_]; [done|]. by rewrite orb_false_r.
Qed.

Lemma written_columns_NoDup : List.NoDup written_columns.
Proof. unfold written_columns. repeat constructor; cbn; intuition discriminate. Qed.

Lemma write_row_columns df i a b c d ctxs :
  columns (write_row df i (Tuple5 a b c d ctxs)) = batch_columns (columns df).
Proof.
  unfold batch_columns. rewrite <- fold_add_columns by apply written_columns_NoDup.
  cbn [write_row fold_left written_columns].
  rewrite !columns_set_at. unfold has_column at 1.
  destruct (existsb _ _) eqn:E.
  - by rewrite !columns_set_at.
  - rewrite !columns_setitem. rewrite !columns_set_at in E |- *.
    set (cols := add_column (add_column (add_column (add_column _ _) _) _) _) in *.
    set (c1 := add_column cols "Vector Contexts").
    set (c2 := add_column c1 "Graph Contexts").
    set (c3 := add_column c2 "Graph-Vector Contexts").
    rewrite (add_column_present c3 "Vector Contexts").
    2:{ unfold c3, c2, c1. rewrite !existsb_add_column. cbn.
        by rewrite !orb_true_r. }
    rewrite (add_column_present c3 "Graph Contexts").
    2:{ unfold c3, c2. rewrite !existsb_add_column. cbn.
        by rewrite !orb_true_r. }
    rewrite (add_column_present c3 "Graph-Vector Contexts").
    2:{ unfold c3. rewrite !existsb_add_column. cbn. by rewrite !orb_true_r. }
    done.
Qed.

Lemma existsb_batch_columns cols c :
  existsb (String.eqb c) (batch_columns cols)
  = existsb (String.eqb c) cols || is_written c.
Proof.
  unfold batch_columns. rewrite existsb_app.
  destruct (existsb (String.eqb c) cols) eqn:E; [done|]. cbn [orb].
  unfold is_written.
  induction written_columns as [|w ws IH]; [done|]. cbn.
  destruct (String.eqb_spec c w) as [->|Hne].
  - rewrite E. cbn. by rewrite String.eqb_refl.
  - destruct (negb _); cbn; [|done].
    destruct (String.eqb_spec c w); [done|]. done.
Qed.

Lemma filter_none {A} (P : A -> bool) l :
  (forall x, In x l -> P x = false) -> List.filter P l = [].
Proof.
  induction l as [|x l IH]; intros HP; [done|]. cbn.
  rewrite (HP x) by (by left). apply IH. intros y Hy. apply HP. by right.
Qed.

Lemma batch_columns_idem cols :
  batch_columns (batch_columns cols) = batch_columns cols.
Proof.
  unfold batch_columns at 1.
  replace (List.filter _ written_columns) with (@nil string);
    [by rewrite app_nil_r|].
  symmetry. apply filter_none. intros c Hc.
  apply negb_false_iff. rewrite existsb_batch_columns.
  assert (is_written c = true); [|by rewrite H0, orb_true_r].
  unfold is_written. apply existsb_exists. exists c.
  split; [done|apply String.eqb_refl].
Qed.

Lemma batch_columns_NoDup cols :
  List.NoDup cols -> List.NoDup (batch_columns cols).
Proof.
  intros Hnd. unfold batch_columns. apply NoDup_ListNoDup, NoDup_app.
  split_and!.
  - by apply NoDup_ListNoDup.
  - intros c Hc Hc'. apply list_elem_of_In, List.filter_In in Hc' as [_ Hn].
    apply negb_true_iff in Hn.
    assert (existsb (String.eqb c) cols = true); [|congruence].
    apply existsb_exists. exists c. split; [|apply String.eqb_refl].
    by apply list_elem_of_In.
  - apply NoDup_ListNoDup, List.NoDup_filter, written_columns_NoDup.
Qed.

(** ** The cells of a frame under the writes of the batch *)

Lemma is_written_false c :
  is_written c = false ->
  c <> "Basic LLM Answer" /\ c <> "Vector-only Answer"
  /\ c <> "Graph-only Answer" /\ c <> "Graph-Vector Answer"
  /\ c <> "Vector Contexts" /\ c <> "Graph Contexts"
  /\ c <> "Graph-Vector Contexts".
Proof.
  unfold is_written, written_columns. cbn [existsb].
  rewrite !orb_false_iff, !String.eqb_neq. tauto.
Qed.

Lemma write_row_untouched df i j r c :
  is_written c = false -> df_at (write_row df i r) j c = df_at df j c.
Proof.
  intros Hc. apply is_written_false in Hc as (? & ? & ? & ? & ? & ? & ?).
  destruct r; cbn [write_row]; [done|].
  rewrite !df_at_set_at_ne by done.
  destruct (has_column _ _); rewrite ?df_at_setitem_ne by done;
    by rewrite !df_at_set_at_ne.
Qed.

Lemma write_row_cell df i r c v :
  df_wf df = true -> i < df_len df ->
  written_cell r c = Some v -> df_at (write_row df i r) i c = Some v.
Proof.
  intros Hwf Hi. destruct r as [|a b c' d ctxs]; [done|].
  cbn [written_cell assoc_get].
  repeat (match goal with
          | |- context [(?k =? c)%string] =>
              destruct (String.eqb_spec k c) as [<-|_]
          end;
          [intros [= <-]; cbn [write_row];
           repeat first
             [ rewrite df_at_set_at_ne by done
             | rewrite df_at_setitem_ne by done
             | destruct (has_column _ _) ];
           (apply df_at_set_at_eq;
            [repeat (apply df_set_at_wf || apply df_setitem_wf); done|done])
          |]).
  done.
Qed.

Lemma written_cell_is_written a b c' d ctxs c :
  is_Some (written_cell (Tuple5 a b c' d ctxs) c) <-> is_written c = true.
Proof.
  unfold is_written, written_columns. cbn [written_cell assoc_get existsb].
  rewrite !(String.eqb_sym c).
  repeat (destruct (_ =? c)%string; [split; [done|eauto]|]).
  split; [by intros [? ?]|done].
Qed.

(** ** The loop of the batch when every run returns *)

Section BatchCells.

Variables (raw vo go gv : pyobj) (ratio : Q) (method : rerank_method)
          (nnf : bool) (hint ap : string).
Variable df0 : DataFrame.
Variables (qf : nat -> pyobj) (ctxf : nat -> gmap string pyobj).

Let rag := composed_stages vo go gv ratio method nnf hint ap.
Let body := several_rag_answer_row df0 (df_len df0) raw vo go gv ratio method
                                   nnf hint ap.

Hypothesis not_rejected : request_rejected raw vo go gv = false.

Lemma batch_loop_cells n : forall a df s,
  df_wf df = true -> df_len df = df_len df0 -> a + n <= df_len df0 ->
  (0 < a -> has_column df "Vector Contexts" = true) ->
  (forall i, i < n -> question_at df0 (a + i) = Some (qf (a + i))) ->
  (forall i, i < n ->
     pipeline_run (run_calls s + i) rag (mkRun (qf (a + i)) raw vo go gv)
     = RunOk (ctxf (a + i))) ->
  exists df' s' evs,
    for_each (seq a n) body df s = (Ok df', s')
    /\ df_wf df' = true /\ df_len df' = df_len df0
    /\ (forall j c x, j < a -> df_at df j c = Some x -> df_at df' j c = Some x)
    /\ (forall i c v, i < n ->
          written_cell (answer_of (ctxf (a + i))) c = Some v ->
          df_at df' (a + i) c = Some v)
    /\ (forall j c, is_written c = false -> df_at df' j c = df_at df j c)
    /\ columns df'
       = (if (n =? 0)%nat then columns df else batch_columns (columns df))
    /\ trace s' = trace s ++ evs
    /\ List.filter is_to_excel evs = []
    /\ length (List.filter is_run evs) = n
    /\ run_calls s' = run_calls s + n
    /\ questions_file s' = questions_file s
    /\ answers_file s' = answers_file s.
Proof.
  induction n as [|n IH]; intros a df s Hwf Hlen Han Hvc Hq Hrun.
  - exists df, s, []. cbn. rewrite app_nil_r. split_and!; auto with lia.
    all: intros; lia.
  - pose proof (Hq 0 ltac:(lia)) as Hq0.
    pose proof (Hrun 0 ltac:(lia)) as Hrun0.
    rewrite Nat.add_0_r in Hq0. do 2 rewrite Nat.add_0_r in Hrun0.
    pose proof (several_rag_answer_row_ok df0 (df_len df0) raw vo go gv ratio
                  method nnf hint ap a df s (qf a) (ctxf a) Hq0 not_rejected
                  Hrun0) as Heq.
    destruct (after_row_trace (qf a) raw vo go gv ratio method nnf hint ap
                (ctxf a) a (df_len df0) s) as (Ht & _ & _ & Hx & Hc & Haf & Hqf).
    cbn zeta in Ht, Hx.
    assert (Hruns :
      length (List.filter is_run
        (reconcile_events (qf a) ap hint s
         ++ map EvStage rag ++ [EvRun rag (mkRun (qf a) raw vo go gv)]
         ++ run_tail (RunOk (ctxf a)) ++ [EvProgress (a + 1) (df_len df0)])) = 1).
    { rewrite !List.filter_app, filter_run_reconcile, filter_run_stages,
        (filter_run_tail (RunOk (ctxf a))). done. }
    fold rag in Ht, Hx.
    match type of Ht with _ = _ ++ ?e => set (evs_row := e) in * end.
    set (df1 := write_row df a (answer_of (ctxf a))) in *.
    set (s1 := after_row _ _ _ _ _ _ _ _ _ _ _ _ _ _) in *.
    destruct (IH (S a) df1 s1) as
      (df' & s' & evs & Hloop & Hwf' & Hlen' & Hkeep & Hcells & Hframe & Hcols
       & Ht' & Hx' & Hr' & Hc' & Hqf' & Haf').
    + by apply write_row_wf.
    + unfold df1. by rewrite write_row_len.
    + lia.
    + intros _. apply write_row_has_contexts.
    + intros i Hi. replace (S a + i) with (a + S i) by lia. apply Hq. lia.
    + intros i Hi. rewrite Hc.
      replace (S (run_calls s) + i) with (run_calls s + S i) by lia.
      replace (S a + i) with (a + S i) by lia. apply Hrun. lia.
    + exists df', s', (evs_row ++ evs). cbn [seq]. rewrite for_each_cons.
      unfold body. rewrite Heq. fold body. fold df1 s1.
      split_and!; try done.
      * intros j c x Hj Hx0. apply Hkeep; [lia|].
        apply write_row_other; [apply Hvc; lia|lia|done].
      * intros i c v Hi Hv. destruct i as [|i].
        -- rewrite Nat.add_0_r in Hv |- *. apply Hkeep; [lia|].
           apply write_row_cell; [done|lia|done].
        -- replace (a + S i) with (S a + i) in Hv |- * by lia.
           apply Hcells; [lia|done].
      * intros j c Hc0. rewrite Hframe by done.
        by apply write_row_untouched.
      * rewrite Hcols. unfold df1, answer_of. rewrite write_row_columns.
        cbn [Nat.eqb]. destruct (n =? 0)%nat; [done|apply batch_columns_idem].
      * by rewrite Ht', Ht, <- app_assoc.
      * by rewrite List.filter_app, Hx, Hx'.
      * rewrite List.filter_app, length_app, Hruns, Hr'. done.
      * rewrite Hc', Hc. lia.
      * by rewrite Hqf', Hqf.
      * by rewrite Haf', Haf.
Qed.

End BatchCells.

(** ** From the frame of the loop to the document *)

Lemma columns_apply c f d : columns (df_apply c f d) = columns d.
Proof.
  unfold df_apply. destruct (df_col d c) as [cells|] eqn:E; [|done].
  unfold columns. cbn [df_cols]. rewrite assoc_set_keys.
  apply add_column_present.
  change (has_column d c = true). apply has_column_col. eauto.
Qed.

Lemma columns_dump_column c d : columns (dump_column c d) = columns d.
Proof. unfold dump_column. destruct (has_column d c); [apply columns_apply|done]. Qed.

Lemma columns_dump_contexts d : columns (dump_contexts d) = columns d.
Proof. rewrite dump_contexts_eq. by rewrite !columns_dump_column. Qed.

Lemma df_len_dump_column c d : df_len (dump_column c d) = df_len d.
Proof.
  unfold dump_column, df_apply. destruct (has_column d c); [|done].
  by destruct (df_col d c).
Qed.

Lemma df_len_answer_document d : df_len (answer_document d) = df_len d.
Proof.
  unfold answer_document. rewrite dump_contexts_eq.
  by rewrite !df_len_dump_column.
Qed.

Lemma columns_dropna_sublist d : columns (df_dropna_cols d) `sublist_of` columns d.
Proof.
  unfold columns, df_dropna_cols. cbn [df_cols].
  induction (df_cols d) as [|[k cells] l IH]; [constructor|]. cbn.
  destruct (negb _); cbn; by constructor.
Qed.

Lemma is_context_column_cases c :
  is_context_column c = true ->
  c = "Vector Contexts" \/ c = "Graph Contexts" \/ c = "Graph-Vector Contexts".
Proof.
  unfold is_context_column. cbn. rewrite !orb_true_iff, !String.eqb_eq.
  intuition discriminate.
Qed.

Lemma is_context_column_false c :
  is_context_column c = false ->
  c <> "Vector Contexts" /\ c <> "Graph Contexts" /\ c <> "Graph-Vector Contexts".
Proof.
  unfold is_context_column. cbn. rewrite !orb_false_iff, !String.eqb_neq. tauto.
Qed.

Lemma df_at_dump_contexts d i c v :
  df_at d i c = Some v ->
  df_at (dump_contexts d) i c = Some (document_cell c v).
Proof.
  intros Hv. unfold document_cell. rewrite dump_contexts_eq.
  destruct (is_context_column c) eqn:E.
  - apply is_context_column_cases in E as [->|[->| ->]].
    + rewrite !df_at_dump_column_ne by done. by apply df_at_dump_column_same.
    + rewrite df_at_dump_column_ne by done. apply df_at_dump_column_same.
      by rewrite df_at_dump_column_ne.
    + apply df_at_dump_column_same. by rewrite !df_at_dump_column_ne.
  - apply is_context_column_false in E as (? & ? & ?).
    by rewrite !df_at_dump_column_ne.
Qed.

(** A cell that is not missing goes into the document: as its JSON text in
    a context column, as it is elsewhere. *)
Lemma df_at_answer_document d i c v :
  df_at d i c = Some v -> py_isna v = false ->
  df_at (answer_document d) i c = Some (document_cell c v).
Proof.
  intros Hv Hna. unfold answer_document.
  apply df_at_dump_contexts. by apply df_at_dropna.
Qed.

Lemma dropna_col_kept d c cells :
  df_col (df_dropna_cols d) c = Some cells -> forallb py_isna cells = false.
Proof.
  unfold df_col, df_dropna_cols. cbn [df_cols].
  induction (df_cols d) as [|[k w] l IH]; [done|]. cbn.
  destruct (forallb py_isna w) eqn:E; cbn; [done|].
  destruct (k =? c)%string; [|done]. by intros [= <-].
Qed.

Lemma dropna_col_NoDup d c :
  NoDup (columns d) -> has_column (df_dropna_cols d) c = true ->
  df_col (df_dropna_cols d) c = df_col d c.
Proof.
  unfold has_column, columns, df_col, df_dropna_cols. cbn [df_cols].
  induction (df_cols d) as [|[k w] l IH]; [done|]. cbn.
  intros Hnd. apply NoDup_cons in Hnd as [Hnotin Hnd].
  destruct (String.eqb_spec k c) as [->|Hne].
  - destruct (negb _); cbn; [by rewrite String.eqb_refl|].
    intros Hex. exfalso. apply Hnotin.
    apply existsb_exists in Hex as (x & Hx & Hcx).
    apply String.eqb_eq in Hcx. subst x.
    apply list_elem_of_In in Hx.
    apply list_elem_of_fmap in Hx as ([k' w'] & Hk & Hin).
    apply list_elem_of_In, List.filter_In in Hin as [Hin _].
    apply list_elem_of_fmap. exists (k', w'). split; [done|].
    by apply list_elem_of_In.
  - destruct (negb _); cbn.
    + rewrite (String.eqb_sym c k).
      destruct (String.eqb_spec k c); [done|]. cbn. auto.
    + auto.
Qed.

(** With columns of distinct names, a column whose cells are all missing is
    not in the document. *)
Lemma has_column_dropna_allna d c :
  NoDup (columns d) ->
  (forall cells, df_col d c = Some cells -> forallb py_isna cells = true) ->
  has_column (df_dropna_cols d) c = false.
Proof.
  intros Hnd Hall. destruct (has_column (df_dropna_cols d) c) eqn:E; [|done].
  pose proof (dropna_col_NoDup d c Hnd E) as Heq.
  apply has_column_col in E as [cells Hcells].
  pose proof (dropna_col_kept d c cells Hcells) as Hkept.
  rewrite Heq in Hcells. rewrite (Hall cells Hcells) in Hkept. done.
Qed.

Lemma df_col_all_cells d c cells (P : pyobj -> bool) :
  df_wf d = true -> df_col d c = Some cells ->
  (forall i, i < df_len d -> exists v, df_at d i c = Some v /\ P v = true) ->
  forallb P cells = true.
Proof.
  intros Hwf Hcol Hall. apply forallb_forall. intros x Hx.
  apply list_elem_of_In, list_elem_of_lookup in Hx as [i Hi].
  pose proof (lookup_lt_Some _ _ _ Hi) as Hlt.
  rewrite (df_wf_col d c cells Hwf Hcol) in Hlt.
  destruct (Hall i Hlt) as (v & Hv & HP).
  unfold df_at in Hv. rewrite Hcol in Hv. cbn in Hv. congruence.
Qed.

Lemma dropna_no_rows d :
  df_wf d = true -> df_len d = 0 -> df_dropna_cols d = mkDF 0 [].
Proof.
  unfold df_wf, df_dropna_cols. intros Hwf Hlen. rewrite Hlen in *. f_equal.
  induction (df_cols d) as [|[k w] l IH]; [done|]. cbn in *.
  apply andb_true_iff in Hwf as [Hw Hl]. apply Nat.eqb_eq in Hw.
  destruct w; [|done]. cbn. auto.
Qed.

(** ** A batch whose runs all return *)

Section BatchDocument.

Variables (raw vo go gv : pyobj) (ratio : Q) (method : rerank_method)
          (nnf : bool) (hint ap : string) (maxl : Z).
Variables (s : State) (df : DataFrame).
(** The context that the run of each row returns. *)
Variable ctxf : nat -> gmap string pyobj.

Hypothesis question_file : questions_file s = Some df.
Hypothesis well_formed : df_wf df = true.
Hypothesis has_columns : df_cols df <> [].
Hypothesis not_rejected : request_rejected raw vo go gv = false.
Hypothesis runs_return : forall i q,
  i < df_len df -> question_at df i = Some q ->
  pipeline_run (run_calls s + i)
               (composed_stages vo go gv ratio method nnf hint ap)
               (mkRun q raw vo go gv) = RunOk (ctxf i).

Let batch := several_rag_answer raw vo go gv ratio method nnf hint ap maxl.

Lemma batch_returns :
  exists df' s' evs,
    batch s = (Ok (answer_preview maxl df', answers_path),
               persisted (answer_document df') s')
    /\ df_wf df' = true /\ df_len df' = df_len df
    /\ (forall i c v, i < df_len df ->
          written_cell (answer_of (ctxf i)) c = Some v ->
          df_at df' i c = Some v)
    /\ (forall j c, is_written c = false -> df_at df' j c = df_at df j c)
    /\ columns df'
       = (if (df_len df =? 0)%nat then columns df
          else batch_columns (columns df))
    /\ trace s' = trace s ++ evs
    /\ List.filter is_to_excel evs = []
    /\ length (List.filter is_run evs) = df_len df
    /\ run_calls s' = run_calls s + df_len df
    /\ questions_file s' = questions_file s.
Proof.
  set (qf := fun i => default PyNone (question_at df i)).
  assert (Hq : forall i, i < df_len df -> question_at df i = Some (qf i)).
  { intros i Hi. unfold qf.
    destruct (question_at_is_Some df i well_formed has_columns Hi) as [q ->].
    done. }
  destruct (batch_loop_cells raw vo go gv ratio method nnf hint ap df qf ctxf
              not_rejected (df_len df) 0 df s)
    as (df' & s' & evs & Hloop & Hwf' & Hlen' & _ & Hcells & Hframe & Hcols
        & Ht & Hx & Hr & Hc & Hqf & _);
    [done|done|lia|lia|..].
  { intros i Hi. by apply Hq. }
  { intros i Hi. cbn [Nat.add]. apply runs_return; [done|]. by apply Hq. }
  exists df', s', evs. unfold batch.
  rewrite several_rag_answer_eq, question_file, Hloop.
  split_and!; try done. by rewrite Hqf.
Qed.




Hypothesis distinct_columns : NoDup (columns df).

Lemma batch_frame_NoDup df' :
  columns df'
  = (if (df_len df =? 0)%nat then columns df else batch_columns (columns df)) ->
  NoDup (columns df').
Proof.
  intros ->. destruct (df_len df =? 0)%nat; [done|].
  apply NoDup_ListNoDup, batch_columns_NoDup. by apply NoDup_ListNoDup.
Qed.



End BatchDocument.

(** X15. Over a question file without rows, the batch runs no pipeline
    and gives no warning; it writes an answer document without any column,
    every column of the question file having no cell that is not missing,
    and returns an empty preview. *)
Theorem several_rag_answer_no_rows raw vo go gv ratio method nnf hint ap maxl s df :
  questions_file s = Some df -> df_wf df = true -> df_len df = 0 ->
  let batch := several_rag_answer raw vo go gv ratio method nnf hint ap maxl in
  exists shown,
    (batch s).1 = Ok (shown, answers_path)
    /\ df_cols shown = [] /\ df_len shown = 0
    /\ answers_file (batch s).2 = Some (mkDF 0 [])
    /\ emitted batch s = [EvToExcel answers_path (mkDF 0 [])]
    /\ run_calls (batch s).2 = run_calls s.
Proof.
  intros Hfile Hwf Hlen. cbn zeta. unfold emitted.
  rewrite several_rag_answer_eq, Hfile, Hlen. cbn [seq for_each ret].
  unfold answer_preview, answer_document.
  rewrite (dropna_no_rows df Hwf Hlen).
  eexists. cbn [fst snd persisted answers_file run_calls trace].
  split_and!; try done.
  - cbn. unfold py_slice_to. destruct (0 <=? maxl)%Z; by rewrite take_nil.
  - by rewrite drop_app_length.
Qed.

(** ** The batch, whatever the runs do *)

Lemma rag_answer_any text raw vo go gv ratio method nnf hint ap s :
  let call := rag_answer text raw vo go gv ratio method nnf hint ap in
  exists evs,
    trace (call s).2 = trace s ++ evs
    /\ List.filter is_to_excel evs = []
    /\ questions_file (call s).2 = questions_file s
    /\ answers_file (call s).2 = answers_file s
    /\ run_calls s <= run_calls (call s).2 <= S (run_calls s).
Proof.
  cbn zeta.
  exists (emitted (rag_answer text raw vo go gv ratio method nnf hint ap) s).
  split; [apply emitted_trace_rag_answer|].
  rewrite rag_answer_emitted, rag_answer_eq. cbn zeta.
  destruct (reconciled_push text ap hint s) as (_ & Hc & _ & Hq & Ha).
  rewrite List.filter_app, to_excel_reconcile.
  destruct (request_rejected raw vo go gv).
  - cbn. rewrite Hc. split_and!; try done; lia.
  - rewrite !List.filter_app, to_excel_stages, to_excel_run_tail.
    destruct (pipeline_run _ _ _); cbn; rewrite Hc; split_and!; try done; lia.
Qed.

Lemma several_rag_answer_row_any df0 total raw vo go gv ratio method nnf hint ap
    index df s :
  let row := several_rag_answer_row df0 total raw vo go gv ratio method nnf
                                    hint ap index df in
  exists evs,
    trace (row s).2 = trace s ++ evs
    /\ List.filter is_to_excel evs = []
    /\ questions_file (row s).2 = questions_file s
    /\ answers_file (row s).2 = answers_file s
    /\ run_calls s <= run_calls (row s).2 <= S (run_calls s).
Proof.
  cbn zeta. destruct (question_at df0 index) as [q|] eqn:Hq.
  - rewrite (several_rag_answer_row_eq _ _ _ _ _ _ _ _ _ _ _ _ _ _ q) by done.
    destruct (rag_answer_any q raw vo go gv ratio method nnf hint ap s)
      as (evs & Ht & Hx & Hqf & Ha & Hc).
    cbn zeta in *.
    destruct (rag_answer _ _ _ _ _ _ _ _ _ _ s) as [[[| ]|e] s1];
      cbn [fst snd] in *.
    + exists evs. done.
    + exists (evs ++ [EvProgress (index + 1) total]).
      cbn [push trace questions_file answers_file run_calls].
      rewrite Ht, <- app_assoc, List.filter_app, Hx. done.
    + exists evs. done.
  - exists []. rewrite app_nil_r.
    unfold several_rag_answer_row, question_at in *.
    destruct (df_cols df0) as [|[c cells] l];
      rewrite ?Hq; cbn; split_and!; try done; lia.
Qed.

Lemma batch_loop_any df0 total raw vo go gv ratio method nnf hint ap xs :
  forall df s,
  let loop := for_each xs (several_rag_answer_row df0 total raw vo go gv ratio
                             method nnf hint ap) df in
  exists evs,
    trace (loop s).2 = trace s ++ evs
    /\ List.filter is_to_excel evs = []
    /\ questions_file (loop s).2 = questions_file s
    /\ answers_file (loop s).2 = answers_file s
    /\ run_calls s <= run_calls (loop s).2 <= run_calls s + length xs.
Proof.
  induction xs as [|x xs IH]; intros df s; cbn zeta.
  - exists []. cbn. rewrite app_nil_r. split_and!; try done; lia.
  - rewrite for_each_cons.
    destruct (several_rag_answer_row_any df0 total raw vo go gv ratio method
                nnf hint ap x df s) as (evs & Ht & Hx & Hq & Ha & Hc).
    cbn zeta in *.
    destruct (several_rag_answer_row _ _ _ _ _ _ _ _ _ _ _ _ _ s)
      as [[df1|e] s1]; cbn [fst snd] in *.
    + destruct (IH df1 s1) as (evs' & Ht' & Hx' & Hq' & Ha' & Hc').
      cbn zeta in *. exists (evs ++ evs').
      rewrite Ht', Ht, <- app_assoc, List.filter_app, Hx, Hx', Hq', Ha', Hq, Ha.
      cbn [length]. split_and!; try done; lia.
    + exists evs. cbn [length]. split_and!; try done; lia.
Qed.


(** ** The preview that the batch returns *)

Lemma df_col_project names d c :
  df_col (df_project names d) c
  = if existsb (String.eqb c) names then df_col d c else None.
Proof.
  unfold df_project, df_col at 1. cbn [df_cols].
  induction names as [|a names IH]; [done|].
  cbn [omap existsb list_omap].
  destruct (df_col d a) as [cells|] eqn:Ha; cbn.
  - rewrite (String.eqb_sym c a).
    destruct (String.eqb_spec a c) as [->|Hne]; cbn; [by rewrite Ha|done].
  - destruct (String.eqb_spec c a) as [->|Hne]; cbn; [|done].
    rewrite IH, Ha. by destruct (existsb _ _).
Qed.

Lemma columns_project names d :
  columns (df_project names d) = List.filter (has_column d) names.
Proof.
  unfold df_project, columns. cbn [df_cols].
  induction names as [|a names IH]; [done|].
  cbn [omap list_omap List.filter].
  destruct (has_column d a) eqn:E.
  - apply has_column_col in E as [cells ->]. cbn. by f_equal.
  - apply has_column_false in E as ->. cbn. done.
Qed.

Lemma filter_idem {A} (P : A -> bool) l :
  List.filter P (List.filter P l) = List.filter P l.
Proof.
  induction l as [|x l IH]; [done|]. cbn.
  destruct (P x) eqn:E; [|done]. cbn. by rewrite E, IH.
Qed.

Lemma existsb_filter_has d c names :
  In c names ->
  existsb (String.eqb c) (List.filter (has_column d) names) = has_column d c.
Proof.
  intros Hin. destruct (has_column d c) eqn:E.
  - apply existsb_exists. exists c. split; [|apply String.eqb_refl].
    apply List.filter_In. done.
  - destruct (existsb _ _) eqn:E'; [|done].
    apply existsb_exists in E' as (x & Hx & Hcx).
    apply String.eqb_eq in Hcx as <-.
    apply List.filter_In in Hx as [_ Hx]. congruence.
Qed.

Lemma header_not_context c :
  In c tests_df_headers ->
  c <> "Vector Contexts" /\ c <> "Graph Contexts" /\ c <> "Graph-Vector Contexts".
Proof. intros [<-|[<-|[<-|[<-|[<-|[<-|[]]]]]]]; done. Qed.

(** X24. The preview that a batch returns shows the answer document that
    it has written, and only part of it: its columns are the columns of
    [tests_df_headers] that the document has, in the order of
    [tests_df_headers] and not in that of the document; of a context column
    or of any other column of the question file it shows nothing; it has the
    first [answer_max_line_count] rows of the document, and in these rows and
    columns every cell is the cell of the document. *)
Theorem several_rag_answer_preview
    raw vo go gv ratio method nnf hint ap maxl s shown location :
  (0 <= maxl)%Z ->
  (several_rag_answer raw vo go gv ratio method nnf hint ap maxl s).1
  = Ok (shown, location) ->
  exists doc,
    answers_file
      (several_rag_answer raw vo go gv ratio method nnf hint ap maxl s).2
    = Some doc
    /\ columns shown = List.filter (has_column doc) tests_df_headers
    /\ df_len shown = Nat.min (Z.to_nat maxl) (df_len doc)
    /\ forall i c, i < Z.to_nat maxl -> In c tests_df_headers ->
         df_at shown i c = df_at doc i c.
Proof.
  intros Hmaxl. rewrite several_rag_answer_eq.
  destruct (questions_file s) as [df|]; [|done].
  destruct (for_each _ _ _ _) as [[df'|e] s']; [|done].
  cbn [fst snd persisted answers_file]. intros [= <- <-].
  exists (answer_document df'). split; [done|].
  unfold answer_preview, answer_document.
  set (d := df_dropna_cols df').
  assert (Hhas : forall c, has_column (dump_contexts d) c = has_column d c).
  { intros c. unfold has_column. by rewrite columns_dump_contexts. }
  rewrite <- (Z2Nat.id maxl Hmaxl), Nat2Z.id.
  split_and!.
  - rewrite columns_head, columns_project, filter_idem.
    apply List.filter_ext. intros c. by rewrite Hhas.
  - rewrite df_len_head. cbn [df_project df_len].
    by rewrite dump_contexts_eq, !df_len_dump_column.
  - intros i c Hi Hc. rewrite df_at_head by done.
    destruct (header_not_context c Hc) as (Hn1 & Hn2 & Hn3).
    rewrite dump_contexts_eq, !df_at_dump_column_ne by done.
    unfold df_at at 1. rewrite df_col_project, existsb_filter_has by done.
    destruct (has_column d c) eqn:E; [done|].
    apply has_column_false in E. unfold df_at. by rewrite E.
Qed.

(** ** The evaluation: what stops it, what it leaves alone *)

Lemma modes_exist d m ms :
  modes_in_registry_order d = m :: ms ->
  existsb (fun c => existsb (String.eqb c) recognized_modes) (columns d) = true.
Proof.
  intros E.
  assert (Hin : In m (modes_in_registry_order d)) by (rewrite E; by left).
  unfold modes_in_registry_order in Hin. apply List.filter_In in Hin as [Hrec Hcol].
  unfold has_column in Hcol. apply existsb_exists in Hcol as (c & Hc1 & Hc2).
  apply String.eqb_eq in Hc2. subst c.
  apply existsb_exists. exists m. split; [done|].
  apply existsb_exists. exists m. split; [done|apply String.eqb_refl].
Qed.

(** The evaluation stops where the pass of the first mode stops. *)
Lemma evaluate_rag_first_mode metrics num s doc m ms e s1 :
  answers_file s = Some doc ->
  modes_in_registry_order (df_head num doc) = m :: ms ->
  evaluate_rag_mode metrics m (df_head num doc, df_empty) s = (Raise e, s1) ->
  evaluate_rag metrics num s = (Raise e, s1).
Proof.
  intros Hfile Hmodes Hbody.
  rewrite evaluate_rag_eq, Hfile. cbn zeta.
  rewrite (modes_exist _ m ms Hmodes). cbn [negb].
  by rewrite Hmodes, for_each_cons, Hbody.
Qed.

(** X17. When the first recognised answer column of the document has no
    context column (the batch drops a context column whose cells are all
    missing), the evaluation raises the [KeyError] of that context column;
    no scorer has been called and the state is as it was. *)
Theorem evaluate_rag_missing_contexts metrics num s doc m ms h :
  answers_file s = Some doc ->
  modes_in_registry_order (df_head num doc) = m :: ms ->
  assoc_get m rag_answer_header_dict = Some h ->
  has_column (df_head num doc) h = false ->
  evaluate_rag metrics num s = (Raise (KeyError h), s).
Proof.
  intros Hfile Hmodes Hh Hcol.
  apply (evaluate_rag_first_mode metrics num s doc m ms); [done|done|].
  apply has_column_false in Hcol.
  unfold evaluate_rag_mode. rewrite Hh. unfold bind at 1. unfold ret at 1.
  unfold df_getitem at 1. rewrite Hcol. done.
Qed.

(** X18. When a cell of the context column of the first recognised answer
    column is not parsed by [json.loads], the error of the parser leaves the
    evaluation; no scorer has been called and the state is as it was. *)
Theorem evaluate_rag_unparsable_contexts metrics num s doc m ms h cells e :
  answers_file s = Some doc ->
  modes_in_registry_order (df_head num doc) = m :: ms ->
  assoc_get m rag_answer_header_dict = Some h ->
  df_col (df_head num doc) h = Some cells ->
  loads_all cells = inl e ->
  evaluate_rag metrics num s = (Raise e, s).
Proof.
  intros Hfile Hmodes Hh Hcol Hload.
  apply (evaluate_rag_first_mode metrics num s doc m ms); [done|done|].
  unfold evaluate_rag_mode. rewrite Hh. unfold bind at 1. unfold ret at 1.
  unfold df_getitem at 1. rewrite Hcol. unfold bind at 1. unfold ret at 1.
  by rewrite Hload.
Qed.

Lemma lookup_metrics_unknown known k rest :
  (forall x, In x known -> is_Some (RAGAS_METRICS_DICT !! x)) ->
  RAGAS_METRICS_DICT !! k = None ->
  lookup_metrics (known ++ k :: rest) = inl (KeyError k).
Proof.
  intros Hknown Hk. induction known as [|x known IH]; cbn.
  - by rewrite Hk.
  - destruct (Hknown x) as [scorer ->]; [by left|].
    rewrite IH; [done|]. intros y Hy. apply Hknown. by right.
Qed.

(** X19. When a metric is asked for that the registry does not have, the
    evaluation raises the [KeyError] of the first such metric, once the
    columns of the first recognised answer column have been read: no scorer
    has been called and the state is as it was. *)
Theorem evaluate_rag_unknown_metric known k rest num s doc m ms h cells loaded :
  answers_file s = Some doc ->
  modes_in_registry_order (df_head num doc) = m :: ms ->
  assoc_get m rag_answer_header_dict = Some h ->
  df_col (df_head num doc) h = Some cells ->
  loads_all cells = inr loaded ->
  has_column (df_head num doc) "Question" = true ->
  has_column (df_head num doc) "Expected Answer" = true ->
  (forall x, In x known -> is_Some (RAGAS_METRICS_DICT !! x)) ->
  RAGAS_METRICS_DICT !! k = None ->
  evaluate_rag (known ++ k :: rest) num s = (Raise (KeyError k), s).
Proof.
  intros Hfile Hmodes Hh Hcol Hload Hq Hg Hknown Hk.
  apply (evaluate_rag_first_mode _ num s doc m ms); [done|done|].
  set (d := df_head num doc) in *.
  assert (Hm : has_column d m = true).
  { assert (Hin : In m (modes_in_registry_order d)) by (rewrite Hmodes; by left).
    unfold modes_in_registry_order in Hin.
    by apply List.filter_In in Hin as [_ ?]. }
  apply has_column_col in Hq as [q Hq]. apply has_column_col in Hg as [g Hg].
  apply has_column_col in Hm as [a Ha].
  assert (Hne : h <> "Question" /\ h <> m /\ h <> "Expected Answer").
  { destruct (header_dict_cases m h Hh) as [[-> ->]|[[-> ->]|[-> ->]]]; done. }
  destruct Hne as (Hn1 & Hn2 & Hn3).
  unfold evaluate_rag_mode. rewrite Hh. unfold bind at 1. unfold ret at 1.
  unfold df_getitem at 1. rewrite Hcol. unfold bind at 1. unfold ret at 1.
  rewrite Hload. unfold lift at 1. unfold bind at 1. unfold ret at 1.
  unfold df_getitem, df_col in *. cbn [df_cols].
  rewrite (assoc_get_set_ne "Question" h), Hq by done.
  unfold bind at 1. unfold ret at 1.
  rewrite (assoc_get_set_ne m h), Ha by done.
  unfold bind at 1. unfold ret at 1.
  rewrite assoc_get_set_eq. unfold bind at 1. unfold ret at 1.
  rewrite (assoc_get_set_ne "Expected Answer" h), Hg by done.
  unfold bind at 1. unfold ret at 1.
  by rewrite (lookup_metrics_unknown known k rest Hknown Hk).
Qed.

Lemma evaluate_rag_mode_any metrics m acc s :
  let s' := (evaluate_rag_mode metrics m acc s).2 in
  same_store s s' /\ run_calls s' = run_calls s
  /\ eval_calls s <= eval_calls s' <= S (eval_calls s).
Proof.
  cbn zeta. destruct acc as [adf acc].
  unfold evaluate_rag_mode, df_getitem, lift, evaluate, emit, same_store.
  unfold bind, ret, raise.
  repeat match goal with
         | |- context [match ?x with _ => _ end] =>
             lazymatch x with
             | context [match _ with _ => _ end] => fail
             | _ => destruct x eqn:?; simplify_eq
             end
         end; cbn; split_and!; try done; lia.
Qed.

Lemma evaluate_loop_any metrics ms : forall acc s,
  let s' := (for_each ms (evaluate_rag_mode metrics) acc s).2 in
  same_store s s' /\ run_calls s' = run_calls s
  /\ eval_calls s <= eval_calls s' <= eval_calls s + length ms.
Proof.
  induction ms as [|m ms IH]; intros acc s; cbn zeta.
  - cbn. unfold same_store. split_and!; try done; lia.
  - rewrite for_each_cons.
    destruct (evaluate_rag_mode_any metrics m acc s) as ((Hp & Hy & Hq & Ha) & Hr & He).
    cbn zeta in *.
    destruct (evaluate_rag_mode metrics m acc s) as [[acc1|e] s1];
      cbn [fst snd] in *.
    + destruct (IH acc1 s1) as ((Hp' & Hy' & Hq' & Ha') & Hr' & He').
      cbn zeta in *. unfold same_store. cbn [length].
      rewrite Hp', Hy', Hq', Ha', Hr'. split_and!; try done; lia.
    + unfold same_store. cbn [length]. split_and!; try done; lia.
Qed.

(** X20. The evaluation only reads and scores: whatever the document and
    the collaborators, it leaves the configuration, the question file and
    the answer file as they are and runs no pipeline; it calls the scorers at
    most once for each recognised answer column of the document. *)
Theorem evaluate_rag_reads_only metrics num s :
  let s' := (evaluate_rag metrics num s).2 in
  same_store s s' /\ run_calls s' = run_calls s
  /\ eval_calls s <= eval_calls s'
  /\ eval_calls s'
     <= eval_calls s
        + match answers_file s with
          | Some doc => length (modes_in_registry_order (df_head num doc))
          | None => 0
          end.
Proof.
  cbn zeta. rewrite evaluate_rag_eq.
  destruct (answers_file s) as [doc|]; cbn zeta;
    [|unfold same_store; cbn; split_and!; try done; lia].
  destruct (negb _); [unfold same_store; cbn; split_and!; try done; lia|].
  destruct (evaluate_loop_any metrics (modes_in_registry_order (df_head num doc))
              (df_head num doc, df_empty) s) as (Hs & Hr & He).
  cbn zeta in *.
  destruct (for_each _ _ _ _) as [[r|e] s1]; cbn [fst snd] in *;
    [|split_and!; try done; lia].
  unfold df_insert0, ret, raise.
  repeat match goal with
         | |- context [if ?x then _ else _] => destruct x
         end; cbn [fst snd]; split_and!; try done; lia.
Qed.

(** ** The evaluation of a document of several rows *)

Section EvaluationRows.

Variables (metrics scorers : list string).
Hypothesis metrics_known : lookup_metrics metrics = inr scorers.
(** The scorers give one score row for each sample, and no column named
    [method]. *)
Hypothesis one_row_a_sample : forall n ds,
  exists sc, ragas_evaluate n ds scorers = inr sc
             /\ df_len sc = length (ds_question ds)
             /\ has_column sc "method" = false.

(** Every pass adds as many score rows as the document has rows. *)
Lemma evaluate_loop_rows ms : forall adf acc s q,
  NoDup ms ->
  forallb (fun m =>
             match assoc_get m rag_answer_header_dict with
             | Some h =>
                 match df_col adf h with
                 | Some cells =>
                     match loads_all cells with
                     | inr _ => true | inl _ => false
                     end
                 | None => false
                 end
             | None => false
             end) ms = true ->
  (forall m, In m ms -> is_Some (df_col adf m)) ->
  df_col adf "Question" = Some q ->
  is_Some (df_col adf "Expected Answer") ->
  has_column acc "method" = false ->
  exists adf' acc' s',
    for_each ms (evaluate_rag_mode metrics) (adf, acc) s = (Ok (adf', acc'), s')
    /\ df_len acc' = df_len acc + length q * length ms
    /\ has_column acc' "method" = false
    /\ eval_calls s' = eval_calls s + length ms.
Proof.
  induction ms as [|m ms IH]; intros adf acc s q Hnd Hload Hcols Hq Hg Hacc.
  - exists adf, acc, s. cbn. split_and!; try done; lia.
  - cbn [forallb] in Hload. apply andb_true_iff in Hload as [Hm Hload].
    destruct (assoc_get m rag_answer_header_dict) as [h|] eqn:Hh; [|done].
    destruct (df_col adf h) as [cells|] eqn:Hcells; [|done].
    destruct (loads_all cells) as [e|loaded] eqn:Hl; [done|].
    destruct (Hcols m) as [a Ha]; [by left|].
    destruct Hg as [g Hg].
    destruct (evaluate_rag_mode_ok metrics scorers metrics_known one_row_a_sample
                m h adf acc s cells loaded q g a)
      as (sc & s1 & Heq & Hlen & Hmeth & Hc); try done.
    apply NoDup_cons in Hnd as [Hnotin Hnd].
    set (adf1 := mkDF (df_len adf) (assoc_set h loaded (df_cols adf))) in *.
    assert (Hkeep : forall c, c <> h -> df_col adf1 c = df_col adf c).
    { intros c Hc'. unfold adf1, df_col. cbn. by apply assoc_get_set_ne. }
    assert (Hhq : h <> "Question" /\ h <> "Expected Answer"
                  /\ forall m', In m' ms -> h <> m').
    { destruct (header_dict_cases m h Hh) as [[-> ->]|[[-> ->]|[-> ->]]];
        repeat split; try done; intros m' Hin <-;
        rewrite forallb_forall in Hload; specialize (Hload _ Hin);
        cbn in Hload; done. }
    destruct Hhq as (Hhq & Hhg & Hhm).
    destruct (IH adf1 (df_concat acc sc) s1 q) as
      (adf' & acc' & s' & Hloop & Hlen' & Hmeth' & Hc'); try done.
    + rewrite forallb_forall in Hload |- *. intros m' Hin.
      specialize (Hload m' Hin).
      destruct (assoc_get m' rag_answer_header_dict) as [h'|] eqn:Hh'; [|done].
      rewrite Hkeep; [done|]. intros ->.
      destruct (header_dict_cases m h Hh) as [[-> ->]|[[-> ->]|[-> ->]]];
        destruct (header_dict_cases m' _ Hh') as [[-> E]|[[-> E]|[-> E]]];
        try discriminate E; apply Hnotin; apply list_elem_of_In, Hin.
    + intros m' Hin. rewrite Hkeep; [apply Hcols; by right|].
      intros ->. by apply (Hhm h).
    + by rewrite Hkeep.
    + by rewrite Hkeep.
    + by apply has_column_concat_false.
    + exists adf', acc', s'. rewrite for_each_cons, Heq, Hloop.
      split_and!; [done| |done|].
      * rewrite Hlen'. cbn [df_concat df_len length]. lia.
      * rewrite Hc', Hc. cbn [length]. lia.
Qed.

(** X21. The evaluation labels one score row for each recognised answer
    column, and the scorers give one score row for each row of the document:
    with two rows or more (after [head(num)]) the lengths differ, and the
    evaluation raises the [ValueError] of [df.insert], after it has scored
    every recognised answer column. Nothing is returned of the scores. *)
Theorem evaluate_rag_several_rows num s doc :
  answers_file s = Some doc ->
  df_wf (df_head num doc) = true ->
  1 < df_len (df_head num doc) ->
  modes_in_registry_order (df_head num doc) <> [] ->
  has_column (df_head num doc) "Question" = true ->
  has_column (df_head num doc) "Expected Answer" = true ->
  contexts_loadable (df_head num doc) = true ->
  (evaluate_rag metrics num s).1
  = Raise (ValueError "Length of values does not match length of index")
  /\ eval_calls (evaluate_rag metrics num s).2
     = eval_calls s + length (modes_in_registry_order (df_head num doc)).
Proof.
  intros Hfile Hwf Hlen Hmodes Hq Hg Hload.
  set (d := df_head num doc) in *.
  apply has_column_col in Hq as [q Hq].
  apply has_column_col in Hg.
  destruct (evaluate_loop_rows (modes_in_registry_order d) d df_empty s q)
    as (adf' & acc' & s' & Hloop & Hlen' & Hmeth & Hc); try done.
  { unfold modes_in_registry_order. apply NoDup_ListNoDup, List.NoDup_filter.
    unfold recognized_modes. cbn. repeat constructor; cbn; intuition discriminate. }
  { intros m Hin. apply has_column_col.
    unfold modes_in_registry_order in Hin. by apply filter_In in Hin as [_ ?]. }
  destruct (modes_in_registry_order d) as [|m ms] eqn:E; [done|].
  rewrite evaluate_rag_eq, Hfile. cbn zeta. fold d.
  rewrite (modes_exist d m ms E). cbn [negb].
  rewrite E, Hloop. cbn [snd]. unfold df_insert0. rewrite Hmeth.
  rewrite (df_wf_col d "Question" q Hwf Hq) in Hlen'.
  cbn [df_len df_empty Nat.add length] in Hlen'.
  rewrite Hlen', length_map. cbn [length].
  replace (df_len d * S (length ms) =? 0)%nat with false
    by (symmetry; apply Nat.eqb_neq; nia).
  replace (S (length ms) =? df_len d * S (length ms))%nat with false
    by (symmetry; apply Nat.eqb_neq; nia).
  cbn. split; [done|]. rewrite Hc. cbn [length]. done.
Qed.

End EvaluationRows.

(** ** What the scorers are given *)

Section EvaluationDatasets.

Variables (metrics scorers : list string).
Hypothesis metrics_known : lookup_metrics metrics = inr scorers.
Hypothesis scorers_return : forall n ds,
  exists sc, ragas_evaluate n ds scorers = inr sc.

Lemma evaluate_rag_mode_dataset m adf acc s ds :
  dataset_of adf m = Some ds ->
  exists h loaded sc s',
    assoc_get m rag_answer_header_dict = Some h
    /\ evaluate_rag_mode metrics m (adf, acc) s
       = (Ok (mkDF (df_len adf) (assoc_set h loaded (df_cols adf)),
              df_concat acc sc), s')
    /\ trace s' = trace s ++ [EvEvaluate ds scorers; EvPrint sc].
Proof.
  unfold dataset_of. intros Hds.
  destruct (assoc_get m rag_answer_header_dict) as [h|] eqn:Hh; [|done].
  destruct (df_col adf h) as [cells|] eqn:Hcells; [|done].
  destruct (loads_all cells) as [e|loaded] eqn:Hl; [done|].
  destruct (df_col adf "Question") as [q|] eqn:Hq; [|done].
  destruct (df_col adf m) as [a|] eqn:Ha; [|done].
  destruct (df_col adf "Expected Answer") as [g|] eqn:Hg; [|done].
  injection Hds as <-.
  destruct (scorers_return (eval_calls s) (mkDataset q a loaded g)) as [sc Hsc].
  assert (Hne : h <> "Question" /\ h <> m /\ h <> "Expected Answer").
  { destruct (header_dict_cases m h Hh) as [[-> ->]|[[-> ->]|[-> ->]]]; done. }
  destruct Hne as (Hn1 & Hn2 & Hn3).
  exists h, loaded, sc. eexists. split; [done|].
  unfold evaluate_rag_mode.
  rewrite Hh. unfold bind at 1. unfold ret at 1.
  unfold df_getitem at 1. rewrite Hcells. unfold bind at 1. unfold ret at 1.
  rewrite Hl. unfold lift at 1. unfold bind at 1. unfold ret at 1.
  unfold df_getitem, df_col in *. cbn [df_cols].
  rewrite (assoc_get_set_ne "Question" h), Hq by done.
  unfold bind at 1. unfold ret at 1.
  rewrite (assoc_get_set_ne m h), Ha by done.
  unfold bind at 1. unfold ret at 1.
  rewrite assoc_get_set_eq. unfold bind at 1. unfold ret at 1.
  rewrite (assoc_get_set_ne "Expected Answer" h), Hg by done.
  unfold bind at 1. unfold ret at 1.
  rewrite metrics_known. unfold lift at 1. unfold bind at 1. unfold ret at 1.
  unfold bind at 1. unfold evaluate at 1. rewrite Hsc.
  unfold bind, emit, ret. cbn. split; [done|]. by rewrite <- app_assoc.
Qed.

(** The assignment of the parsed contexts of one answer column leaves the
    dataset of another one as it is. *)
Lemma dataset_of_other adf m h loaded m' :
  assoc_get m rag_answer_header_dict = Some h -> m' <> m ->
  dataset_of (mkDF (df_len adf) (assoc_set h loaded (df_cols adf))) m'
  = dataset_of adf m'.
Proof.
  intros Hh Hne. unfold dataset_of.
  destruct (assoc_get m' rag_answer_header_dict) as [h'|] eqn:Hh'; [|done].
  assert (Hd : h' <> h /\ "Question" <> h /\ m' <> h /\ "Expected Answer" <> h).
  { destruct (header_dict_cases m h Hh) as [[-> ->]|[[-> ->]|[-> ->]]];
      destruct (header_dict_cases m' h' Hh') as [[-> ->]|[[-> ->]|[-> ->]]];
      done. }
  destruct Hd as (Hd1 & Hd2 & Hd3 & Hd4).
  unfold df_col. cbn [df_cols].
  by rewrite !assoc_get_set_ne by done.
Qed.

Lemma evaluate_loop_datasets ms : forall adf acc s,
  NoDup ms ->
  (forall m, In m ms -> is_Some (dataset_of adf m)) ->
  exists r s' evs,
    for_each ms (evaluate_rag_mode metrics) (adf, acc) s = (Ok r, s')
    /\ trace s' = trace s ++ evs
    /\ Forall2 (scores_column adf scorers) ms (List.filter is_evaluate evs).
Proof.
  induction ms as [|m ms IH]; intros adf acc s Hnd Hds.
  - exists (adf, acc), s, []. cbn. rewrite app_nil_r. split_and!; try done.
  - destruct (Hds m) as [ds Hm]; [by left|].
    destruct (evaluate_rag_mode_dataset m adf acc s ds Hm)
      as (h & loaded & sc & s1 & Hh & Heq & Ht).
    apply NoDup_cons in Hnd as [Hnotin Hnd].
    set (adf1 := mkDF (df_len adf) (assoc_set h loaded (df_cols adf))) in *.
    assert (Hsame : forall m', In m' ms -> dataset_of adf1 m' = dataset_of adf m').
    { intros m' Hin. apply (dataset_of_other adf m h loaded m' Hh).
      intros ->. apply Hnotin. by apply list_elem_of_In. }
    destruct (IH adf1 (df_concat acc sc) s1 Hnd)
      as (r & s' & evs & Hloop & Ht' & Hall).
    { intros m' Hin. rewrite Hsame by done. apply Hds. by right. }
    exists r, s', ([EvEvaluate ds scorers; EvPrint sc] ++ evs).
    rewrite for_each_cons, Heq, Hloop. split_and!; [done| |].
    + by rewrite Ht', Ht, <- app_assoc.
    + cbn [app List.filter is_evaluate]. constructor.
      * by exists ds.
      * clear Hloop. revert Hall Hsame.
        generalize (List.filter is_evaluate evs) as l.
        clear. intros l Hall. induction Hall as [|m' ev ms' l' Hx Hall IH];
          intros Hsame; constructor.
        -- destruct Hx as (ds' & Hds' & ->). exists ds'.
           rewrite <- Hsame by (by left). done.
        -- apply IH. intros m'' Hin. apply Hsame. by right.
Qed.

(** X23. The evaluation scores the recognised answer columns of the
    document one after the other in the order of the registry, each one
    once, and every scoring is given the questions, the answers of that
    column, the parsed cells of its context column and the expected answers
    of the document as it was read: the parsed contexts that the loop stores
    in the frame for one column change nothing of what the next scoring is
    given. This holds for a document of any number of rows, also where the
    labelling of the scores fails afterwards. *)
Theorem evaluate_rag_datasets num s doc :
  answers_file s = Some doc ->
  has_column (df_head num doc) "Question" = true ->
  has_column (df_head num doc) "Expected Answer" = true ->
  contexts_loadable (df_head num doc) = true ->
  Forall2 (scores_column (df_head num doc) scorers)
          (modes_in_registry_order (df_head num doc))
          (List.filter is_evaluate (emitted (evaluate_rag metrics num) s)).
Proof.
  intros Hfile Hq Hg Hload.
  set (d := df_head num doc) in *.
  apply has_column_col in Hq as [q Hq].
  apply has_column_col in Hg as [g Hg].
  destruct (evaluate_loop_datasets (modes_in_registry_order d) d df_empty s)
    as (r & s' & evs & Hloop & Ht & Hall).
  { unfold modes_in_registry_order. apply NoDup_ListNoDup, List.NoDup_filter.
    unfold recognized_modes. cbn. repeat constructor; cbn; intuition discriminate. }
  { intros m Hin. unfold contexts_loadable in Hload.
    rewrite forallb_forall in Hload. specialize (Hload m Hin).
    unfold modes_in_registry_order in Hin. apply filter_In in Hin as [_ Hm].
    apply has_column_col in Hm as [a Ha].
    unfold dataset_of.
    destruct (assoc_get m rag_answer_header_dict) as [h|]; [|done].
    destruct (df_col d h) as [cells|]; [|done].
    destruct (loads_all cells) as [e|loaded]; [done|].
    by rewrite Hq, Ha, Hg. }
  unfold emitted. rewrite evaluate_rag_eq, Hfile. cbn zeta. fold d.
  destruct (modes_in_registry_order d) as [|m ms] eqn:E.
  - destruct (negb _); cbn; rewrite drop_all; constructor.
  - rewrite (modes_exist d m ms E). cbn [negb]. rewrite Hloop.
    assert (Hins : (df_insert0 "method" (map PyStr (m :: ms)) r.2 s').2 = s').
    { unfold df_insert0, ret, raise.
      repeat match goal with
             | |- context [if ?x then _ else _] => destruct x
             end; done. }
    rewrite Hins, Ht, drop_app_length. done.
Qed.

End EvaluationDatasets.

(** ** The batch, then the evaluation *)

(** A written column in which the runs left nothing is not in the
    document. *)
Lemma document_lacks_column df' n (ctxf : nat -> gmap string pyobj) c :
  NoDup (columns df') -> df_wf df' = true -> df_len df' = n ->
  (forall i c v, i < n ->
     written_cell (answer_of (ctxf i)) c = Some v -> df_at df' i c = Some v) ->
  is_written c = true ->
  (forall i v, i < n ->
     written_cell (answer_of (ctxf i)) c = Some v -> py_isna v = true) ->
  has_column (answer_document df') c = false.
Proof.
  intros Hnd Hwf Hlen Hcells Hc Hempty.
  unfold answer_document, has_column. rewrite columns_dump_contexts.
  change (has_column (df_dropna_cols df') c = false).
  apply has_column_dropna_allna; [done|].
  intros cells Hcol. apply (df_col_all_cells df' c); [done|done|].
  intros i Hi. rewrite Hlen in Hi.
  destruct (proj2 (written_cell_is_written
                     (ctx_get (ctxf i) "raw_answer_result" (PyStr ""))
                     (ctx_get (ctxf i) "vector_only_answer_result" (PyStr ""))
                     (ctx_get (ctxf i) "graph_only_answer_result" (PyStr ""))
                     (ctx_get (ctxf i) "graph_vector_answer_result" (PyStr ""))
                     (mkContexts (ctx_get (ctxf i) "vector_contexts" PyNone)
                                 (ctx_get (ctxf i) "graph_contexts" PyNone)
                                 (ctx_get (ctxf i) "graph_vector_contexts" PyNone))
                     c) Hc) as [v Hv].
  exists v. split; [by apply Hcells|]. by apply (Hempty i).
Qed.

Lemma recognized_is_written m : In m recognized_modes -> is_written m = true.
Proof. intros [<-|[<-|[<-|[]]]]; reflexivity. Qed.

Lemma context_header_is_written m h :
  assoc_get m rag_answer_header_dict = Some h -> is_written h = true.
Proof.
  intros Hh.
  destruct (header_dict_cases m h Hh) as [[-> ->]|[[-> ->]|[-> ->]]];
    reflexivity.
Qed.

Section BatchThenEvaluate.

Variables (raw vo go gv : pyobj) (ratio : Q) (method : rerank_method)
          (nnf : bool) (hint ap : string) (maxl : Z).
Variables (s : State) (df : DataFrame).
(** The context that the run of each row returns. *)
Variable ctxf : nat -> gmap string pyobj.

Hypothesis question_file : questions_file s = Some df.
Hypothesis well_formed : df_wf df = true.
Hypothesis has_columns : df_cols df <> [].
Hypothesis distinct_columns : NoDup (columns df).
Hypothesis not_rejected : request_rejected raw vo go gv = false.
Hypothesis runs_return : forall i q,
  i < df_len df -> question_at df i = Some q ->
  pipeline_run (run_calls s + i)
               (composed_stages vo go gv ratio method nnf hint ap)
               (mkRun q raw vo go gv) = RunOk (ctxf i).

(** The mode [m] is the first of the registry for which a run gave an
    answer, and no run gave contexts for it. *)
Variables (m h : string) (before after : list string).
Hypothesis registry : recognized_modes = before ++ m :: after.
Hypothesis context_column : assoc_get m rag_answer_header_dict = Some h.
Hypothesis nothing_before : forall m' i v,
  In m' before -> i < df_len df ->
  written_cell (answer_of (ctxf i)) m' = Some v -> py_isna v = true.
Hypothesis answered : exists i v,
  i < df_len df /\ written_cell (answer_of (ctxf i)) m = Some v
  /\ py_isna v = false.
Hypothesis no_contexts : forall i v,
  i < df_len df ->
  written_cell (answer_of (ctxf i)) h = Some v -> py_isna v = true.

Let batch := several_rag_answer raw vo go gv ratio method nnf hint ap maxl.


End BatchThenEvaluate.

End MoreProperties.

(** * The further properties on concrete runs *)

Lemma rag_answer_upstream_failure_witness :
  let call :=
    @rag_answer (Demo.fails_at 0) (PyStr "Who is Al Pacino?") (PyBool true)
      (PyBool false) (PyBool false) (PyBool false) (1 # 2) bleu false ""
      "Answer the question." in
  (call Demo.state0).1
  = Raise (GrError "An unexpected error occurred: graph server unreachable")
  /\ last (emitted call Demo.state0)
     = Some (EvLogCritical "graph server unreachable").
Proof.
  destruct (@rag_answer_upstream_failure (Demo.fails_at 0)
              (PyStr "Who is Al Pacino?") (PyBool true) (PyBool false)
              (PyBool false) (PyBool false) (1 # 2) bleu false ""
              "Answer the question." Demo.state0) as (Hres & Hlast & _);
    [reflexivity..|].
  cbn zeta. split; [exact Hres|exact Hlast].
Defined.

Lemma rag_answer_success_shape_witness :
  (@rag_answer Demo.always_fallback (PyStr "Who is Al Pacino?") (PyBool false)
     (PyBool false) (PyBool false) (PyBool true) (1 # 2) reranker false ""
     "Answer the question." Demo.state0).1
  = Ok (Tuple5 (PyStr "") (PyStr "") (PyStr "") (PyStr "It is in the graph.")
          (mkContexts PyNone PyNone
             (PyList [PyStr "Who is Al Pacino?"; PyStr "a retrieved passage"]))).
Proof.
  destruct (@rag_answer_success_shape Demo.always_fallback
              (PyStr "Who is Al Pacino?") (PyBool false) (PyBool false)
              (PyBool false) (PyBool true) (1 # 2) reranker false ""
              "Answer the question." Demo.state0
              (Demo.fallback_context (PyStr "Who is Al Pacino?")))
    as (Hres & _); [reflexivity..|].
  exact Hres.
Defined.

Lemma read_file_to_excel_supported_witness :
  let call := @read_file_to_excel DemoMore.long_upload (Some "many.xlsx") None in
  exists preview,
    (call Demo.state_answered).1 = Ok (preview, 40)
    /\ df_len preview = 40
    /\ questions_file (call Demo.state_answered).2 = Some DemoMore.many_questions
    /\ answers_file (call Demo.state_answered).2 = None.
Proof.
  destruct (@read_file_to_excel_supported DemoMore.long_upload "many" ".xlsx"
              None Demo.state_answered DemoMore.many_questions)
    as (preview & Hres & Hlen & _ & _ & Hq & Ha & _).
  - left. reflexivity.
  - reflexivity.
  - cbn zeta. exists preview.
    split; [exact Hres|]. split; [exact Hlen|]. split; [exact Hq|exact Ha].
Defined.

Lemma read_file_to_excel_unreadable_witness :
  let call := @read_file_to_excel Demo.always_fallback (Some "missing.csv") None in
  (call Demo.state_answered).1 = Raise (FileNotFoundError "missing.csv")
  /\ questions_file (call Demo.state_answered).2
     = questions_file Demo.state_answered
  /\ answers_file (call Demo.state_answered).2 = None.
Proof.
  destruct (@read_file_to_excel_unreadable Demo.always_fallback "missing" ".csv"
              None Demo.state_answered (FileNotFoundError "missing.csv"))
    as (Hres & Hq & Ha & _).
  - right. reflexivity.
  - reflexivity.
  - cbn zeta. split; [exact Hres|]. split; [exact Hq|exact Ha].
Defined.

Lemma upload_then_preview_witness :
  (@change_showing_excel None 2
     (@read_file_to_excel DemoMore.long_upload (Some "many.xlsx") None
        Demo.state_answered).2).1
  = Ok (mkDF 2 [("Question", replicate 2 (PyStr "Who is Al Pacino?"))]).
Proof.
  pose proof (@upload_then_preview DemoMore.long_upload "many" ".xlsx" None
                Demo.state_answered DemoMore.many_questions None 2
                (or_introl eq_refl) eq_refl) as Hshow.
  cbn zeta in Hshow. exact (f_equal fst Hshow).
Defined.







Lemma several_rag_answer_no_rows_witness :
  let batch :=
    @several_rag_answer Demo.always_fallback (PyBool true) (PyBool false)
      (PyBool false) (PyBool false) (1 # 2) bleu false ""
      "Answer the question." 1 in
  answers_file (batch DemoMore.state_no_questions).2 = Some (mkDF 0 [])
  /\ run_calls (batch DemoMore.state_no_questions).2 = 0.
Proof.
  destruct (@several_rag_answer_no_rows Demo.always_fallback (PyBool true)
              (PyBool false) (PyBool false) (PyBool false) (1 # 2) bleu false
              "" "Answer the question." 1 DemoMore.state_no_questions
              DemoMore.no_questions)
    as (shown & _ & _ & _ & Hfile & _ & Hruns); [reflexivity..|].
  cbn zeta. split; [exact Hfile|exact Hruns].
Defined.

Lemma evaluate_rag_missing_contexts_witness :
  @evaluate_rag Demo.always_fallback ["faithfulness"] 1
    (DemoMore.state_with_answers DemoMore.doc_without_contexts)
  = (Raise (KeyError "Vector Contexts"),
     DemoMore.state_with_answers DemoMore.doc_without_contexts).
Proof.
  apply (@evaluate_rag_missing_contexts Demo.always_fallback ["faithfulness"] 1
           (DemoMore.state_with_answers DemoMore.doc_without_contexts)
           DemoMore.doc_without_contexts "Vector-only Answer" []
           "Vector Contexts"); reflexivity.
Defined.

Lemma evaluate_rag_unparsable_contexts_witness :
  @evaluate_rag Demo.always_fallback ["faithfulness"] 1
    (DemoMore.state_with_answers DemoMore.doc_with_bad_contexts)
  = (Raise (ValueError "Expecting value"),
     DemoMore.state_with_answers DemoMore.doc_with_bad_contexts).
Proof.
  apply (@evaluate_rag_unparsable_contexts Demo.always_fallback
           ["faithfulness"] 1
           (DemoMore.state_with_answers DemoMore.doc_with_bad_contexts)
           DemoMore.doc_with_bad_contexts "Vector-only Answer" []
           "Vector Contexts" [PyStr "a retrieved passage"]);
    reflexivity.
Defined.

Lemma evaluate_rag_unknown_metric_witness :
  @evaluate_rag Demo.always_fallback ["faithfulness"; "bleu_score"; "context_recall"]
    1 Demo.state_answered
  = (Raise (KeyError "bleu_score"), Demo.state_answered).
Proof.
  apply (@evaluate_rag_unknown_metric Demo.always_fallback ["faithfulness"]
           "bleu_score" ["context_recall"] 1 Demo.state_answered
           Demo.answered_doc "Vector-only Answer" ["Graph-only Answer"]
           "Vector Contexts"
           [PyStr (Demo.dumps (PyList [PyStr "a retrieved passage"]))]
           [PyList [PyStr "a retrieved passage"]]);
    try reflexivity.
  intros x [<-|[]]. exists "faithfulness". reflexivity.
Defined.

Lemma evaluate_rag_several_rows_witness :
  (@evaluate_rag Demo.always_fallback ["faithfulness"] 2
     (DemoMore.state_with_answers DemoMore.doc_of_two_rows)).1
  = Raise (ValueError "Length of values does not match length of index")
  /\ eval_calls (@evaluate_rag Demo.always_fallback ["faithfulness"] 2
                   (DemoMore.state_with_answers DemoMore.doc_of_two_rows)).2
     = 2.
Proof.
  destruct (@evaluate_rag_several_rows Demo.always_fallback ["faithfulness"]
              ["faithfulness"] eq_refl
              (fun n ds => ex_intro _ _ (conj eq_refl (conj eq_refl eq_refl)))
              2 (DemoMore.state_with_answers DemoMore.doc_of_two_rows)
              DemoMore.doc_of_two_rows) as [Hraise Hcalls].
  - reflexivity.
  - reflexivity.
  - vm_compute. lia.
  - discriminate.
  - reflexivity.
  - reflexivity.
  - vm_compute. reflexivity.
  - split; [exact Hraise|exact Hcalls].
Defined.


Lemma evaluate_rag_datasets_witness :
  @dataset_of Demo.always_fallback (df_head 1 Demo.answered_doc) "Vector-only Answer"
  = Some (mkDataset [PyStr "Who is Al Pacino?"] [PyStr "An American actor."]
                    [PyList [PyStr "a retrieved passage"]] [PyStr "An actor."])
  /\ Forall2 (@scores_column Demo.always_fallback (df_head 1 Demo.answered_doc)
                ["faithfulness"])
             ["Vector-only Answer"; "Graph-only Answer"]
             (List.filter is_evaluate
                (emitted (@evaluate_rag Demo.always_fallback ["faithfulness"] 1)
                         Demo.state_answered)).
Proof.
  split; [vm_compute; reflexivity|].
  apply (@evaluate_rag_datasets Demo.always_fallback ["faithfulness"]
           ["faithfulness"] eq_refl
           (fun n ds => ex_intro _ _ eq_refl)
           1 Demo.state_answered Demo.answered_doc).
  - reflexivity.
  - reflexivity.
  - reflexivity.
  - vm_compute. reflexivity.
Defined.

Lemma several_rag_answer_preview_witness :
  let batch :=
    @several_rag_answer Demo.always_fallback (PyBool false) (PyBool false)
      (PyBool false) (PyBool true) (1 # 2) bleu false ""
      "Answer the question." 2 in
  exists shown doc,
    (batch Demo.state0).1 = Ok (shown, answers_path)
    /\ answers_file (batch Demo.state0).2 = Some doc
    /\ columns doc = [ "Question"; "Expected Answer"; "Graph-Vector Answer";
                       "Graph-Vector Contexts" ]
    /\ columns shown = [ "Question"; "Graph-Vector Answer"; "Expected Answer" ]
    /\ df_len doc = 3 /\ df_len shown = 2
    /\ df_at shown 1 "Graph-Vector Answer" = Some (PyStr "It is in the graph.").
Proof.
  cbn zeta.
  set (shown :=
         mkDF 2 [ ("Question", [PyStr "Who is Al Pacino?"; PyStr "Who is Robert De Niro?"]);
                  ("Graph-Vector Answer", [PyStr "It is in the graph."; PyStr "It is in the graph."]);
                  ("Expected Answer", [PyStr "An actor."; PyStr "An actor."]) ]).
  destruct (@several_rag_answer_preview Demo.always_fallback (PyBool false)
              (PyBool false) (PyBool false) (PyBool true) (1 # 2) bleu false ""
              "Answer the question." 2 Demo.state0 shown answers_path)
    as (doc & Hfile & Hcols & Hlen & Hcells).
  - lia.
  - vm_compute. reflexivity.
  - exists shown, doc. split; [vm_compute; reflexivity|]. split; [exact Hfile|].
    specialize (Hcells 1 "Graph-Vector Answer").
    vm_compute in Hfile. injection Hfile as <-.
    split; [reflexivity|]. split; [exact Hcols|].
    split; [reflexivity|]. split; [exact Hlen|].
    rewrite Hcells; [reflexivity|lia|cbn; tauto].
Defined.
